(** * KiBot [copy_files] output: file collection and copy engine

    A shallow embedding of [kibot/out_copy_files.py] (classes [FilesList],
    [Copy_FilesOptions]) together with the parts of the Python standard
    library it is written against ([os.path], [fnmatch], [glob], a small
    POSIX file system), followed by the properties of the collector and of
    the executor. *)

From Stdlib Require Import Ascii String.
From stdpp Require Import gmap strings list fin_maps sorting pretty.

(** ** Python [str] helpers *)

Module Str.

(** [s.startswith(p)] *)
Definition startswith (s p : string) : bool := String.prefix p s.

(** [s.endswith(p)] *)
Definition endswith (s p : string) : bool :=
  String.prefix (String.rev p) (String.rev s).

(** [s[:-n]] for [n <= len(s)] *)
Definition drop_end (n : nat) (s : string) : string :=
  String.substring 0 (String.length s - n) s.

(** [s.split('/')]: always at least one field. *)
Fixpoint split (s : string) : list string :=
  match s with
  | "" => [""]
  | String c s' =>
      if Ascii.eqb c "/"%char then "" :: split s'
      else match split s' with
           | h :: t => String c h :: t
           | [] => [String c ""]
           end
  end.

(** ['/'.join(l)] *)
Fixpoint join (l : list string) : string :=
  match l with
  | [] => ""
  | [x] => x
  | x :: l' => x +:+ "/" +:+ join l'
  end.

(** [s.lstrip('/')] *)
Fixpoint lstrip (s : string) : string :=
  match s with
  | String c s' => if Ascii.eqb c "/"%char then lstrip s' else s
  | "" => ""
  end.

(** [s.rstrip('/')] *)
Definition rstrip (s : string) : string := String.rev (lstrip (String.rev s)).

Definition eqb (a b : string) : bool := bool_decide (a = b).

(** [x in l] for a list of strings *)
Definition inb (x : string) (l : list string) : bool := bool_decide (x ∈ l).

(** truthiness of a Python string *)
Definition truthy (s : string) : bool := negb (eqb s "").

End Str.

(** ** [posixpath] *)

Module os_path.

Definition isabs (p : string) : bool := Str.startswith p "/".

(** [os.path.join(a, b)] *)
Definition join (a b : string) : string :=
  if Str.startswith b "/" then b
  else if negb (Str.truthy a) || Str.endswith a "/" then a +:+ b
  else a +:+ "/" +:+ b.

(** [os.path.basename(p)]: what follows the last slash. *)
Definition basename (p : string) : string :=
  default "" (last (Str.split p)).

(** [os.path.dirname(p)]: the head up to the last slash, trailing slashes
    stripped unless the head is made of slashes only. *)
Definition dirname (p : string) : string :=
  let head := String.substring 0 (String.length p - String.length (basename p)) p in
  if Str.truthy head && Str.truthy (Str.lstrip head) then Str.rstrip head else head.

(** One iteration of the component loop of [normpath]. *)
Definition norm_step (initial_slashes : nat) (new_comps : list string) (comp : string)
  : list string :=
  if Str.eqb comp "" || Str.eqb comp "." then new_comps
  else if negb (Str.eqb comp "..")
          || (Nat.eqb initial_slashes 0 && bool_decide (new_comps = []))
          || (negb (bool_decide (new_comps = []))
              && Str.eqb (default "" (last new_comps)) "..")
  then new_comps ++ [comp]
  else removelast new_comps.

Definition initial_slashes (path : string) : nat :=
  if Str.startswith path "/" then
    if Str.startswith path "//" && negb (Str.startswith path "///") then 2 else 1
  else 0.

(** [os.path.normpath(path)] *)
Definition normpath (path : string) : string :=
  if negb (Str.truthy path) then "." else
  let i := initial_slashes path in
  let comps := fold_left (norm_step i) (Str.split path) [] in
  let p := Str.join comps in
  let p := match i with 0 => p | 1 => "/" +:+ p | _ => "//" +:+ p end in
  if Str.truthy p then p else ".".

(** [os.path.abspath(path)] in the working directory [cwd]. *)
Definition abspath (cwd path : string) : string :=
  normpath (if isabs path then path else join cwd path).

Definition path_list (cwd p : string) : list string :=
  let tail := Str.lstrip (abspath cwd p) in
  if Str.truthy tail then Str.split tail else [].

(** length of the common prefix of two component lists *)
Fixpoint commonprefix_len (a b : list string) : nat :=
  match a, b with
  | x :: a', y :: b' => if Str.eqb x y then S (commonprefix_len a' b') else 0
  | _, _ => 0
  end.

(** [os.path.relpath(path, start)] in the working directory [cwd]; the
    [ValueError] on an empty [path] is not reached by the callers below. *)
Definition relpath (cwd path start : string) : string :=
  let start_list := path_list cwd start in
  let path_list := path_list cwd path in
  let i := commonprefix_len start_list path_list in
  let rel_list := replicate (length start_list - i) ".." ++ drop i path_list in
  match rel_list with
  | [] => "."
  | _ => Str.join rel_list
  end.

End os_path.


(** ** [fnmatch]: shell-style wildcards *)

Module fnmatch.

Inductive tok :=
| TStar                                        (* [*] *)
| TAny                                         (* [?] *)
| TLit (c : ascii)
| TSet (neg : bool) (items : list (ascii * ascii)).   (* [[seq]], [[!seq]] *)

(** characters of a set up to (excluding) the closing bracket *)
Fixpoint scan_set (s : string) : option (list ascii) :=
  match s with
  | "" => None
  | String c s' => if Ascii.eqb c "]"%char then Some [] else cons c <$> scan_set s'
  end.

Fixpoint set_items (l : list ascii) : list (ascii * ascii) :=
  match l with
  | a :: l1 =>
      match l1 with
      | m :: b :: l2 => if Ascii.eqb m "-"%char then (a, b) :: set_items l2
                        else (a, a) :: set_items l1
      | _ => (a, a) :: set_items l1
      end
  | [] => []
  end.

(** What follows an opening bracket: the set and the number of characters
    it takes, or [None] when the bracket is never closed (then it is a
    literal). A closing bracket in first position belongs to the set. *)
Definition bracket (s : string) : option (tok * nat) :=
  let '(neg, s1) := match s with
                    | String "!"%char s' => (true, s')
                    | _ => (false, s)
                    end in
  let stuff := match s1 with
               | String "]"%char s2 => cons "]"%char <$> scan_set s2
               | _ => scan_set s1
               end in
  (fun l => (TSet neg (set_items l), (if neg then 1 else 0) + length l + 1)) <$> stuff.

(** [fnmatch.translate], to tokens instead of a regular expression;
    [skip] counts the characters already taken by a set. *)
Fixpoint translate (skip : nat) (pat : string) : list tok :=
  match pat with
  | "" => []
  | String c rest =>
      match skip with
      | S k => translate k rest
      | 0 =>
          if Ascii.eqb c "*"%char then TStar :: translate 0 rest
          else if Ascii.eqb c "?"%char then TAny :: translate 0 rest
          else if Ascii.eqb c "["%char then
            match bracket rest with
            | Some (t, n) => t :: translate n rest
            | None => TLit c :: translate 0 rest
            end
          else TLit c :: translate 0 rest
      end
  end.

Definition in_range (c : ascii) (r : ascii * ascii) : bool :=
  (nat_of_ascii (fst r) <=? nat_of_ascii c) && (nat_of_ascii c <=? nat_of_ascii (snd r)).

Definition tok_match (t : tok) (c : ascii) : bool :=
  match t with
  | TStar | TAny => true
  | TLit d => Ascii.eqb c d
  | TSet neg items => xorb neg (existsb (in_range c) items)
  end.

(** the whole name must match *)
Fixpoint match_toks (p : list tok) : string -> bool :=
  match p with
  | [] => fun s => Str.eqb s ""
  | TStar :: p' =>
      fix star (s : string) : bool :=
        match_toks p' s || match s with
                           | String _ s' => star s'
                           | "" => false
                           end
  | t :: p' => fun s =>
      match s with
      | String c s' => tok_match t c && match_toks p' s'
      | "" => false
      end
  end.

(** [fnmatch.fnmatchcase(name, pat)] *)
Definition fnmatch (name pat : string) : bool := match_toks (translate 0 pat) name.

(** [fnmatch.filter(names, pat)] *)
Definition filter (names : list string) (pat : string) : list string :=
  List.filter (fun n => fnmatch n pat) names.

End fnmatch.


(** ** A small POSIX file system

    A file system maps absolute normalised paths to nodes; the root is
    always a directory. A node is looked up under its whole path, as one
    key: a symbolic link is followed when it is the last component of the
    path, up to the kernel's limit, and a relative target is resolved
    against the path of the link as it is written. This is what POSIX does
    for the paths none of whose directories is a link; a directory that is
    itself a link is not walked through. The properties that say where a
    link leads are stated for such paths. *)

Inductive node :=
| Dir
| File (data : string)
| Link (target : string).

Global Instance node_eq_dec : EqDecision node.
Proof. solve_decision. Defined.

Abbreviation FS := (gmap string node).

Module os.

Definition MAXSYMLINKS : nat := 40.

Definition get (fs : FS) (p : string) : option node :=
  if Str.eqb p "/" then Some Dir else fs !! p.

(** Follows the links from the absolute path [p]: the path reached and
    the node found there. *)
Fixpoint resolve (fuel : nat) (fs : FS) (p : string) : string * option node :=
  match get fs p with
  | Some (Link t) =>
      match fuel with
      | 0 => (p, None)
      | S n => resolve n fs (os_path.normpath (os_path.join (os_path.dirname p) t))
      end
  | o => (p, o)
  end.

Definition lstat (cwd : string) (fs : FS) (p : string) : option node :=
  get fs (os_path.abspath cwd p).

Definition stat (cwd : string) (fs : FS) (p : string) : option node :=
  snd (resolve MAXSYMLINKS fs (os_path.abspath cwd p)).

(** [os.path.realpath(p)] *)
Definition realpath (cwd : string) (fs : FS) (p : string) : string :=
  fst (resolve MAXSYMLINKS fs (os_path.abspath cwd p)).

Definition isfile (cwd : string) (fs : FS) (p : string) : bool :=
  match stat cwd fs p with Some (File _) => true | _ => false end.

Definition isdir (cwd : string) (fs : FS) (p : string) : bool :=
  match stat cwd fs p with Some Dir => true | _ => false end.

Definition islink (cwd : string) (fs : FS) (p : string) : bool :=
  match lstat cwd fs p with Some (Link _) => true | _ => false end.

(** [os.path.samefile(a, b)]; [None] is [FileNotFoundError]. *)
Definition samefile (cwd : string) (fs : FS) (a b : string) : option bool :=
  match stat cwd fs a, stat cwd fs b with
  | Some _, Some _ => Some (Str.eqb (realpath cwd fs a) (realpath cwd fs b))
  | _, _ => None
  end.

(** [os.remove(p)]; [None] when [p] is missing or a directory. *)
Definition remove (cwd : string) (fs : FS) (p : string) : option FS :=
  match lstat cwd fs p with
  | Some (File _) | Some (Link _) => Some (delete (os_path.abspath cwd p) fs)
  | _ => None
  end.

(** Creates the directories [pre/c1], [pre/c1/c2], ... that are missing;
    the leaf may exist (as a directory) only when [exist_ok]. *)
Fixpoint mkdirs (exist_ok : bool) (fs : FS) (pre : string) (comps : list string)
  : option FS :=
  match comps with
  | [] => Some fs
  | c :: cs =>
      let p := os_path.join pre c in
      match get fs p with
      | None => mkdirs exist_ok (<[p := Dir]> fs) p cs
      | Some _ =>
          match snd (resolve MAXSYMLINKS fs p) with
          | Some Dir =>
              if bool_decide (cs = []) && negb exist_ok then None
              else mkdirs exist_ok fs p cs
          | _ => None
          end
      end
  end.

(** [os.makedirs(p, exist_ok=exist_ok)]; [None] is an [OSError]. *)
Definition makedirs (cwd : string) (exist_ok : bool) (fs : FS) (p : string) : option FS :=
  match os_path.path_list cwd p with
  | [] => if exist_ok then Some fs else None
  | comps => mkdirs exist_ok fs "/" comps
  end.

(** [os.symlink(target, p)]; [None] when [p] exists or has no parent
    directory. *)
Definition symlink (cwd : string) (fs : FS) (target p : string) : option FS :=
  match lstat cwd fs p with
  | Some _ => None
  | None =>
      if isdir cwd fs (os_path.dirname (os_path.abspath cwd p))
      then Some (<[os_path.abspath cwd p := Link target]> fs)
      else None
  end.

(** [shutil.copy2(src, dst)]: into [dst] when it is a directory, over the
    file [dst] resolves to when it exists, else a new file; [None] stands
    for the exceptions (missing source or parent, same file, ...). *)
Definition copy2 (cwd : string) (fs : FS) (src dst : string) : option FS :=
  match stat cwd fs src with
  | Some (File data) =>
      let dst := if isdir cwd fs dst then os_path.join dst (os_path.basename src) else dst in
      match samefile cwd fs src dst with
      | Some true => None
      | _ =>
          let '(q, o) := resolve MAXSYMLINKS fs (os_path.abspath cwd dst) in
          match o with
          | Some (File _) => Some (<[q := File data]> fs)
          | Some _ => None
          | None =>
              if isdir cwd fs (os_path.dirname q) && negb (bool_decide (is_Some (get fs q)))
              then Some (<[q := File data]> fs)
              else None
          end
      end
  | _ => None
  end.

End os.

(** ** [glob] *)

Module glob.

Definition has_magic (s : string) : bool :=
  existsb (fun c => Ascii.eqb c "*"%char || Ascii.eqb c "?"%char || Ascii.eqb c "["%char)
          (list_ascii_of_string s).

Definition is_hidden (name : string) : bool := Str.startswith name ".".

(** one pattern component against one name of a directory *)
Definition comp_match (pat name : string) : bool :=
  if has_magic pat
  then (negb (is_hidden name) || is_hidden pat) && fnmatch.fnmatch name pat
  else Str.eqb pat name.

(** Pattern components against the components of an existing path; the
    recursive [**] stands for any number of names that are not hidden. *)
Fixpoint gmatch (ps : list string) : list string -> bool :=
  match ps with
  | [] => fun cs => bool_decide (cs = [])
  | p :: ps' =>
      if Str.eqb p "**" then
        fix star (cs : list string) : bool :=
          gmatch ps' cs || match cs with
                           | c :: cs' => negb (is_hidden c) && star cs'
                           | [] => false
                           end
      else fun cs =>
        match cs with
        | c :: cs' => comp_match p c && gmatch ps' cs'
        | [] => false
        end
  end.

(** the names of [p], without the empty and [.] fields *)
Definition comps (p : string) : list string :=
  List.filter (fun c => negb (Str.eqb c "" || Str.eqb c ".")) (Str.split p).

(** [glob.iglob(pattern, recursive=True)] for an absolute pattern: the
    existing paths it matches, in the order the file system lists them.
    The pattern is read up to [.] and [..], and the paths are returned
    normalised. *)
Definition iglob (fs : FS) (pattern : string) : list string :=
  List.filter (fun k => gmatch (comps (os_path.normpath pattern)) (comps k))
              (fst <$> map_to_list fs).

End glob.

(** ** Errors, warnings and the state of a run *)

(** Exit levels of [kibot/misc.py] used by this module. *)
Inductive exit_code := WRONG_ARGUMENTS | INTERNAL_ERROR.

(** Warning identifiers of [kibot/misc.py] used by this module. *)
Inductive warn_code := W_COPYOVER | W_MISSLIB | W_MISSCMP.

Inductive exn :=
| KiPlotConfigurationError (msg : string)           (* user configuration error *)
| SystemExit (code : exit_code) (msg : string)      (* [GS.exit_with_error(msg, code)] *)
| OSError (call : string) (path : string)           (* an [os]/[shutil] call failed *)
| TypeError (msg : string).

Inductive warning := Warning (code : warn_code) (msg : string).

(** the file-system calls of the executor, as issued *)
Inductive fs_op :=
| OpMakedirs (p : string)
| OpRemove (p : string)
| OpSymlink (target p : string)
| OpCopy2 (src dst : string).

(** A library alias of [kibot/kicad/config.py]. *)
Record LibAlias := mkLibAlias {
  la_name : string;
  la_legacy : bool;
  la_type : string;
  la_options : string;
  la_descr : string;
  la_uri : string
}.

Definition LibAlias_set_uri (a : LibAlias) (uri : string) : LibAlias :=
  mkLibAlias (la_name a) (la_legacy a) (la_type a) (la_options a) (la_descr a) uri.

(** A saved library table: file name, footprint or symbol table, aliases in
    insertion order. *)
Record LibTable := mkLibTable {
  lt_fname : string;
  lt_is_fp : bool;
  lt_aliases : list (string * LibAlias)
}.

Record World := mkWorld {
  fs : FS;                      (* the file system *)
  done : gset string;           (* names of the outputs whose [_done] flag is set *)
  executed : list string;       (* executions of producer outputs, oldest first *)
  warnings : list warning;      (* [logger.warning] calls, oldest first *)
  ops : list fs_op;             (* file-system calls of [run], oldest first *)
  tables : list LibTable        (* library tables saved, oldest first *)
}.

Definition set_fs (g : FS -> FS) (w : World) : World :=
  mkWorld (g (fs w)) (done w) (executed w) (warnings w) (ops w) (tables w).
Definition record_run (name : string) (w : World) : World :=
  mkWorld (fs w) ({[name]} ∪ done w) (executed w ++ [name]) (warnings w) (ops w) (tables w).
Definition add_warning (x : warning) (w : World) : World :=
  mkWorld (fs w) (done w) (executed w) (warnings w ++ [x]) (ops w) (tables w).
Definition add_op (o : fs_op) (w : World) : World :=
  mkWorld (fs w) (done w) (executed w) (warnings w) (ops w ++ [o]) (tables w).
Definition add_table (t : LibTable) (w : World) : World :=
  mkWorld (fs w) (done w) (executed w) (warnings w) (ops w) (tables w ++ [t]).

(** ** The monad of the program: state and exceptions *)

Inductive result (A : Type) :=
| Ok (a : A)
| Raise (e : exn).
Arguments Ok {A} a.
Arguments Raise {A} e.

Definition M (A : Type) : Type := World -> result A * World.

Global Instance M_ret : MRet M := fun A a w => (Ok a, w).
Global Instance M_bind : MBind M := fun A B f m w =>
  match m w with
  | (Ok a, w') => f a w'
  | (Raise e, w') => (Raise e, w')
  end.

Definition raise {A} (e : exn) : M A := fun w => (Raise e, w).
Definition gets {A} (g : World -> A) : M A := fun w => (Ok (g w), w).
Definition modify (g : World -> World) : M unit := fun w => (Ok tt, g w).

(** a state change that can fail with an [OSError] *)
Definition try_fs (call path : string) (g : FS -> option FS) : M unit := fun w =>
  match g (fs w) with
  | Some fs' => (Ok tt, set_fs (fun _ => fs') w)
  | None => (Raise (OSError call path), w)
  end.

(** [for x in l: body], the locals of the loop threaded as [acc] *)
Fixpoint foldM {A B} (body : B -> A -> M B) (acc : B) (l : list A) : M B :=
  match l with
  | [] => mret acc
  | x :: l' => acc' ← body acc x; foldM body acc' l'
  end.

Definition for_ {A} (l : list A) (body : A -> M unit) : M unit :=
  foldM (fun _ x => body x) tt l.

Definition when (b : bool) (c : M unit) : M unit := if b then c else mret tt.

(** ** The file specifications ([FilesList]) *)

Inductive source_type := st_files | st_out_files | st_output | st_3d_models | st_project.

Global Instance source_type_eq_dec : EqDecision source_type.
Proof. solve_decision. Defined.

(** The options of one entry and the attributes the collector sets on it
    ([_append_mode], [output_dir], [rel_dirs]). *)
Record FilesList := mkFilesList {
  source : string;
  f_source_type : source_type;
  filter : string;
  dest : string;
  save_pcb : bool;
  _append_mode : bool;
  f_output_dir : string;
  f_rel_dirs : list (option string)
}.

Definition FilesList_default : FilesList :=
  mkFilesList "*" st_files ".*" "" false false "" [].

(** the first directory of [dirs] that [fname] starts with *)
Fixpoint first_base (dirs : list (option string)) (fname : string) : option string :=
  match dirs with
  | [] => None
  | Some d :: dirs' => if Str.startswith fname d then Some d else first_base dirs' fname
  | None :: dirs' => first_base dirs' fname
  end.

(** [FilesList.apply_rename] *)
Definition apply_rename (cwd : string) (self : FilesList) (fname : string) : string :=
  let dest :=
    if Str.truthy (dest self) && negb (_append_mode self) then os_path.basename fname
    else match first_base (f_rel_dirs self) fname with
         | Some d => os_path.relpath cwd fname d
         | None => os_path.basename fname
         end in
  "${KIPRJMOD}/" +:+ os_path.join (f_output_dir self) dest.

(** [may_be_rel] *)
Definition may_be_rel (cwd : string) (file : string) : string :=
  let rel_file := os_path.relpath cwd file "." in
  if String.length rel_file <? String.length file then rel_file else file.

(** ** The surroundings of the collector *)

(** A registered output, as this module uses it. *)
Record Output := mkOutput {
  o_name : string;
  o_str : string;                       (* [str(out)] *)
  o_get_targets : FS -> list string;    (* [out.get_targets(out_dir)] *)
  o_run : FS -> FS                      (* what running the output does *)
}.

(** What is extra in the list returned by [get_3d_models]: the name of a
    file the collector generates, or a (source, destination) pair. *)
Inductive extra :=
| Generated (path : string)
| Copied (src dst : string).

(** an entry of the list returned by [get_files] *)
Definition entry : Type := option string * string.

(** The collaborators and the global settings ([GS], [KiConf], the board,
    the schematic, the base classes), which are not part of this module. *)
Record Env := mkEnv {
  cwd : string;                                   (* [os.getcwd()] *)
  src_dir_outdir : string;                        (* [self.expand_filename_sch(GS.out_dir)] *)
  parent_str : string;                            (* [str(self._parent)] *)
  outputs : list Output;                          (* the registry, [RegOutput] *)
  ki6 : bool;                                     (* [GS.ki6] *)
  pcb_dir : option string;                        (* [GS.pcb_dir] *)
  pcb_file : string;                              (* [GS.pcb_file] *)
  pro_file : string;                              (* [GS.pro_file] *)
  sch_dir : string;                               (* [GS.sch_dir] *)
  models_3d_dir : string;                         (* [KiConf.models_3d_dir] *)
  party_3rd_dir : string;                         (* [KiConf.party_3rd_dir] *)
  FP_LIB_TABLE : string;
  SYM_LIB_TABLE : string;
  re_match : string -> string -> bool;            (* [re.compile(pat).match(s)] is not [None] *)
  expand_filename_both : string -> string;
  download_models :                               (* [Base3DOptions.download_models] *)
    string -> (FilesList -> string -> string) -> FilesList -> FS -> list string * FS;
  board_Save : string -> FS -> FS;                (* [GS.board.Save] *)
  sch : bool;                                     (* [GS.sch] is set *)
  sch_save_variant : string -> FS -> FS;          (* [GS.sch.save_variant] *)
  sch_get_files : list string;                    (* [GS.sch.get_files()] *)
  sch_lib_symbol_names : list (string * string);  (* [(obj.lib, obj.name)] of [GS.sch.lib_symbol_names] *)
  sch_write_lib : string -> string -> list string -> FS -> FS;
  copy_project : string -> bool -> FS -> (string * string * string) * FS;
  fix_page_layout : string -> bool -> FS -> list string * FS;
  get_modules : list (string * string);           (* [(lib nickname, item name)] of the footprints *)
  fp_nick_to_path : string -> option LibAlias;    (* [KiConf.fp_nick_to_path] *)
  create_fp_lib : string -> FS -> string * FS;    (* [GS.create_fp_lib]: the name of the library *)
  table_text : LibTable -> string;                (* what [KiConf.save_fp_lib_aliases] writes *)
  remove_temporals : FS -> FS
}.

(** the options of the output ([Copy_FilesOptions]) *)
Record Copy_FilesOptions := mkOptions {
  files : list FilesList;
  follow_links : bool;
  link_no_copy : bool;
  output_dir : string;                  (* set by the output or by [get_targets] *)
  rel_dirs : list (option string);
  _comps : bool
}.

Definition set_files (self : Copy_FilesOptions) (l : list FilesList) : Copy_FilesOptions :=
  mkOptions l (follow_links self) (link_no_copy self) (output_dir self) (rel_dirs self) (_comps self).
Definition set_rel_dirs (self : Copy_FilesOptions) (d : list (option string)) : Copy_FilesOptions :=
  mkOptions (files self) (follow_links self) (link_no_copy self) (output_dir self) d (_comps self).
Definition set_output_dir (self : Copy_FilesOptions) (d : string) : Copy_FilesOptions :=
  mkOptions (files self) (follow_links self) (link_no_copy self) d (rel_dirs self) (_comps self).

Definition set_3d (f : FilesList) (append : bool) (odir : string) (rd : list (option string))
  : FilesList :=
  mkFilesList (source f) (f_source_type f) (filter f) (dest f) (save_pcb f) append odir rd.
Definition set_f_output_dir (f : FilesList) (odir : string) : FilesList :=
  mkFilesList (source f) (f_source_type f) (filter f) (dest f) (save_pcb f)
              (_append_mode f) odir (f_rel_dirs f).

(** ** The collector and the executor ([Copy_FilesOptions]) *)

Section Collector.

Context (E : Env).

Definition isfile (p : string) : M bool := gets (fun w => os.isfile (cwd E) (fs w) p).
Definition isdir (p : string) : M bool := gets (fun w => os.isdir (cwd E) (fs w) p).
Definition islink (p : string) : M bool := gets (fun w => os.islink (cwd E) (fs w) p).

(** a collaborator that returns a value and changes the file system *)
Definition call_fs {A} (g : FS -> A * FS) : M A := fun w =>
  let '(a, fs') := g (fs w) in (Ok a, set_fs (fun _ => fs') w).

Definition warn (code : warn_code) (msg : string) : M unit :=
  modify (add_warning (Warning code msg)).

(** [GS.exit_with_error(msg, level)]: logs the message and exits with the
    level. *)
Definition exit_with_error {A} (msg : string) (level : exit_code) : M A :=
  raise (SystemExit level msg).

(** Modelled from the spec: the registry lookup [RegOutput.get_output] of
    [kibot/registrable.py] is missing; "get(name) -> Output | absent". *)
Definition get_output (name : string) : option Output :=
  List.find (fun o => Str.eqb (o_name o) name) (outputs E).

Definition is_done (out : Output) : M bool :=
  gets (fun w => bool_decide (o_name out ∈ done w)).

(** Modelled from the spec: the single-output runner [run_output] of
    [kibot/kiplot.py] is missing; an output that is not yet done is run
    and marked done, and the done flag "gates at most one execution per
    output per run". *)
Definition run_output (out : Output) : M unit := fun w =>
  if bool_decide (o_name out ∈ done w) then (Ok tt, w)
  else (Ok tt, record_run (o_name out) (set_fs (o_run out) w)).

Definition unknown_output_msg (from_output : string) : string :=
  "Unknown output `" +:+ from_output +:+ "` selected in " +:+ parent_str E.

Definition unable_msg (file : string) (out : Output) : string :=
  "Unable to generate `" +:+ file +:+ "` from " +:+ o_str out.

(** The body of the loop of [get_from_output] over the targets. *)
Definition check_target (out : Output) (file : string) : M unit :=
  b ← isfile file;
  if negb b then
    (* The target doesn't exist *)
    d ← is_done out;
    when (negb d) (run_output out);;
    b' ← isfile file;
    if negb b' then exit_with_error (unable_msg file out) INTERNAL_ERROR
    else mret tt
  else mret tt.

(** [Copy_FilesOptions.get_from_output]. The calls [config_output] and
    [get_output_dir] of [kibot/kiplot.py] prepare the producer and its
    directory; [o_get_targets] is the list [out.get_targets(out_dir)]. *)
Definition get_from_output (f : FilesList) (no_out_run : bool) : M (list string) :=
  let from_output := source f in
  match get_output from_output with
  | Some out =>
      files_list ← gets (fun w => o_get_targets out (fs w));
      when (negb no_out_run) (for_ files_list (check_target out));;
      mret files_list
  | None => exit_with_error (unknown_output_msg from_output) WRONG_ARGUMENTS
  end.

(** [KiConf.save_fp_lib_aliases(fname, aliases, is_fp)] *)
Definition save_fp_lib_aliases (fname : string) (aliases : list (string * LibAlias))
    (is_fp : bool) : M unit :=
  let t := mkLibTable fname is_fp aliases in
  modify (fun w => add_table t
    (set_fs (insert (os_path.abspath (cwd E) fname) (File (table_text E t))) w)).

(** the state of the loop of [copy_footprints] *)
Record fp_acc := mkFpAcc {
  fp_aliases : list (string * LibAlias);
  fp_extra : list extra;
  fp_added : gset string
}.

Definition has_key {V} (k : string) (d : list (string * V)) : bool := Str.inb k (d.*1).

Definition copy_footprints_step (out_lib_base out_lib_base_prj : string) (acc : fp_acc)
    (m : string * string) : M fp_acc :=
  let '(lib_nick, name) := m in
  match fp_nick_to_path E lib_nick with
  | None =>
      warn W_MISSLIB ("Missing footprint library `" +:+ lib_nick +:+ "`");;
      mret acc
  | Some src_alias =>
      let src_lib := la_uri src_alias in
      out_lib ← call_fs (create_fp_lib E (os_path.join out_lib_base lib_nick));
      let aliases :=
        if negb (has_key lib_nick (fp_aliases acc)) then
          fp_aliases acc ++
            [(lib_nick,
              LibAlias_set_uri src_alias (os_path.join out_lib_base_prj (lib_nick +:+ ".pretty")))]
        else fp_aliases acc in
      let mod_fname := name +:+ ".kicad_mod" in
      let footprint_src := os_path.join src_lib mod_fname in
      b ← isfile footprint_src;
      if negb b then
        warn W_MISSCMP ("Missing footprint `" +:+ name +:+ "` (" +:+ lib_nick +:+ ":"
                        +:+ name +:+ ")");;
        mret (mkFpAcc aliases (fp_extra acc) (fp_added acc))
      else if negb (bool_decide (footprint_src ∈ fp_added acc)) then
        let footprint_dst := os_path.join out_lib mod_fname in
        mret (mkFpAcc aliases (fp_extra acc ++ [Copied footprint_src footprint_dst])
                      ({[footprint_src]} ∪ fp_added acc))
      else mret (mkFpAcc aliases (fp_extra acc) (fp_added acc))
  end.

Definition copy_footprints_loop (self : Copy_FilesOptions) (dest : string) : M fp_acc :=
  let out_lib_base := os_path.join (os_path.join (output_dir self) dest) "footprints" in
  let out_lib_base_prj := os_path.join "${KIPRJMOD}" "footprints" in
  foldM (copy_footprints_step out_lib_base out_lib_base_prj) (mkFpAcc [] [] ∅)
        (get_modules E).

(** [Copy_FilesOptions.copy_footprints] *)
Definition copy_footprints (self : Copy_FilesOptions) (dest : string) (dry : bool)
  : M (list extra) :=
  acc ← copy_footprints_loop self dest;
  let table_fname := os_path.join (os_path.join (output_dir self) dest) (FP_LIB_TABLE E) in
  let extra_files := fp_extra acc ++ [Generated table_fname] in
  when (negb dry) (save_fp_lib_aliases table_fname (fp_aliases acc) true);;
  mret extra_files.

(** [libs.setdefault(lib, []).append(name)] *)
Fixpoint libs_add (libs : list (string * list string)) (lib name : string)
  : list (string * list string) :=
  match libs with
  | [] => [(lib, [name])]
  | (k, v) :: libs' =>
      if Str.eqb k lib then (k, v ++ [name]) :: libs' else (k, v) :: libs_add libs' lib name
  end.

Definition split_libs (objs : list (string * string)) : list (string * list string) :=
  fold_left (fun libs obj =>
               let lib := if Str.truthy (fst obj) then fst obj else "locally_edited" in
               libs_add libs lib (snd obj)) objs [].

(** [Copy_FilesOptions.copy_symbols] *)
Definition copy_symbols (self : Copy_FilesOptions) (dest : string) (dry : bool)
  : M (list extra) :=
  if negb (sch E) then mret [] else
  let out_lib_base := os_path.join (os_path.join (output_dir self) dest) "symbols" in
  let out_lib_base_prj := os_path.join "${KIPRJMOD}" "symbols" in
  let libs := split_libs (sch_lib_symbol_names E) in
  let table_fname := os_path.join (os_path.join (output_dir self) dest) (SYM_LIB_TABLE E) in
  let extra_files := [Generated table_fname] in
  if dry then
    mret (extra_files ++
          omap (fun l => if negb (Str.eqb (fst l) "locally_edited")
                         then Some (Generated (os_path.join out_lib_base (fst l +:+ ".kicad_sym")))
                         else None) libs)
  else
    '(aliases, extra_files) ←
      foldM (fun (acc : list (string * LibAlias) * list extra) (l : string * list string) =>
               let '(lib, comps) := l in
               if Str.eqb lib "locally_edited" then mret acc else
               modify (set_fs (sch_write_lib E out_lib_base lib comps));;
               let new_alias :=
                 mkLibAlias lib false "KiCad" "" ""
                            (os_path.join out_lib_base_prj (lib +:+ ".kicad_sym")) in
               mret (fst acc ++ [(lib, new_alias)],
                     snd acc ++ [Generated (os_path.join out_lib_base (lib +:+ ".kicad_sym"))]))
            ([], extra_files) libs;
    save_fp_lib_aliases table_fname aliases false;;
    mret extra_files.

(** [Copy_FilesOptions.add_sch_files]: the names appended to [files] *)
Definition add_sch_files (dest_dir : string) : list extra :=
  (fun f => Generated (os_path.join dest_dir (os_path.relpath (cwd E) f (sch_dir E))))
    <$> sch_get_files E.

(** the STEP or WRL counterpart of a model file name *)
Definition counterpart (fn : string) : option string :=
  if Str.endswith fn ".wrl" then Some (Str.drop_end 4 fn +:+ ".step")
  else if Str.endswith fn ".step" then Some (Str.drop_end 5 fn +:+ ".wrl")
  else None.

(** the [new_list] of [get_3d_models] *)
Definition new_list (fs : FS) (files_list : list string) : list string :=
  omap (fun fn =>
          match counterpart fn with
          | Some fn' =>
              if os.isfile (cwd E) fs fn' && negb (Str.inb fn' files_list)
              then Some fn' else None
          | None => None
          end) files_list.

(** The attributes [get_3d_models] sets on the entry before it looks for
    the models. *)
Definition set_3d_attrs (self : Copy_FilesOptions) (f : FilesList) (mode_project : bool)
  : FilesList :=
  if mode_project then
    (* From the PCB point this is just the 3D models dir *)
    set_3d f true "3d_models" (rel_dirs self)
  else
    let dest_dir := dest f in
    if Str.truthy dest_dir && Str.endswith dest_dir "+"
    then set_3d f true (Str.drop_end 1 dest_dir) (rel_dirs self)
    else set_3d f false dest_dir (rel_dirs self).

(** The block of [get_3d_models] that saves the board and, in the
    [project] mode, the schematic, the project, the footprints and the
    symbols: the extra files it generates. *)
Definition save_project (self : Copy_FilesOptions) (f : FilesList) (mode_project dry : bool)
  : M (list extra) :=
  let dest_dir := output_dir self in
  let dest_dir := if mode_project then os_path.join dest_dir (dest f) else dest_dir in
  when mode_project
       (try_fs "makedirs" dest_dir (fun fs => os.makedirs (cwd E) true fs dest_dir));;
  let fname := os_path.join dest_dir (os_path.basename (pcb_file E)) in
  extra_files ←
    (if negb dry then
       modify (set_fs (board_Save E fname));;
       if mode_project then
         modify (set_fs (sch_save_variant E dest_dir));;
         mret (add_sch_files dest_dir)
       else mret []
     else if mode_project then mret (add_sch_files dest_dir)
     else mret []);
  '(prj_name, prl_name, dru_name) ← call_fs (copy_project E fname dry);
  (* Extra files that we are generating *)
  let extra_files :=
    extra_files ++ [Generated fname]
      ++ (Generated <$> List.filter Str.truthy [prj_name; prl_name; dru_name]) in
  (* Worksheet *)
  b ← isfile prj_name;
  let prj_name_used := if dry && negb b then pro_file E else prj_name in
  wks ← call_fs (fix_page_layout E prj_name_used dry);
  let extra_files := extra_files ++ (Generated <$> List.filter Str.truthy wks) in
  if mode_project then
    fps ← copy_footprints self (dest f) dry;
    syms ← copy_symbols self (dest f) dry;
    mret (extra_files ++ fps ++ syms)
  else mret extra_files.

(** [Copy_FilesOptions.get_3d_models]: the list of models, the extra
    files, and the entry [f] with the attributes set on it. The board is
    loaded and filtered before, and restored after ([GS.check_pcb],
    [GS.load_board], [filter_pcb_components], [undo_3d_models_rename],
    [unfilter_pcb_components]): these calls act on the board in memory,
    which the state does not hold. *)
Definition get_3d_models (self : Copy_FilesOptions) (f : FilesList) (mode_project dry : bool)
  : M (list string * list extra * FilesList) :=
  let f := set_3d_attrs self f mode_project in
  (* Download missing models and rename all collected 3D models *)
  files_list ← call_fs (download_models E (source f) (apply_rename (cwd E)) f);
  extra_files ←
    (if save_pcb f || mode_project then save_project self f mode_project dry
     else mret []);
  (* Also include the step/wrl counterpart *)
  new_list ← gets (fun w => new_list (fs w) files_list);
  let f' :=
    if mode_project then
      (* From the output point this needs to add the destination dir *)
      set_f_output_dir f (os_path.join (dest f) (f_output_dir f))
    else f in
  mret (files_list ++ fnmatch.filter new_list (source f), extra_files, f').

(** The destination of a candidate [fname], as [get_files] computes it. *)
Definition dest_of (self : Copy_FilesOptions) (f : FilesList) (src_dir : string)
    (mode_3d mode_project : bool) (fname : string) : string :=
  let is_abs := os_path.isabs fname in
  if Str.truthy (dest f) && negb (_append_mode f) then
    (* A destination specified by the user:
       all files goes to the same destination directory *)
    os_path.join (dest f) (os_path.basename fname)
  else if (mode_3d || mode_project) && is_abs then
    let dest :=
      match first_base (rel_dirs self) fname with
      | Some d => os_path.relpath (cwd E) fname d
      | None => os_path.basename fname
      end in
    if _append_mode f then os_path.join (f_output_dir f) dest else dest
  else os_path.relpath (cwd E) fname src_dir.

(** the entries an extra file of [get_3d_models] gives, after the filter *)
Definition extra_entry (fil : string -> bool) (x : extra) : list entry :=
  match x with
  | Generated p => if fil p then [(None, p)] else []
  | Copied src dst => if fil src then [(Some src, dst)] else []
  end.

(** One iteration of the loop of [get_files] over [self.files]: the
    entries added for [f] and [f] as the iteration leaves it. *)
Definition get_files_step (self : Copy_FilesOptions) (no_out_run : bool) (f : FilesList)
  : M (list entry * FilesList) :=
  let src_dir_cwd := cwd E in
  let src_dir :=
    if bool_decide (f_source_type f = st_out_files) || bool_decide (f_source_type f = st_output)
    then src_dir_outdir E else src_dir_cwd in
  let mode_project := bool_decide (f_source_type f = st_project) in
  if mode_project && negb (ki6 E) then
    raise (KiPlotConfigurationError "The `project` mode needs KiCad 6 or newer")
  else
  let mode_3d := bool_decide (f_source_type f = st_3d_models) in
  (* Get the list of candidates *)
  '(files_list, extra_files, f) ←
    (if bool_decide (f_source_type f = st_output) then
       (* The files are generated by a KiBot output *)
       l ← get_from_output f no_out_run; mret (l, [], f)
     else if mode_3d || mode_project then
       (* The files are 3D models *)
       get_3d_models self f mode_project no_out_run
     else
       (* Regular files *)
       let source := expand_filename_both E (source f) in
       l ← gets (fun w => glob.iglob (fs w) (os_path.join src_dir source));
       mret (l, [], f));
  (* Filter and adapt them *)
  let fil := re_match E (filter f) in
  found ← gets (fun w =>
    (fun fname =>
       let fname_real :=
         if follow_links self then os.realpath (cwd E) (fs w) fname
         else os_path.abspath (cwd E) fname in
       (Some fname_real, dest_of self f src_dir mode_3d mode_project fname))
      <$> List.filter fil files_list);
  (* Process the special extra files *)
  mret (found ++ concat (extra_entry fil <$> extra_files), f).

(** the list of base paths, [self.rel_dirs] *)
Definition base_paths : M (list (option string)) :=
  let add (d : string) : M (list (option string)) :=
    if Str.truthy d then
      match pcb_dir E with
      | Some p => mret [Some (os_path.normpath (os_path.join p d))]
      | None => raise (TypeError "expected str, bytes or os.PathLike object, not NoneType")
      end
    else mret [] in
  d1 ← add (models_3d_dir E);
  d2 ← add (party_3rd_dir E);
  mret (d1 ++ d2 ++ [pcb_dir E]).

(** [Copy_FilesOptions.get_files]: the entries, and the options with the
    attributes the pass has set. *)
Definition get_files (self : Copy_FilesOptions) (no_out_run : bool)
  : M (list entry * Copy_FilesOptions) :=
  rd ← base_paths;
  let self := set_rel_dirs self rd in
  (* Process each file specification expanding it to real files *)
  '(files, specs) ←
    foldM (fun (acc : list entry * list FilesList) f =>
             '(l, f') ← get_files_step self no_out_run f;
             mret (fst acc ++ l, snd acc ++ [f']))
          ([], []) (files self);
  mret (files, set_files self specs).

(** Python's [sorted] on strings *)
Definition sorted (l : list string) : list string := merge_sort String.le l.

(** [Copy_FilesOptions.get_targets] *)
Definition get_targets (self : Copy_FilesOptions) (out_dir : string)
  : M (list string * Copy_FilesOptions) :=
  let self := set_output_dir self out_dir in
  '(files, self) ← get_files self true;
  mret (sorted ((fun e : entry => os_path.join out_dir (snd e)) <$> files), self).

(** [Copy_FilesOptions.get_dependencies] *)
Definition get_dependencies (self : Copy_FilesOptions)
  : M (list string * Copy_FilesOptions) :=
  '(files, self) ← get_files self true;
  mret (sorted (omap fst files), self).

Definition copyover_msg (src prev dest : string) : string :=
  "`" +:+ may_be_rel (cwd E) src +:+ "` and `" +:+ may_be_rel (cwd E) prev
      +:+ "` both are copied to `" +:+ may_be_rel (cwd E) dest +:+ "`".

Definition self_copy_msg (src dest : string) : string :=
  "Trying to copy " +:+ src +:+ " over itself " +:+ dest.

(** a file-system call of the executor: logged, then performed *)
Definition fs_call (o : fs_op) : M unit :=
  modify (add_op o);;
  match o with
  | OpMakedirs p => try_fs "makedirs" p (fun fs => os.makedirs (cwd E) false fs p)
  | OpRemove p => try_fs "remove" p (fun fs => os.remove (cwd E) fs p)
  | OpSymlink t p => try_fs "symlink" p (fun fs => os.symlink (cwd E) fs t p)
  | OpCopy2 s d => try_fs "copy2" s (fun fs => os.copy2 (cwd E) fs s d)
  end.

(** The blocks of the body of the loop of [run], for a source [src] and
    the destination [dest]. *)

(** [if not os.path.isdir(dest_dir): os.makedirs(dest_dir)] *)
Definition ensure_dir (dest_dir : string) : M unit :=
  b ← isdir dest_dir;
  when (negb b) (fs_call (OpMakedirs dest_dir)).

(** [if dest in copied: logger.warning(...)] *)
Definition warn_copyover (copied : gmap string string) (src dest : string) : M unit :=
  match copied !! dest with
  | Some prev => warn W_COPYOVER (copyover_msg src prev dest)
  | None => mret tt
  end.

(** the [try] block: [os.path.samefile] raises [FileNotFoundError], which
    is ignored, when one of the two is missing *)
Definition check_self_copy (src dest : string) : M unit :=
  same ← gets (fun w => os.samefile (cwd E) (fs w) src dest);
  match same with
  | Some true => raise (KiPlotConfigurationError (self_copy_msg src dest))
  | _ => mret tt
  end.

(** [if os.path.isfile(dest) or os.path.islink(dest): os.remove(dest)] *)
Definition remove_old (dest : string) : M unit :=
  b1 ← isfile dest;
  b2 ← islink dest;
  when (b1 || b2) (fs_call (OpRemove dest)).

(** the link or the copy *)
Definition put_op (self : Copy_FilesOptions) (src dest : string) : fs_op :=
  if link_no_copy self
  then OpSymlink (os_path.relpath (cwd E) src (os_path.dirname dest)) dest
  else OpCopy2 src dest.

(** The body of the loop of [run]; [copied] maps the destinations
    written so far to their sources. *)
Definition run_entry (self : Copy_FilesOptions) (output : string)
    (copied : gmap string string) (e : entry) : M (gmap string string) :=
  match e with
  | (None, _) =>
      (* Files we generate, we don't need to copy them *)
      mret copied
  | (Some src, dst) =>
      let dest := os_path.join output dst in
      let dest_dir := os_path.dirname dest in
      ensure_dir dest_dir;;
      warn_copyover copied src dest;;
      check_self_copy src dest;;
      remove_old dest;;
      fs_call (put_op self src dest);;
      mret (<[dest := src]> copied)
  end.

(** the copy loop of [run] *)
Definition copy_files (self : Copy_FilesOptions) (output : string) (files : list entry)
  : M (gmap string string) :=
  foldM (run_entry self output) ∅ files.

(** [Copy_FilesOptions.run]; [super().run(output)] of the base class comes
    first and is not part of this module. *)
Definition run (self : Copy_FilesOptions) (output : string) : M Copy_FilesOptions :=
  (* Collect the files *)
  '(files, self) ← get_files self false;
  let output := output +:+ "/" in
  copy_files self output files;;
  (* Remove the downloaded 3D models *)
  modify (set_fs (remove_temporals E));;
  mret self.

End Collector.

(** ** The command line: [kibot/__main__.py]

    The functions of the entry point that find the configuration file,
    read the [VARIABLE=VALUE] options and detect the version of KiCad,
    which sets the flag [GS.ki6] the collector depends on. The debug
    messages of the logger are left out. *)

Module Main.

(** Exit levels and warning identifiers of [kibot/misc.py] used here. *)
Inductive exit_level := EXIT_BAD_ARGS | NO_PCBNEW_MODULE.
Inductive warn_id := W_VARCFG | W_NOKIVER | W_ONWIN.

(** what the logger is given *)
Inductive log_record :=
| LogInfo (msg : string)
| LogWarning (id : warn_id) (msg : string)
| LogError (msg : string).

(** how a function ends: it returns, or [sys.exit(level)] *)
Inductive outcome (A : Type) :=
| Return (a : A)
| SysExit (level : exit_level).
Arguments Return {A} a.
Arguments SysExit {A} level.

(** *** Python [str] and [re] helpers *)

Definition newline : string := String (ascii_of_nat 10) "".

(** ['=' in s] *)
Definition has_eq (s : string) : bool :=
  existsb (fun c => Ascii.eqb c "="%char) (list_ascii_of_string s).

(** [s.split('=')[0]] *)
Fixpoint before_eq (s : string) : string :=
  match s with
  | "" => ""
  | String c s' => if Ascii.eqb c "="%char then "" else String c (before_eq s')
  end.

(** [s[n:]] *)
Definition slice_from (n : nat) (s : string) : string :=
  String.substring n (String.length s - n) s.

(** [s.replace(old, new)] for a non-empty [old]; [skip] counts the
    characters of the occurrence just replaced that are still to pass. *)
Fixpoint replace_from (old new : string) (skip : nat) (s : string) : string :=
  match s with
  | "" => ""
  | String c s' =>
      match skip with
      | S k => replace_from old new k s'
      | 0 =>
          if String.prefix old s
          then new +:+ replace_from old new (String.length old - 1) s'
          else String c (replace_from old new 0 s')
      end
  end.

Definition replace (s old new : string) : string := replace_from old new 0 s.

(** [\d], on the ASCII text of a version string *)
Definition is_digit (c : ascii) : bool :=
  (48 <=? nat_of_ascii c) && (nat_of_ascii c <=? 57).

(** the longest run of digits at the head of [s], and what follows it *)
Fixpoint span_digits (s : string) : string * string :=
  match s with
  | String c s' =>
      if is_digit c then let '(d, r) := span_digits s' in (String c d, r) else ("", s)
  | "" => ("", "")
  end.

(** [\d+] at the head of [s] *)
Definition digits1 (s : string) : option (string * string) :=
  let '(d, r) := span_digits s in if Str.truthy d then Some (d, r) else None.

(** [\.] at the head of [s] *)
Definition dot (s : string) : option string :=
  match s with
  | String c r => if Ascii.eqb c "."%char then Some r else None
  | "" => None
  end.

(** a match of [(\d+)\.(\d+)\.(\d+)(?:\.(\d+))?] at the head of [s]: the
    groups. Each group is greedy and what follows a run of digits is not
    a digit, so there is nothing to backtrack to. *)
Definition match_version (s : string) : option (string * string * string * option string) :=
  '(g1, r) ← digits1 s;
  r ← dot r;
  '(g2, r) ← digits1 r;
  r ← dot r;
  '(g3, r) ← digits1 r;
  Some (g1, g2, g3, (r ← dot r; '(g4, _) ← digits1 r; Some g4)).

(** [re.search] of that pattern: the leftmost match *)
Fixpoint search_version (s : string) : option (string * string * string * option string) :=
  match match_version s with
  | Some m => Some m
  | None =>
      match s with
      | String _ s' => search_version s'
      | "" => None
      end
  end.

(** [int(d)] for a run of digits *)
Definition int (d : string) : N :=
  fold_left (fun n c => 10 * n + N.of_nat (nat_of_ascii c - 48))%N
            (list_ascii_of_string d) 0%N.

(** *** [parse_defines] and [parse_global_redef] *)

(** [parse_defines]: the dictionary [GS.cli_defines] as the loop leaves
    it, also when it exits. *)
Fixpoint parse_defines (define_args : list string) (cli_defines : gmap string string)
  : outcome unit * gmap string string * list log_record :=
  match define_args with
  | [] => (Return tt, cli_defines, [])
  | define :: rest =>
      if negb (has_eq define) then
        (SysExit EXIT_BAD_ARGS, cli_defines,
         [LogError ("Malformed `define` option, must be VARIABLE=VALUE ("
                    +:+ define +:+ ")")])
      else
        let var := before_eq define in
        parse_defines rest
          (<[var := slice_from (String.length var + 1) define]> cli_defines)
  end.

(** [parse_global_redef], on [GS.cli_global_defs] *)
Fixpoint parse_global_redef (global_redef : list string)
    (cli_global_defs : gmap string string)
  : outcome unit * gmap string string * list log_record :=
  match global_redef with
  | [] => (Return tt, cli_global_defs, [])
  | redef :: rest =>
      if negb (has_eq redef) then
        (SysExit EXIT_BAD_ARGS, cli_global_defs,
         [LogError ("Malformed global-redef option, must be VARIABLE=VALUE ("
                    +:+ redef +:+ ")")])
      else
        let var := before_eq redef in
        parse_global_redef rest
          (<[var := slice_from (String.length var + 1) redef]> cli_global_defs)
  end.

(** *** [solve_config] *)

(** [glob(pattern)] for a pattern of one component: the names of the
    working directory it matches, in the order the file system lists
    them. *)
Definition glob_here (cwd : string) (fs : FS) (pattern : string) : list string :=
  List.filter (glob.comp_match pattern)
              (os_path.basename
                 <$> List.filter (fun k => Str.eqb (os_path.dirname k) cwd)
                                 (fst <$> map_to_list fs)).

(** the end of [solve_config], once a name is chosen *)
Definition check_config (cwd : string) (fs : FS) (plot_config : string)
    (log : list log_record) : outcome string * list log_record :=
  if negb (os.isfile cwd fs plot_config) then
    (SysExit EXIT_BAD_ARGS,
     log ++ [LogError ("Plot config file not found: " +:+ plot_config)])
  else (Return plot_config, log).

(** [solve_config(a_plot_config, quiet)]; [None] is an option not given *)
Definition solve_config (cwd : string) (fs : FS) (a_plot_config : option string)
    (quiet : bool) : outcome string * list log_record :=
  let plot_config := default "" a_plot_config in
  if negb (Str.truthy plot_config) then
    let plot_configs :=
      glob_here cwd fs "*.kibot.yaml" ++ glob_here cwd fs "*.kiplot.yaml"
        ++ glob_here cwd fs "*.kibot.yaml.gz" in
    match plot_configs with
    | [] =>
        (SysExit EXIT_BAD_ARGS,
         [LogError "No config file found (*.kibot.yaml), use -c to specify one."])
    | [plot_config] =>
        check_config cwd fs plot_config
          (if negb quiet
           then [LogInfo ("Using config file: " +:+ os_path.relpath cwd plot_config ".")]
           else [])
    | plot_config :: _ =>
        check_config cwd fs plot_config
          [LogWarning W_VARCFG
             ("More than one config file found in current directory." +:+ newline
              +:+ "  Using " +:+ plot_config +:+ " if you want to use another use -c option.")]
    end
  else check_config cwd fs plot_config [].

(** *** [detect_kicad] *)

(** The module [pcbnew], as far as it is used here. *)
Record Pcbnew := mkPcbnew {
  GetBuildVersion : option string;     (* [None]: the module has no such attribute *)
  GetUserSettingsPath : string;        (* of [GetSettingsManager()] *)
  GetKicadConfigPath : string
}.

(** The surroundings of the detection. *)
Record System := mkSystem {
  pcbnew : option Pcbnew;              (* [None]: the import fails *)
  nightly : bool;                      (* [KIAUS_USE_NIGHTLY] is set *)
  HOME : option string;                (* [os.environ] *)
  TRY_INSTALL_CHECK : string           (* a message of [kibot/misc.py] *)
}.

Inductive coords_update := dummy1 | footprint_update_local_coords_ki7.

(** The attributes of [GS] the detection sets; [kicad_dir] is set in one
    case only. *)
Record KiCad := mkKiCad {
  kicad_version : string;
  kicad_version_major : N;
  kicad_version_minor : N;
  kicad_version_patch : N;
  kicad_version_subpatch : N;
  kicad_version_n : N;
  ki5 : bool;
  ki6 : bool;
  ki6_only : bool;
  ki7 : bool;
  ki8 : bool;
  footprint_gr_type : string;
  board_gr_type : string;
  footprint_update_local_coords : coords_update;
  kicad_share_path : string;
  kicad_conf_path : string;
  kicad_dir : option string;
  pro_ext : string;
  work_layer : string;
  kicad_plugins_dirs : list string
}.

(** the Debian version strings, [1:6.0.0~really5.1.9...] *)
Definition after_really (version : string) : string :=
  match String.index 0 "really" version with
  | Some really_index => slice_from (really_index + 6) version
  | None => version
  end.

Definition join3 (a b c : string) : string := os_path.join (os_path.join a b) c.

Definition detect_kicad (sys : System) : outcome KiCad * list log_record :=
  match pcbnew sys with
  | None =>
      (SysExit NO_PCBNEW_MODULE,
       [LogError ("Failed to import pcbnew Python module."
                  +:+ " Is KiCad installed?"
                  +:+ " Do you need to add it to PYTHONPATH?");
        LogError (TRY_INSTALL_CHECK sys)])
  | Some pcbnew =>
      let '(version, log) :=
        match GetBuildVersion pcbnew with
        | Some v => (v, [])
        | None =>
            (* Assume the best case *)
            ("5.1.5",
             [LogWarning W_NOKIVER
                         "Unknown KiCad version, please install KiCad 5.1.6 or newer"])
        end in
      let version := after_really version in
      match search_version version with
      | None =>
          (SysExit NO_PCBNEW_MODULE,
           log ++ [LogError ("Unable to detect KiCad version, got: `" +:+ version +:+ "`")])
      | Some (g1, g2, g3, g4) =>
          let major := int g1 in
          let minor := int g2 in
          let patch := int g3 in
          let subpatch := match g4 with None => 0%N | Some g => int g end in
          let n := (major * 10000000 + minor * 10000 + patch * 10 + subpatch)%N in
          let ki5 := (major <? 6)%N in
          let ki6 := (6 <=? major)%N in
          let ki6_only := (major =? 6)%N in
          let ki7 := (7 <=? major)%N in
          let ki8 := ((major =? 7)%N && (99 <=? minor)%N) || (8 <=? major)%N in
          let share := "/usr/share/kicad" in
          let '(conf, share, dir, ext, layer) :=
            if ki6 then
              let '(share, dir) :=
                if nightly sys
                then (replace share "/kicad/" "/kicad-nightly/", Some "kicad-nightly")
                else (share, None) in
              (GetUserSettingsPath pcbnew, share, dir, ".kicad_pro", "User.9")
            else
              (GetKicadConfigPath pcbnew, share, None, ".pro", "Rescue") in
          (* Dirs to look for plugins *)
          let dirs :=
            [os_path.join share "scripting";
             join3 share "scripting" "plugins";
             join3 share "3rdparty" "plugins";
             os_path.join conf "scripting";
             join3 conf "scripting" "plugins"] in
          let dirs :=
            match HOME sys with
            | Some home =>
                dirs ++ [os_path.join home ".kicad_plugins";
                         join3 home ".kicad" "scripting";
                         os_path.join (join3 home ".kicad" "scripting") "plugins"]
                  ++ (if (6 <=? major)%N then
                        let ver_dir := pretty major +:+ "." +:+ pretty minor in
                        let local_share :=
                          os_path.join
                            (os_path.join (join3 home ".local" "share") "kicad") ver_dir in
                        [os_path.join local_share "scripting";
                         join3 local_share "scripting" "plugins";
                         join3 local_share "3rdparty" "plugins"]
                      else [])
            | None => dirs
            end in
          (Return (mkKiCad version major minor patch subpatch n ki5 ki6 ki6_only ki7 ki8
                           (if negb ki8 then "MGRAPHIC" else "PCB_SHAPE")
                           (if ki5 then "DRAWSEGMENT" else "PCB_SHAPE")
                           (if ki8 then dummy1 else footprint_update_local_coords_ki7)
                           share conf dir ext layer dirs),
           log)
      end
  end.

End Main.

(** ** Concrete surroundings for the scenarios *)

Module Scenario.

(** The default filter [.*] accepts every path; the scenarios use no
    other filter. *)
Definition re_match_default (pat s : string) : bool := Str.eqb pat ".*".

(** [GS.create_fp_lib] forces the [.pretty] extension; the directory of
    the library is left to the copy. *)
Definition create_fp_lib_name (lib_name : string) (fs : FS) : string * FS :=
  (if Str.endswith lib_name ".pretty" then lib_name else lib_name +:+ ".pretty", fs).

(** Surroundings in which the collaborators leave the file system alone:
    a working directory, an output directory, the registry, the board
    file, the base directories of the 3D models, the models and the
    footprints of the board, and the footprint libraries. *)
Definition env (cwd out_dir : string) (outs : list Output) (pcb : string)
    (m3d p3rd : string) (models : list string) (mods : list (string * string))
    (libs : string -> option LibAlias) : Env :=
  {| cwd := cwd;
     src_dir_outdir := out_dir;
     parent_str := "copy_files";
     outputs := outs;
     ki6 := true;
     pcb_dir := Some (os_path.dirname pcb);
     pcb_file := pcb;
     pro_file := "";
     sch_dir := os_path.dirname pcb;
     models_3d_dir := m3d;
     party_3rd_dir := p3rd;
     FP_LIB_TABLE := "fp-lib-table";
     SYM_LIB_TABLE := "sym-lib-table";
     re_match := re_match_default;
     expand_filename_both := fun s => s;
     download_models := fun _ _ _ fs => (models, fs);
     board_Save := fun _ fs => fs;
     sch := false;
     sch_save_variant := fun _ fs => fs;
     sch_get_files := [];
     sch_lib_symbol_names := [];
     sch_write_lib := fun _ _ _ fs => fs;
     copy_project := fun _ _ fs => (("", "", ""), fs);
     fix_page_layout := fun _ _ fs => ([], fs);
     get_modules := mods;
     fp_nick_to_path := libs;
     create_fp_lib := create_fp_lib_name;
     table_text := fun _ => "";
     remove_temporals := fun fs => fs |}.

Definition world (fs : FS) : World := mkWorld fs ∅ [] [] [] [].

Definition options (l : list FilesList) (links : bool) : Copy_FilesOptions :=
  mkOptions l true links "" [] false.

Definition spec (src : string) (t : source_type) (dst : string) : FilesList :=
  mkFilesList src t ".*" dst false false "" [].

(** *** A producer and its consumer *)

(** a producer that creates its target, and one that does not *)
Definition printer : Output :=
  mkOutput "print_sch" "'Schematic' (print_sch) [pdf_sch_print]"
           (fun _ => ["/w/out/x.bin"]) (insert "/w/out/x.bin" (File "x")).
Definition broken : Output :=
  mkOutput "broken" "'Nothing' (broken) [pdf_sch_print]"
           (fun _ => ["/w/out/x.bin"]) (fun fs => fs).

Definition env_out : Env :=
  env "/w" "/w/out" [printer; broken] "/w/b.kicad_pcb" "" "" [] [] (fun _ => None).

Definition fs_out : FS := list_to_map [("/w", Dir); ("/w/out", Dir)].



(** *** A board with one 3D model *)

Definition env_models : Env :=
  env "/w" "/w/out" [] "/proj/b.kicad_pcb" "3d" "3rd" ["/proj/3d/sub/part.step"] []
      (fun _ => None).

Definition fs_models : FS :=
  list_to_map [("/proj", Dir); ("/proj/3d", Dir); ("/proj/3d/sub", Dir);
               ("/proj/3d/sub/part.step", File "STEP");
               ("/proj/3d/sub/part.wrl", File "WRL");
               ("/w", Dir)].

(** the options once [get_files] has set the base directories *)
Definition options_models (l : list FilesList) : Copy_FilesOptions :=
  mkOptions l true false "" [Some "/proj/3d"; Some "/proj/3rd"; Some "/proj"] false.

(** *** A working directory with three files *)

Definition env_csv : Env :=
  env "/w" "/w/out" [] "/w/b.kicad_pcb" "" "" [] [] (fun _ => None).

Definition fs_csv : FS :=
  list_to_map [("/w", Dir); ("/w/a.csv", File "A"); ("/w/b.csv", File "B");
               ("/w/c.txt", File "C"); ("/w/sub", Dir); ("/w/sub/d.csv", File "D")].



(** *** A board with footprints of two libraries, one of them unknown *)

Definition resistors : LibAlias :=
  mkLibAlias "Resistor_SMD" false "KiCad" "" "" "/lib/Resistor_SMD.pretty".

Definition env_fp : Env :=
  env "/w" "/w/out" [] "/w/b.kicad_pcb" "" "" []
      [("Resistor_SMD", "R_0603"); ("Resistor_SMD", "R_0603");
       ("Resistor_SMD", "R_0805"); ("Nowhere", "X1")]
      (fun nick => if Str.eqb nick "Resistor_SMD" then Some resistors else None).

Definition fs_fp : FS :=
  list_to_map [("/w", Dir); ("/lib", Dir); ("/lib/Resistor_SMD.pretty", Dir);
               ("/lib/Resistor_SMD.pretty/R_0603.kicad_mod", File "0603");
               ("/lib/Resistor_SMD.pretty/R_0805.kicad_mod", File "0805")].

(** *** An entry that is copied, then one that is its own destination *)

Definition env_self : Env :=
  env "/w" "/w/out" [] "/w/b.kicad_pcb" "" "" [] [] (fun _ => None).

Definition fs_self : FS :=
  list_to_map [("/w", Dir); ("/w/a.csv", File "A"); ("/w/out", Dir);
               ("/w/out/b.csv", File "B")].

Definition options_self : Copy_FilesOptions :=
  options [spec "a.csv" st_files ""; spec "b.csv" st_out_files ""] false.

(** *** Two sources for one destination *)

Definition fs_two : FS :=
  list_to_map [("/w", Dir); ("/w/x", Dir); ("/w/x/r.txt", File "X"); ("/w/y", Dir);
               ("/w/y/r.txt", File "Y"); ("/w/out", Dir)].

Definition options_two (links : bool) : Copy_FilesOptions :=
  options [spec "x/r.txt" st_files "all"; spec "y/r.txt" st_files "all"] links.

(** ... once the first has been copied, and once the second has *)
Definition world_x : World :=
  mkWorld (<["/w/out/all/r.txt" := File "X"]> (<["/w/out/all" := Dir]> fs_two)) ∅ [] []
          [OpMakedirs "/w/out/all"; OpCopy2 "/w/x/r.txt" "/w/out/all/r.txt"] [].
Definition world_y : World :=
  mkWorld (<["/w/out/all/r.txt" := File "Y"]> (<["/w/out/all" := Dir]> fs_two)) ∅ []
          [Warning W_COPYOVER "`y/r.txt` and `x/r.txt` both are copied to `out/all/r.txt`"]
          [OpMakedirs "/w/out/all"; OpCopy2 "/w/x/r.txt" "/w/out/all/r.txt";
           OpRemove "/w/out/all/r.txt"; OpCopy2 "/w/y/r.txt" "/w/out/all/r.txt"] [].

(** *** A file of the working directory and its namesake of the output
    directory *)

Definition fs_clash : FS :=
  list_to_map [("/w", Dir); ("/w/r.txt", File "new"); ("/w/out", Dir);
               ("/w/out/r.txt", File "old")].

Definition options_clash : Copy_FilesOptions :=
  options [spec "r.txt" st_files ""; spec "r.txt" st_out_files ""] false.

End Scenario.

(** ** More surroundings: other versions of KiCad, a schematic, links *)

Module Scenario2.

(** the surroundings [E] under another version of KiCad and with another
    schematic *)
Definition with_sch (E : Env) (k6 : bool) (has_sch : bool)
    (symbols : list (string * string)) : Env :=
  {| cwd := cwd E;
     src_dir_outdir := src_dir_outdir E;
     parent_str := parent_str E;
     outputs := outputs E;
     ki6 := k6;
     pcb_dir := pcb_dir E;
     pcb_file := pcb_file E;
     pro_file := pro_file E;
     sch_dir := sch_dir E;
     models_3d_dir := models_3d_dir E;
     party_3rd_dir := party_3rd_dir E;
     FP_LIB_TABLE := FP_LIB_TABLE E;
     SYM_LIB_TABLE := SYM_LIB_TABLE E;
     re_match := re_match E;
     expand_filename_both := expand_filename_both E;
     download_models := download_models E;
     board_Save := board_Save E;
     sch := has_sch;
     sch_save_variant := sch_save_variant E;
     sch_get_files := sch_get_files E;
     sch_lib_symbol_names := symbols;
     sch_write_lib := sch_write_lib E;
     copy_project := copy_project E;
     fix_page_layout := fix_page_layout E;
     get_modules := get_modules E;
     fp_nick_to_path := fp_nick_to_path E;
     create_fp_lib := create_fp_lib E;
     table_text := table_text E;
     remove_temporals := remove_temporals E |}.

(** KiCad 5 *)
Definition env_ki5 : Env := with_sch Scenario.env_csv false false [].



(** a schematic with symbols of two libraries and one edited locally *)
Definition env_sym : Env :=
  with_sch Scenario.env_csv true true
           [("Device", "R"); ("", "U1"); ("power", "GND"); ("Device", "C")].

(** a destination that is a link to another file *)
Definition fs_linked : FS :=
  list_to_map [("/w", Dir); ("/w/a.csv", File "A"); ("/w/keep.txt", File "K");
               ("/w/out", Dir); ("/w/out/a.csv", Link "../keep.txt")].

(** ... once [a.csv] has been copied over the link *)
Definition world_relinked : World :=
  mkWorld (<["/w/out/a.csv" := File "A"]> fs_linked) ∅ [] []
          [OpRemove "/w/out/a.csv"; OpCopy2 "/w/a.csv" "/w/out/a.csv"] [].

(** [Scenario.fs_self] once [a.csv] has been linked, or copied *)
Definition world_link : World :=
  mkWorld (<["/w/out/a.csv" := Link "../a.csv"]> Scenario.fs_self) ∅ [] []
          [OpSymlink "../a.csv" "/w/out/a.csv"] [].
Definition world_copied : World :=
  mkWorld (<["/w/out/a.csv" := File "A"]> Scenario.fs_self) ∅ [] []
          [OpCopy2 "/w/a.csv" "/w/out/a.csv"] [].

(** *** The detection of KiCad *)

Definition system (version : string) (nightly : bool) : Main.System :=
  Main.mkSystem
    (Some (Main.mkPcbnew (Some version) "/home/u/.config/kicad/user" "/home/u/.config/kicad"))
    nightly (Some "/home/u") "Try the check".

Definition plugins_dirs (version_dir : list string) : list string :=
  ["/usr/share/kicad/scripting"; "/usr/share/kicad/scripting/plugins";
   "/usr/share/kicad/3rdparty/plugins"; "/home/u/.config/kicad/user/scripting";
   "/home/u/.config/kicad/user/scripting/plugins"; "/home/u/.kicad_plugins";
   "/home/u/.kicad/scripting"; "/home/u/.kicad/scripting/plugins"] ++ version_dir.

Definition kicad_6_0_11 : Main.KiCad :=
  Main.mkKiCad "6.0.11" 6 0 11 0 60000110 false true true false false
               "MGRAPHIC" "PCB_SHAPE" Main.footprint_update_local_coords_ki7
               "/usr/share/kicad" "/home/u/.config/kicad/user" None ".kicad_pro" "User.9"
               (plugins_dirs ["/home/u/.local/share/kicad/6.0/scripting";
                              "/home/u/.local/share/kicad/6.0/scripting/plugins";
                              "/home/u/.local/share/kicad/6.0/3rdparty/plugins"]).

Definition kicad_7_0_1 : Main.KiCad :=
  Main.mkKiCad "7.0.1.2" 7 0 1 2 70000012 false true false true false
               "MGRAPHIC" "PCB_SHAPE" Main.footprint_update_local_coords_ki7
               "/usr/share/kicad" "/home/u/.config/kicad/user" None ".kicad_pro" "User.9"
               (plugins_dirs ["/home/u/.local/share/kicad/7.0/scripting";
                              "/home/u/.local/share/kicad/7.0/scripting/plugins";
                              "/home/u/.local/share/kicad/7.0/3rdparty/plugins"]).

Definition kicad_nightly : Main.KiCad :=
  Main.mkKiCad "7.0.1.2" 7 0 1 2 70000012 false true false true false
               "MGRAPHIC" "PCB_SHAPE" Main.footprint_update_local_coords_ki7
               "/usr/share/kicad" "/home/u/.config/kicad/user" (Some "kicad-nightly")
               ".kicad_pro" "User.9"
               (plugins_dirs ["/home/u/.local/share/kicad/7.0/scripting";
                              "/home/u/.local/share/kicad/7.0/scripting/plugins";
                              "/home/u/.local/share/kicad/7.0/3rdparty/plugins"]).

(** *** A working directory with one configuration, one hidden *)

Definition fs_configs : FS :=
  list_to_map [("/w", Dir); ("/w/a.kibot.yaml", File "A"); ("/w/.kibot.yaml", File "h");
               ("/w/sub", Dir); ("/w/sub/c.kibot.yaml", File "C")].

End Scenario2.

(** ** Notions used to state the properties *)

Section Notions.

Context (E : Env).

(** [file] is not a regular file of [fs] *)
Definition missing (fs : FS) (file : string) : bool := negb (os.isfile (cwd E) fs file).

(** the world after the producer [out] has been run *)
Definition ran (out : Output) (w : World) : World :=
  record_run (o_name out) (set_fs (o_run out) w).

(** the targets from the first missing one on *)
Fixpoint from_first_missing (fs : FS) (l : list string) : list string :=
  match l with
  | [] => []
  | t :: l' => if missing fs t then l else from_first_missing fs l'
  end.

(** the outcome of checking the targets [l] without running anything *)
Definition check_result (out : Output) (w : World) (l : list string)
  : result unit * World :=
  match List.find (missing (fs w)) l with
  | None => (Ok tt, w)
  | Some t => (Raise (SystemExit INTERNAL_ERROR (unable_msg t out)), w)
  end.

End Notions.

(** ** Well-formed path names *)

Definition no_slash (c : string) : bool :=
  forallb (fun a => negb (Ascii.eqb a "/"%char)) (list_ascii_of_string c).

(** a name of a directory entry: not empty, no slash, neither [.] nor [..] *)
Definition is_name (c : string) : bool :=
  no_slash c && negb (Str.eqb c "") && negb (Str.eqb c ".") && negb (Str.eqb c "..").

(** the absolute normalised path with the names [comps] *)
Definition abs_of (comps : list string) : string := "/" +:+ Str.join comps.

(** the entries of the outcome of [get_files], when it succeeds *)
Definition entries_of (r : result (list entry * Copy_FilesOptions) * World)
  : option (list entry) :=
  match r with
  | (Ok (l, _), _) => Some l
  | (Raise _, _) => None
  end.

(** the sources of the (source, destination) pairs among extra files *)
Definition extra_sources (l : list extra) : list string :=
  omap (fun x => match x with Copied s _ => Some s | Generated _ => None end) l.

(** the file of the footprint [name] in the library [alias] *)
Definition footprint_file (alias : LibAlias) (name : string) : string :=
  os_path.join (la_uri alias) (name +:+ ".kicad_mod").


(** an extra file that the collector generates *)
Definition is_generated (x : extra) : Prop := ∃ p, x = Generated p.

(** an entry with a source *)
Definition has_source (e : entry) : bool := bool_decide (is_Some (fst e)).




Section CollectorNotions.

Context (E : Env).

(** the models [get_3d_models] gets from the board *)
Definition models_of (self : Copy_FilesOptions) (f : FilesList) (mp : bool) (w : World)
  : list string :=
  let f0 := set_3d_attrs self f mp in
  fst (download_models E (source f0) (apply_rename (cwd E)) f0 (fs w)).

(** the entry as [get_3d_models] leaves it *)
Definition left_3d (self : Copy_FilesOptions) (f : FilesList) (mp : bool) : FilesList :=
  let f0 := set_3d_attrs self f mp in
  if mp then set_f_output_dir f0 (os_path.join (dest f0) (f_output_dir f0)) else f0.

(** the body of the loop of [get_files] over the entries *)
Definition collect (self : Copy_FilesOptions) (b : bool)
    (acc : list entry * list FilesList) (f : FilesList) : M (list entry * list FilesList) :=
  '(l, f') ← get_files_step E self b f;
  mret (fst acc ++ l, snd acc ++ [f']).

(** what holds of the state of the loop of [copy_footprints] once the
    footprints [processed] have been seen *)
Record fp_inv (processed : list (string * string)) (acc : fp_acc) : Prop := {
  inv_nodup : NoDup (extra_sources (fp_extra acc));
  inv_added : ∀ s, s ∈ extra_sources (fp_extra acc) <-> s ∈ fp_added acc;
  inv_keys : NoDup ((fp_aliases acc).*1);
  inv_alias : ∀ nick,
    nick ∈ (fp_aliases acc).*1 <->
    (∃ name, (nick, name) ∈ processed) ∧ is_Some (fp_nick_to_path E nick);
  inv_src : ∀ s,
    s ∈ fp_added acc ->
    ∃ nick name alias,
      (nick, name) ∈ processed ∧ fp_nick_to_path E nick = Some alias ∧
      s = footprint_file alias name
}.

End CollectorNotions.

(** ** Notions for the libraries of symbols and of footprints *)

(** the library a symbol of the schematic is filed under *)
Definition lib_of (obj : string * string) : string :=
  if Str.truthy (fst obj) then fst obj else "locally_edited".

(** the names of the symbols of [objs] filed under [lib], in their order *)
Definition symbols_of (lib : string) (objs : list (string * string)) : list string :=
  snd <$> List.filter (fun obj => Str.eqb (lib_of obj) lib) objs.

(** the libraries that are written: all but [locally_edited] *)
Definition written_libs (libs : list (string * list string)) : list (string * list string) :=
  List.filter (fun l => negb (Str.eqb (fst l) "locally_edited")) libs.

Global Instance warn_code_eq_dec : EqDecision warn_code.
Proof. solve_decision. Defined.

Definition warning_code (x : warning) : warn_code :=
  match x with Warning c _ => c end.

(** the warnings of [l] with the code [c] *)
Definition warnings_with (c : warn_code) (l : list warning) : list warning :=
  List.filter (fun x => bool_decide (warning_code x = c)) l.

(** a footprint whose library is not in the table *)
Definition unknown_lib (E : Env) (m : string * string) : bool :=
  bool_decide (fp_nick_to_path E (fst m) = None).

(** the file system after the [remove] of the body of the loop of [run] *)
Definition after_remove (cwd : string) (fs : FS) (dest : string) : FS :=
  if os.isfile cwd fs dest || os.islink cwd fs dest
  then delete (os_path.abspath cwd dest) fs else fs.

(** no directory on the way to the path with the names [comps] is a link:
    none of the proper prefixes of the path holds one *)
Definition plain_dirs (fs : FS) (comps : list string) : bool :=
  forallb (fun k => match os.get fs (abs_of (take k comps)) with
                    | Some (Link _) => false
                    | _ => true
                    end)
          (seq 1 (length comps - 1)).

(** the calls of the executor that write a destination *)
Definition is_put (o : fs_op) : bool :=
  match o with
  | OpSymlink _ _ | OpCopy2 _ _ => true
  | OpMakedirs _ | OpRemove _ => false
  end.

(** the record [copied] of the copy loop once the entries [files] are done *)
Definition copied_of (output : string) (copied : gmap string string) (files : list entry)
  : gmap string string :=
  fold_left (fun m (e : entry) =>
               match fst e with
               | Some src => <[os_path.join output (snd e) := src]> m
               | None => m
               end) files copied.

(** ** Sanity checks of the library models *)

Example split_ex : Str.split "/proj/3d//x" = [""; "proj"; "3d"; ""; "x"].
Proof. reflexivity. Qed.
Example basename_ex : os_path.basename "/proj/3d/sub/part.step" = "part.step".
Proof. reflexivity. Qed.
Example dirname_ex : os_path.dirname "/proj/3d/sub/part.step" = "/proj/3d/sub".
Proof. vm_compute. reflexivity. Qed.
Example dirname_root_ex : os_path.dirname "/x" = "/".
Proof. vm_compute. reflexivity. Qed.
Example normpath_ex : os_path.normpath "/a/./b/../c//d/" = "/a/c/d".
Proof. vm_compute. reflexivity. Qed.
Example normpath_rel_ex : os_path.normpath "../a/../../b" = "../../b".
Proof. vm_compute. reflexivity. Qed.
Example relpath_ex : os_path.relpath "/w" "/proj/3d/sub/part.step" "/proj/3d" = "sub/part.step".
Proof. vm_compute. reflexivity. Qed.
Example relpath_up_ex : os_path.relpath "/w" "/proj/3dx/part.step" "/proj/3d" = "../3dx/part.step".
Proof. vm_compute. reflexivity. Qed.
Example join_ex : os_path.join "out/" "a/b" = "out/a/b" /\ os_path.join "out" "/a" = "/a" /\ os_path.join "" "a" = "a".
Proof. vm_compute. auto. Qed.
Example fnmatch_ex1 : fnmatch.fnmatch "/m/a.step" "*.step" = true. Proof. reflexivity. Qed.
Example fnmatch_ex2 : fnmatch.fnmatch "/m/a.step" "*.wrl" = false. Proof. reflexivity. Qed.
Example fnmatch_ex3 : fnmatch.fnmatch "R_0603.wrl" "R_0[68]0?.wr[a-m]" = true. Proof. reflexivity. Qed.
Example fnmatch_ex4 : fnmatch.fnmatch "a" "[!a]" = false /\ fnmatch.fnmatch "b" "[!a]" = true /\ fnmatch.fnmatch "[x" "[x" = true.
Proof. repeat split. Qed.

(** * Properties *)

(** ** The monad and the loops *)

Lemma bind_unfold {A B} (m : M A) (f : A -> M B) w :
  (m ≫= f) w = match m w with
               | (Ok a, w') => f a w'
               | (Raise e, w') => (Raise e, w')
               end.
Proof. reflexivity. Qed.

Lemma foldM_cons {A B} (body : B -> A -> M B) acc x l w :
  foldM body acc (x :: l) w =
    match body acc x w with
    | (Ok acc', w') => foldM body acc' l w'
    | (Raise e, w') => (Raise e, w')
    end.
Proof. reflexivity. Qed.

Lemma for_cons {A} (x : A) l body w :
  for_ (x :: l) body w =
    match body x w with
    | (Ok _, w') => for_ l body w'
    | (Raise e, w') => (Raise e, w')
    end.
Proof.
  unfold for_. rewrite foldM_cons. destruct (body x w) as [[[]|] ?]; reflexivity.
Qed.

Lemma foldM_app {A B} (body : B -> A -> M B) acc l1 l2 w :
  foldM body acc (l1 ++ l2) w =
    match foldM body acc l1 w with
    | (Ok acc', w') => foldM body acc' l2 w'
    | (Raise e, w') => (Raise e, w')
    end.
Proof.
  revert acc w. induction l1 as [|x l1 IH]; intros acc w; [reflexivity|].
  simpl app. rewrite !foldM_cons. destruct (body acc x w) as [[acc'|e] w']; [apply IH|reflexivity].
Qed.

(** ** Paths made of names *)

Lemma app_cons c s t : String c s +:+ t = String c (s +:+ t).
Proof. reflexivity. Qed.

Lemma app_nil_l t : "" +:+ t = t.
Proof. reflexivity. Qed.

Lemma app_assoc_s (a b c : string) : (a +:+ b) +:+ c = a +:+ (b +:+ c).
Proof. induction a as [|x a IH]; [reflexivity|]. rewrite !app_cons. by rewrite IH. Qed.

Lemma split_not_nil s : Str.split s ≠ [].
Proof.
  destruct s as [|c s]; [done|]. simpl.
  destruct (Ascii.eqb c "/"); [done|]. by destruct (Str.split s).
Qed.

Lemma split_cons_other c s :
  Ascii.eqb c "/" = false ->
  ∃ h t, Str.split s = h :: t ∧ Str.split (String c s) = String c h :: t.
Proof.
  intros Hc. simpl. rewrite Hc.
  destruct (Str.split s) as [|h t] eqn:Hs; [by apply split_not_nil in Hs|].
  by exists h, t.
Qed.

(** the fields of [a/b] are those of [a] followed by those of [b] *)
Lemma split_app_slash a b :
  Str.split (a +:+ String "/" b) = Str.split a ++ Str.split b.
Proof.
  induction a as [|c a IH]; [reflexivity|].
  rewrite app_cons. destruct (Ascii.eqb c "/") eqn:Hc.
  - simpl. rewrite Hc. simpl. by rewrite IH.
  - destruct (split_cons_other c a Hc) as (h & t & Hs & ->).
    destruct (split_cons_other c (a +:+ String "/" b) Hc) as (h' & t' & Hs' & ->).
    rewrite IH, Hs in Hs'. simpl in Hs'. by injection Hs' as <- <-.
Qed.

Lemma split_no_slash c : no_slash c = true -> Str.split c = [c].
Proof.
  unfold no_slash. induction c as [|x c IH]; [reflexivity|].
  simpl. intros [Hx Hc]%andb_true_iff. apply negb_true_iff in Hx.
  rewrite Hx, (IH Hc). reflexivity.
Qed.

Lemma is_name_no_slash c : is_name c = true -> no_slash c = true.
Proof. unfold is_name. rewrite !andb_true_iff. tauto. Qed.

Lemma join_cons x y l : Str.join (x :: y :: l) = x +:+ String "/" (Str.join (y :: l)).
Proof. reflexivity. Qed.

Lemma split_join comps :
  Forall (fun c => is_name c = true) comps -> comps ≠ [] ->
  Str.split (Str.join comps) = comps.
Proof.
  induction 1 as [|c comps Hc Hall IH]; [done|]. intros _.
  destruct comps as [|y l]; [by apply split_no_slash, is_name_no_slash|].
  rewrite join_cons, split_app_slash, IH by done.
  by rewrite split_no_slash by by apply is_name_no_slash.
Qed.

Lemma join_app l1 l2 :
  l1 ≠ [] -> l2 ≠ [] ->
  Str.join (l1 ++ l2) = Str.join l1 +:+ String "/" (Str.join l2).
Proof.
  induction l1 as [|x l1 IH]; [done|]. intros _ H2.
  destruct l1 as [|y l1].
  - destruct l2 as [|z l2]; [done|]. reflexivity.
  - change ((x :: y :: l1) ++ l2) with (x :: y :: (l1 ++ l2)).
    rewrite !join_cons. change (y :: l1 ++ l2) with ((y :: l1) ++ l2).
    rewrite IH by done. by rewrite app_assoc_s.
Qed.

Lemma eqb_true a b : Str.eqb a b = true <-> a = b.
Proof. unfold Str.eqb. apply bool_decide_eq_true. Qed.

Lemma eqb_false a b : Str.eqb a b = false <-> a ≠ b.
Proof. unfold Str.eqb. apply bool_decide_eq_false. Qed.

Lemma eqb_refl a : Str.eqb a a = true.
Proof. by apply eqb_true. Qed.

Lemma norm_step_name i acc c :
  is_name c = true -> os_path.norm_step i acc c = acc ++ [c].
Proof.
  unfold is_name, os_path.norm_step. rewrite !andb_true_iff, !negb_true_iff.
  intros [[[_ H1] H2] H3]. rewrite H1, H2, H3. reflexivity.
Qed.

Lemma norm_names i comps acc :
  Forall (fun c => is_name c = true) comps ->
  fold_left (os_path.norm_step i) comps acc = acc ++ comps.
Proof.
  intros H. revert acc. induction H as [|c comps Hc _ IH]; intros acc; simpl.
  - by rewrite app_nil_r.
  - rewrite norm_step_name by done. rewrite IH. by rewrite <- app_assoc.
Qed.

(** a name, and so a path that begins with one, does not begin with a slash *)
Lemma name_head c :
  is_name c = true -> ∃ x s, c = String x s ∧ Ascii.eqb x "/" = false.
Proof.
  unfold is_name, no_slash. rewrite !andb_true_iff, !negb_true_iff.
  intros [[[Hs Hne] _] _]. destruct c as [|x s]; [by rewrite eqb_refl in Hne|].
  simpl in Hs. apply andb_true_iff in Hs as [Hx _]. apply negb_true_iff in Hx.
  by exists x, s.
Qed.

Lemma join_head comps :
  Forall (fun c => is_name c = true) comps -> comps ≠ [] ->
  ∃ x s, Str.join comps = String x s ∧ Ascii.eqb x "/" = false.
Proof.
  intros H Hne. destruct H as [|c l Hc _]; [done|].
  destruct (name_head c Hc) as (x & s & -> & Hx).
  destruct l as [|y l]; [by exists x, s|].
  rewrite join_cons, app_cons. by eexists x, _.
Qed.

Lemma prefix_cons a s1 s2 : String.prefix (String a s1) (String a s2) = String.prefix s1 s2.
Proof. simpl. by destruct (ascii_dec a a). Qed.

Lemma prefix_cons_ne a b s1 s2 :
  Ascii.eqb b a = false -> String.prefix (String a s1) (String b s2) = false.
Proof.
  intros H. simpl. destruct (ascii_dec a b) as [->|]; [|done].
  by rewrite Ascii.eqb_refl in H.
Qed.

Lemma prefix_empty s : String.prefix "" s = true.
Proof. by destruct s. Qed.

(** an absolute path made of names is its own normal form *)
Lemma normpath_abs_of comps :
  Forall (fun c => is_name c = true) comps -> comps ≠ [] ->
  os_path.normpath (abs_of comps) = abs_of comps.
Proof.
  intros H Hne. destruct (join_head comps H Hne) as (x & s & Hj & Hx).
  unfold os_path.normpath, abs_of.
  assert (Hi : os_path.initial_slashes ("/" +:+ Str.join comps) = 1).
  { unfold os_path.initial_slashes, Str.startswith. rewrite Hj.
    change ("/" +:+ String x s) with (String "/" (String x s)).
    change "//" with (String "/" (String "/" "")). change "/" with (String "/" "") at 1.
    rewrite !prefix_cons, prefix_empty, (prefix_cons_ne _ _ _ _ Hx). reflexivity. }
  rewrite Hi.
  change ("/" +:+ Str.join comps) with ("" +:+ String "/" (Str.join comps)).
  rewrite split_app_slash, split_join by done. simpl.
  rewrite norm_names by done. simpl. reflexivity.
Qed.

Lemma isabs_abs_of comps : os_path.isabs (abs_of comps) = true.
Proof.
  unfold os_path.isabs, Str.startswith, abs_of.
  change ("/" +:+ Str.join comps) with (String "/" (Str.join comps)).
  change "/" with (String "/" ""). by rewrite prefix_cons, prefix_empty.
Qed.

Lemma path_list_abs_of cwd comps :
  Forall (fun c => is_name c = true) comps -> comps ≠ [] ->
  os_path.path_list cwd (abs_of comps) = comps.
Proof.
  intros H Hne. unfold os_path.path_list, os_path.abspath.
  rewrite isabs_abs_of, normpath_abs_of by done.
  destruct (join_head comps H Hne) as (x & s & Hj & Hx).
  unfold abs_of. rewrite Hj. simpl. rewrite Hx. rewrite <- Hj.
  unfold Str.truthy. rewrite (proj2 (eqb_false _ _)) by (by rewrite Hj). simpl.
  by apply split_join.
Qed.

Lemma commonprefix_len_app l r : os_path.commonprefix_len l (l ++ r) = length l.
Proof. induction l as [|x l IH]; [by destruct r|]. simpl. by rewrite eqb_refl, IH. Qed.

(** [relpath] strips a base directory that is a prefix by whole names *)
Lemma relpath_strip cwd base rest :
  Forall (fun c => is_name c = true) base -> base ≠ [] ->
  Forall (fun c => is_name c = true) rest -> rest ≠ [] ->
  os_path.relpath cwd (abs_of base +:+ "/" +:+ Str.join rest) (abs_of base) = Str.join rest.
Proof.
  intros Hb Hbn Hr Hrn.
  assert (abs_of base +:+ "/" +:+ Str.join rest = abs_of (base ++ rest)) as ->.
  { unfold abs_of. rewrite join_app by done. rewrite app_assoc_s. reflexivity. }
  unfold os_path.relpath.
  rewrite !path_list_abs_of; [|by apply Forall_app|by destruct base|done..].
  rewrite commonprefix_len_app, Nat.sub_diag, drop_app_length. simpl.
  by destruct rest.
Qed.

Lemma basename_strip d c :
  no_slash c = true ->
  os_path.basename (d +:+ "/" +:+ c) = c.
Proof.
  intros Hc. unfold os_path.basename.
  change (d +:+ "/" +:+ c) with (d +:+ String "/" c).
  rewrite split_app_slash, (split_no_slash c Hc).
  by rewrite last_snoc.
Qed.

Lemma first_base_none dirs fname :
  first_base dirs fname = None <->
  ∀ d, Some d ∈ dirs -> Str.startswith fname d = false.
Proof.
  induction dirs as [|[d0|] dirs IH]; simpl.
  - split; [|done]. intros _ d Hd. by apply elem_of_nil in Hd.
  - destruct (Str.startswith fname d0) eqn:Hs.
    + split; [done|]. intros H. specialize (H d0 (list_elem_of_here _ _)). congruence.
    + rewrite IH. split; intros H d Hd.
      * apply elem_of_cons in Hd as [[= ->]|Hd]; [done|by apply H].
      * apply H. by apply elem_of_cons; right.
  - rewrite IH. split; intros H d Hd.
    + apply elem_of_cons in Hd as [?|Hd]; [done|by apply H].
    + apply H. by apply elem_of_cons; right.
Qed.

(** first match wins *)
Lemma first_base_some dirs1 d dirs2 fname :
  (∀ d', Some d' ∈ dirs1 -> Str.startswith fname d' = false) ->
  Str.startswith fname d = true ->
  first_base (dirs1 ++ Some d :: dirs2) fname = Some d.
Proof.
  intros Hn Hd. induction dirs1 as [|[d0|] dirs1 IH]; simpl.
  - by rewrite Hd.
  - rewrite (Hn d0) by apply list_elem_of_here. apply IH.
    intros d' Hd'. apply Hn. by apply elem_of_cons; right.
  - apply IH. intros d' Hd'. apply Hn. by apply elem_of_cons; right.
Qed.

(** *** Suffixes *)

Lemma length_app_s a b : String.length (a +:+ b) = String.length a + String.length b.
Proof. induction a as [|x a IH]; [reflexivity|]. rewrite app_cons. simpl. by rewrite IH. Qed.

Lemma substring_app a b : String.substring 0 (String.length a) (a +:+ b) = a.
Proof.
  induction a as [|x a IH]; [by destruct b|]. rewrite app_cons. simpl. by rewrite IH.
Qed.

Lemma drop_end_app a b : Str.drop_end (String.length b) (a +:+ b) = a.
Proof.
  unfold Str.drop_end. rewrite length_app_s.
  replace (String.length a + String.length b - String.length b) with (String.length a) by lia.
  apply substring_app.
Qed.

Lemma rev_app_app p t : String.rev_app p t = String.rev_app p "" +:+ t.
Proof.
  revert t. induction p as [|x p IH]; intros t; [reflexivity|]. simpl.
  rewrite (IH (String x t)), (IH (String x "")). by rewrite app_assoc_s.
Qed.

Lemma rev_app_append a b t : String.rev_app (a +:+ b) t = String.rev_app b (String.rev_app a t).
Proof.
  revert t. induction a as [|x a IH]; intros t; [reflexivity|].
  rewrite app_cons. simpl. apply IH.
Qed.

Lemma rev_app_s a b : String.rev (a +:+ b) = String.rev b +:+ String.rev a.
Proof. unfold String.rev. rewrite rev_app_append. apply rev_app_app. Qed.

Lemma prefix_app a t : String.prefix a (a +:+ t) = true.
Proof.
  induction a as [|x a IH]; [apply prefix_empty|]. by rewrite app_cons, prefix_cons.
Qed.

Lemma endswith_app a p : Str.endswith (a +:+ p) p = true.
Proof. unfold Str.endswith. rewrite rev_app_s. apply prefix_app. Qed.

Lemma startswith_app a t : Str.startswith (a +:+ t) a = true.
Proof. apply prefix_app. Qed.

(** ** Files of another output: lazy triggering of the producer *)

Section FromOutput.

Context (E : Env).

Lemma check_target_present out file w :
  missing E (fs w) file = false -> check_target E out file w = (Ok tt, w).
Proof.
  unfold missing, check_target, isfile, gets. intros H%negb_false_iff.
  rewrite bind_unfold. simpl. rewrite H. reflexivity.
Qed.

Lemma check_target_done out file w :
  o_name out ∈ done w -> missing E (fs w) file = true ->
  check_target E out file w = (Raise (SystemExit INTERNAL_ERROR (unable_msg file out)), w).
Proof.
  unfold missing, check_target, isfile, is_done, gets. intros Hd H%negb_true_iff.
  rewrite bind_unfold. simpl. rewrite H. simpl.
  rewrite !bind_unfold. simpl. rewrite bool_decide_eq_true_2 by done. simpl.
  rewrite bind_unfold; simpl. rewrite H. reflexivity.
Qed.

Lemma check_target_fresh out file w :
  o_name out ∉ done w -> missing E (fs w) file = true ->
  check_target E out file w =
    if missing E (fs (ran out w)) file
    then (Raise (SystemExit INTERNAL_ERROR (unable_msg file out)), ran out w)
    else (Ok tt, ran out w).
Proof.
  unfold missing, check_target, isfile, is_done, gets. intros Hd H%negb_true_iff.
  rewrite bind_unfold. simpl. rewrite H. simpl.
  rewrite !bind_unfold. simpl. rewrite bool_decide_eq_false_2 by done. simpl.
  unfold run_output. rewrite bool_decide_eq_false_2 by done.
  rewrite bind_unfold. simpl. fold (ran out w).
  destruct (os.isfile (cwd E) (o_run out (fs w)) file); reflexivity.
Qed.

Lemma ran_done out w : o_name out ∈ done (ran out w).
Proof. unfold ran, record_run. simpl. set_solver. Qed.

(** Once the producer is done, checking the targets runs nothing and
    leaves the world as it is. *)
Lemma check_all_done out l w :
  o_name out ∈ done w ->
  for_ l (check_target E out) w = check_result E out w l.
Proof.
  intros Hd. unfold check_result. induction l as [|t l IH]; [reflexivity|].
  rewrite for_cons. simpl. destruct (missing E (fs w) t) eqn:Hm.
  - rewrite check_target_done by done. reflexivity.
  - rewrite check_target_present by done. exact IH.
Qed.

(** A producer that is not done is run at the first missing target, and
    the targets from there on are checked in the world it leaves. *)
Lemma check_all_fresh out l w :
  o_name out ∉ done w ->
  for_ l (check_target E out) w =
    match from_first_missing E (fs w) l with
    | [] => (Ok tt, w)
    | rest => check_result E out (ran out w) rest
    end.
Proof.
  intros Hd. induction l as [|t l IH]; [reflexivity|].
  rewrite for_cons. simpl. destruct (missing E (fs w) t) eqn:Hm.
  - rewrite check_target_fresh by done. unfold check_result. simpl.
    destruct (missing E (o_run out (fs w)) t); [reflexivity|].
    rewrite check_all_done by apply ran_done. reflexivity.
  - rewrite check_target_present by done. exact IH.
Qed.

Lemma from_first_missing_elem fs file l :
  file ∈ l -> missing E fs file = true -> file ∈ from_first_missing E fs l.
Proof.
  induction l as [|t l IH]; intros Hin Hm; [by apply elem_of_nil in Hin|].
  simpl. destruct (missing E fs t) eqn:Ht; [done|].
  apply elem_of_cons in Hin as [->|Hin]; [congruence|]. by apply IH.
Qed.

Lemma from_first_missing_sub fs file l :
  file ∈ from_first_missing E fs l -> file ∈ l.
Proof.
  induction l as [|t l IH]; simpl; [done|].
  destruct (missing E fs t); [done|]. intros H. apply elem_of_cons. right. by apply IH.
Qed.

Lemma check_result_world out w l : snd (check_result E out w l) = w.
Proof. unfold check_result. destruct (List.find _ l); reflexivity. Qed.

Lemma get_from_output_unfold f no_out_run out w :
  get_output E (source f) = Some out ->
  get_from_output E f no_out_run w =
    if no_out_run then (Ok (o_get_targets out (fs w)), w)
    else match for_ (o_get_targets out (fs w)) (check_target E out) w with
         | (Ok _, w') => (Ok (o_get_targets out (fs w)), w')
         | (Raise e, w') => (Raise e, w')
         end.
Proof.
  intros Ho. unfold get_from_output. rewrite Ho. unfold gets, when.
  rewrite bind_unfold. destruct no_out_run; simpl; [reflexivity|].
  rewrite bind_unfold.
  destruct (for_ _ _ w) as [[[]|e] w']; reflexivity.
Qed.

(** A request for the files of a producer that is done runs nothing. *)
Lemma get_from_output_done f no_out_run out w :
  get_output E (source f) = Some out ->
  o_name out ∈ done w ->
  snd (get_from_output E f no_out_run w) = w.
Proof.
  intros Ho Hd. rewrite (get_from_output_unfold _ _ out) by done.
  destruct no_out_run; [reflexivity|].
  rewrite check_all_done by done.
  pose proof (check_result_world out w (o_get_targets out (fs w))) as Hw.
  destruct (check_result E out w _) as [[[]|e] w']; exact Hw.
Qed.

(** C1, as amended: in a pass that may run outputs ([no_out_run] false),
    when a declared target of the registered producer is missing and the
    producer is not done, the producer is executed exactly once and is
    marked done; the targets are re-checked in the file system it leaves:
    if the target is still missing the collection fails with the
    [INTERNAL_ERROR] level and a message naming a target that is missing
    and the producer, and if every target is there the list is returned;
    another request for the producer in the same run executes nothing. *)
Theorem get_from_output_triggers_once f f2 no_out_run2 out file w :
  get_output E (source f) = Some out ->
  get_output E (source f2) = Some out ->
  file ∈ o_get_targets out (fs w) ->
  os.isfile (cwd E) (fs w) file = false ->
  o_name out ∉ done w ->
  ∃ r w',
    get_from_output E f false w = (r, w') ∧
    executed w' = executed w ++ [o_name out] ∧
    fs w' = o_run out (fs w) ∧
    o_name out ∈ done w' ∧
    (os.isfile (cwd E) (fs w') file = false ->
     ∃ file', file' ∈ o_get_targets out (fs w) ∧
              os.isfile (cwd E) (fs w') file' = false ∧
              r = Raise (SystemExit INTERNAL_ERROR (unable_msg file' out))) ∧
    ((∀ t, t ∈ o_get_targets out (fs w) -> os.isfile (cwd E) (fs w') t = true) ->
     r = Ok (o_get_targets out (fs w))) ∧
    snd (get_from_output E f2 no_out_run2 w') = w'.
Proof.
  intros Ho Ho2 Hin Hmiss Hnd.
  rewrite (get_from_output_unfold _ _ out) by done.
  rewrite check_all_fresh by done.
  assert (Hm : missing E (fs w) file = true) by (unfold missing; by rewrite Hmiss).
  pose proof (from_first_missing_elem _ _ _ Hin Hm) as Hrest.
  pose proof (from_first_missing_sub (fs w)) as Hsub.
  destruct (from_first_missing E (fs w) (o_get_targets out (fs w))) as [|t rest] eqn:Hf;
    [by apply elem_of_nil in Hrest|].
  unfold check_result.
  destruct (List.find (missing E (fs (ran out w))) (t :: rest)) as [t'|] eqn:Hfind.
  - apply find_some in Hfind as [Ht' Hmt'].
    eexists _, _. split; [reflexivity|]. repeat split.
    + apply ran_done.
    + intros _. exists t'. repeat split.
      * apply (Hsub t' (o_get_targets out (fs w))). rewrite Hf. by apply list_elem_of_In.
      * by apply negb_true_iff in Hmt'.
    + intros Hall. exfalso.
      assert (t' ∈ o_get_targets out (fs w)) as Hi.
      { apply (Hsub t' (o_get_targets out (fs w))). rewrite Hf. by apply list_elem_of_In. }
      apply Hall in Hi. unfold missing in Hmt'. rewrite Hi in Hmt'. done.
    + apply (get_from_output_done _ _ out); [done|apply ran_done].
  - eexists _, _. split; [reflexivity|]. repeat split.
    + apply ran_done.
    + intros Hstill. exfalso.
      assert (In file (t :: rest)) as Hi by (by apply list_elem_of_In).
      pose proof (find_none _ _ Hfind file Hi) as Hx.
      unfold missing in Hx. rewrite Hstill in Hx. done.
    + apply (get_from_output_done _ _ out); [done|apply ran_done].
Qed.

End FromOutput.

(** The producer [print_sch] has not run and its target is missing: the
    request runs it once and finds the target. *)
Lemma get_from_output_triggers_once_witness :
  ∃ r w',
    get_from_output Scenario.env_out (Scenario.spec "print_sch" st_output "") false
                    (Scenario.world Scenario.fs_out) = (r, w') ∧
    executed w' = [] ++ ["print_sch"] ∧
    fs w' = <["/w/out/x.bin" := File "x"]> Scenario.fs_out ∧
    "print_sch" ∈ done w' ∧
    (os.isfile "/w" (fs w') "/w/out/x.bin" = false ->
     ∃ file', file' ∈ ["/w/out/x.bin"] ∧
              os.isfile "/w" (fs w') file' = false ∧
              r = Raise (SystemExit INTERNAL_ERROR (unable_msg file' Scenario.printer))) ∧
    ((∀ t, t ∈ ["/w/out/x.bin"] -> os.isfile "/w" (fs w') t = true) ->
     r = Ok ["/w/out/x.bin"]) ∧
    snd (get_from_output Scenario.env_out (Scenario.spec "print_sch" st_output "") false w') = w'.
Proof.
  apply (get_from_output_triggers_once Scenario.env_out
           (Scenario.spec "print_sch" st_output "") (Scenario.spec "print_sch" st_output "")
           false Scenario.printer "/w/out/x.bin" (Scenario.world Scenario.fs_out)).
  - reflexivity.
  - reflexivity.
  - apply list_elem_of_here.
  - vm_compute. reflexivity.
  - simpl. apply not_elem_of_empty.
Defined.

(** C1 as stated fails in a dry pass: the target of the registered producer
    is missing and the producer is not done, yet the request runs nothing,
    checks nothing and returns the list. *)
Lemma get_from_output_dry_counterexample :
  get_output Scenario.env_out "print_sch" = Some Scenario.printer ∧
  o_get_targets Scenario.printer Scenario.fs_out = ["/w/out/x.bin"] ∧
  os.isfile "/w" Scenario.fs_out "/w/out/x.bin" = false ∧
  (o_name Scenario.printer ∉ done (Scenario.world Scenario.fs_out)) ∧
  get_from_output Scenario.env_out (Scenario.spec "print_sch" st_output "") true
                  (Scenario.world Scenario.fs_out)
    = (Ok ["/w/out/x.bin"], Scenario.world Scenario.fs_out) ∧
  executed (Scenario.world Scenario.fs_out) = [].
Proof.
  repeat split; try reflexivity.
  simpl. apply not_elem_of_empty.
Qed.

(** End-to-end scenario 2: the producer runs once and still does not make
    [out/x.bin]; the collection fails naming the file and the producer. *)
Example scenario_2 :
  get_from_output Scenario.env_out (Scenario.spec "broken" st_output "") false
                  (Scenario.world Scenario.fs_out)
    = (Raise (SystemExit INTERNAL_ERROR
                "Unable to generate `/w/out/x.bin` from 'Nothing' (broken) [pdf_sch_print]"),
       mkWorld Scenario.fs_out {["broken"]} ["broken"] [] [] []).
Proof. vm_compute. reflexivity. Qed.

(** ** Failures of the resolution of an [output] entry *)

Section ResolutionErrors.

Context (E : Env).




End ResolutionErrors.



(** ** The 3D models: counterparts and destinations *)

Section Models.

Context (E : Env).

Lemma counterpart_wrl stem : counterpart (stem +:+ ".wrl") = Some (stem +:+ ".step").
Proof.
  unfold counterpart. rewrite endswith_app.
  by rewrite (drop_end_app stem ".wrl" : Str.drop_end 4 _ = _).
Qed.

Lemma counterpart_step stem : counterpart (stem +:+ ".step") = Some (stem +:+ ".wrl").
Proof.
  unfold counterpart.
  assert (Str.endswith (stem +:+ ".step") ".wrl" = false) as ->.
  { unfold Str.endswith. rewrite rev_app_s. reflexivity. }
  rewrite endswith_app. by rewrite (drop_end_app stem ".step" : Str.drop_end 5 _ = _).
Qed.

Lemma set_3d_attrs_options self f mp :
  source (set_3d_attrs self f mp) = source f ∧
  dest (set_3d_attrs self f mp) = dest f ∧
  filter (set_3d_attrs self f mp) = filter f ∧
  save_pcb (set_3d_attrs self f mp) = save_pcb f ∧
  f_source_type (set_3d_attrs self f mp) = f_source_type f ∧
  f_rel_dirs (set_3d_attrs self f mp) = rel_dirs self.
Proof.
  unfold set_3d_attrs. destruct mp; [done|].
  destruct (Str.truthy (dest f) && Str.endswith (dest f) "+"); done.
Qed.

Lemma get_3d_models_inv self f mp dry w l x f' w' :
  get_3d_models E self f mp dry w = (Ok (l, x, f'), w') ->
  l = models_of E self f mp w
        ++ fnmatch.filter (new_list E (fs w') (models_of E self f mp w)) (source f) ∧
  f' = left_3d self f mp.
Proof.
  unfold get_3d_models, models_of, left_3d.
  destruct (set_3d_attrs_options self f mp) as (Hs & _).
  rewrite bind_unfold. unfold call_fs at 1.
  destruct (download_models E _ _ _ (fs w)) as [models fs1]. simpl fst.
  rewrite bind_unfold.
  match goal with |- context [(if ?c then ?a else ?b) ?w0] =>
    destruct ((if c then a else b) w0) as [[x0|e] w1] end; [|discriminate].
  rewrite bind_unfold. unfold gets. simpl. intros [= <- <- <- <-].
  by rewrite Hs.
Qed.

(** C6, as amended: when [get_3d_models] succeeds, the counterpart of a
    model of its list ([.step] for [.wrl] and the converse) that is a file,
    is not in the list of models and matches the pattern [source] of the
    entry is in the returned list; a counterpart that does not match the
    pattern is not added. *)
Theorem step_wrl_counterparts self f mp dry w l x f' w' :
  get_3d_models E self f mp dry w = (Ok (l, x, f'), w') ->
  (∀ stem, counterpart (stem +:+ ".wrl") = Some (stem +:+ ".step") ∧
           counterpart (stem +:+ ".step") = Some (stem +:+ ".wrl")) ∧
  (∀ fn fn',
     fn ∈ models_of E self f mp w ->
     counterpart fn = Some fn' ->
     os.isfile (cwd E) (fs w') fn' = true ->
     fn' ∉ models_of E self f mp w ->
     fnmatch.fnmatch fn' (source f) = true ->
     fn' ∈ l) ∧
  (∀ fn',
     fn' ∉ models_of E self f mp w ->
     fnmatch.fnmatch fn' (source f) = false ->
     fn' ∉ l).
Proof.
  intros [-> _]%get_3d_models_inv.
  split; [intros stem; split; [apply counterpart_wrl|apply counterpart_step]|].
  split.
  - intros fn fn' Hin Hc Hf Hnot Hm.
    apply elem_of_app. right. unfold fnmatch.filter.
    apply list_elem_of_In, filter_In. split; [|done].
    apply list_elem_of_In. unfold new_list. apply list_elem_of_omap.
    exists fn. split; [done|]. rewrite Hc, Hf. unfold Str.inb.
    by rewrite bool_decide_eq_false_2.
  - intros fn' Hnot Hm [Hin|Hin]%elem_of_app; [done|].
    unfold fnmatch.filter in Hin. apply list_elem_of_In, filter_In in Hin as [_ Hin].
    congruence.
Qed.

End Models.

(** The model [part.step] has a [part.wrl] next to it, and the pattern
    [*] matches it: it is added. *)
Lemma step_wrl_counterparts_witness :
  get_3d_models Scenario.env_models (Scenario.options_models [])
                (Scenario.spec "*" st_3d_models "") false true
                (Scenario.world Scenario.fs_models)
    = (Ok (["/proj/3d/sub/part.step"; "/proj/3d/sub/part.wrl"], [],
           mkFilesList "*" st_3d_models ".*" "" false false ""
                       [Some "/proj/3d"; Some "/proj/3rd"; Some "/proj"]),
       Scenario.world Scenario.fs_models) ∧
  "/proj/3d/sub/part.wrl" ∈ ["/proj/3d/sub/part.step"; "/proj/3d/sub/part.wrl"].
Proof.
  assert (H : get_3d_models Scenario.env_models (Scenario.options_models [])
                (Scenario.spec "*" st_3d_models "") false true
                (Scenario.world Scenario.fs_models)
    = (Ok (["/proj/3d/sub/part.step"; "/proj/3d/sub/part.wrl"], [],
           mkFilesList "*" st_3d_models ".*" "" false false ""
                       [Some "/proj/3d"; Some "/proj/3rd"; Some "/proj"]),
       Scenario.world Scenario.fs_models)) by (vm_compute; reflexivity).
  split; [exact H|].
  apply (proj1 (proj2 (step_wrl_counterparts _ _ _ _ _ _ _ _ _ _ H))
           "/proj/3d/sub/part.step" "/proj/3d/sub/part.wrl").
  - apply list_elem_of_here.
  - reflexivity.
  - vm_compute. reflexivity.
  - intros Hin. apply list_elem_of_singleton in Hin. discriminate.
  - reflexivity.
Defined.

(** C6 as stated fails when the pattern of the entry does not match the
    counterpart: [part.wrl] is a file next to the model [part.step] and is
    not in the list, yet with the pattern [*.step] it is not added. *)
Lemma counterpart_filtered_counterexample :
  get_3d_models Scenario.env_models (Scenario.options_models [])
                (Scenario.spec "*.step" st_3d_models "") false true
                (Scenario.world Scenario.fs_models)
    = (Ok (["/proj/3d/sub/part.step"], [],
           mkFilesList "*.step" st_3d_models ".*" "" false false ""
                       [Some "/proj/3d"; Some "/proj/3rd"; Some "/proj"]),
       Scenario.world Scenario.fs_models) ∧
  counterpart "/proj/3d/sub/part.step" = Some "/proj/3d/sub/part.wrl" ∧
  os.isfile "/w" Scenario.fs_models "/proj/3d/sub/part.wrl" = true ∧
  "/proj/3d/sub/part.wrl" ∉ ["/proj/3d/sub/part.step"].
Proof.
  repeat split; try (vm_compute; reflexivity).
  intros Hin. apply list_elem_of_singleton in Hin. discriminate.
Qed.

(** ** Destinations of the 3D models *)

Section Destinations.

Context (E : Env).

(** Outside the [project] mode every extra file is one the collector
    generates. *)
Lemma save_project_generated self f dry w x w' :
  save_project E self f false dry w = (Ok x, w') -> Forall is_generated x.
Proof.
  unfold save_project. simpl when. rewrite bind_unfold. simpl.
  set (fname := os_path.join (output_dir self) (os_path.basename (pcb_file E))).
  rewrite bind_unfold.
  assert (∃ w1, (if negb dry then modify (set_fs (board_Save E fname));; mret []
                 else mret []) w = (Ok ([] : list extra), w1)) as [w1 ->].
  { destruct dry; simpl; eauto. }
  rewrite bind_unfold. unfold call_fs at 1.
  destruct (copy_project E fname dry (fs w1)) as [[[prj prl] dru] fs2].
  rewrite bind_unfold. unfold isfile, gets. rewrite bind_unfold. unfold call_fs.
  match goal with |- context [fix_page_layout E ?a ?b ?c] =>
    destruct (fix_page_layout E a b c) as [wks fs3] end.
  intros [= <- _].
  constructor; [by eexists|]. apply Forall_app. split.
  - apply Forall_fmap, Forall_forall. intros p _. by eexists.
  - apply Forall_fmap, Forall_forall. intros p _. by eexists.
Qed.

Lemma get_3d_models_generated self f dry w l x f' w' :
  get_3d_models E self f false dry w = (Ok (l, x, f'), w') -> Forall is_generated x.
Proof.
  unfold get_3d_models. rewrite bind_unfold. unfold call_fs at 1.
  destruct (download_models E _ _ _ (fs w)) as [models fs1].
  rewrite bind_unfold.
  destruct (save_pcb (set_3d_attrs self f false) || false) eqn:Hs.
  - destruct (save_project E self _ false dry _) as [[x0|e] w1] eqn:Hp; [|discriminate].
    rewrite bind_unfold. unfold gets. simpl. intros [= _ <- _ _].
    by apply save_project_generated in Hp.
  - simpl. intros [= _ <- _ _]. constructor.
Qed.

(** the entries of a [3d_models] entry, from what [get_3d_models] returns *)
Lemma get_files_step_3d self b f w :
  f_source_type f = st_3d_models ->
  get_files_step E self b f w =
    match get_3d_models E self f false b w with
    | (Ok (l, x, f'), w') =>
        (Ok (((fun fname =>
                 (Some (if follow_links self then os.realpath (cwd E) (fs w') fname
                        else os_path.abspath (cwd E) fname),
                  dest_of E self f' (cwd E) true false fname))
                <$> List.filter (re_match E (filter f')) l)
             ++ concat (extra_entry (re_match E (filter f')) <$> x), f'), w')
    | (Raise e, w') => (Raise e, w')
    end.
Proof.
  intros Ht. unfold get_files_step. rewrite Ht. simpl. rewrite bind_unfold.
  destruct (get_3d_models E self f false b w) as [[[[l x] f']|e] w']; reflexivity.
Qed.

Lemma left_3d_models self f :
  left_3d self f false =
    set_3d f (Str.truthy (dest f) && Str.endswith (dest f) "+")
           (if Str.truthy (dest f) && Str.endswith (dest f) "+"
            then Str.drop_end 1 (dest f) else dest f)
           (rel_dirs self).
Proof.
  unfold left_3d, set_3d_attrs.
  by destruct (Str.truthy (dest f) && Str.endswith (dest f) "+").
Qed.

(** C2, as amended: the destination of a model of a [3d_models] entry.
    With a destination that does not end in [+] every model goes flat to
    [dest/basename]. With no destination, or one that ends in [+] (append
    mode), an absolute model path loses the first base directory of the
    list it starts with (here: when what follows that directory is made
    of whole names), and is reduced to its base name when it starts with
    no base directory; in append mode the result is put under the
    destination without its [+]. *)
Theorem models_destination self b f w l x f' w' :
  f_source_type f = st_3d_models ->
  get_3d_models E self f false b w = (Ok (l, x, f'), w') ->
  let append := Str.truthy (dest f) && Str.endswith (dest f) "+" in
  let nest := fun p => if append then os_path.join (Str.drop_end 1 (dest f)) p else p in
  let dst := dest_of E self f' (cwd E) true false in
  get_files_step E self b f w =
    (Ok (((fun fname =>
             (Some (if follow_links self then os.realpath (cwd E) (fs w') fname
                    else os_path.abspath (cwd E) fname),
              dst fname))
            <$> List.filter (re_match E (filter f)) l)
         ++ concat (extra_entry (re_match E (filter f)) <$> x), f'), w') ∧
  Forall is_generated x ∧
  ∀ fname,
    (Str.truthy (dest f) = true -> append = false ->
     dst fname = os_path.join (dest f) (os_path.basename fname)) ∧
    (dest f = "" ∨ append = true -> os_path.isabs fname = true ->
     (∀ dirs1 dirs2 base rest,
        rel_dirs self = dirs1 ++ Some (abs_of base) :: dirs2 ->
        (∀ d', Some d' ∈ dirs1 -> Str.startswith fname d' = false) ->
        Forall (fun c => is_name c = true) base -> base ≠ [] ->
        Forall (fun c => is_name c = true) rest -> rest ≠ [] ->
        fname = abs_of base +:+ "/" +:+ Str.join rest ->
        dst fname = nest (Str.join rest)) ∧
     ((∀ d, Some d ∈ rel_dirs self -> Str.startswith fname d = false) ->
      dst fname = nest (os_path.basename fname))).
Proof.
  intros Ht Hg append nest dst.
  pose proof (get_3d_models_generated _ _ _ _ _ _ _ _ Hg) as Hgen.
  pose proof (get_3d_models_inv E _ _ _ _ _ _ _ _ _ Hg) as [_ Hf'].
  rewrite left_3d_models in Hf'. fold append in Hf'.
  assert (Hfil : filter f' = filter f) by by rewrite Hf'.
  split; [|split; [exact Hgen|]].
  { rewrite get_files_step_3d by done. rewrite Hg, Hfil. reflexivity. }
  intros fname. unfold dst, dest_of. rewrite Hf'. simpl.
  split.
  - intros Hd Ha. rewrite Hd, Ha. reflexivity.
  - intros Hcase Habs. rewrite Habs.
    assert (Str.truthy (dest f) && negb append = false) as ->.
    { destruct Hcase as [->| ->]; [reflexivity|]. by rewrite andb_false_r. }
    assert (Hnest : ∀ p,
      (if append
       then os_path.join (if append then Str.drop_end 1 (dest f) else dest f) p
       else p) = nest p).
    { intros p. unfold nest. by destruct append. }
    split.
    + intros dirs1 dirs2 base rest Hrd Hfirst Hb Hbn Hr Hrn ->.
      rewrite Hrd, first_base_some; [|done|apply startswith_app].
      rewrite relpath_strip by done. apply Hnest.
    + intros Hnone. apply first_base_none in Hnone. rewrite Hnone. apply Hnest.
Qed.

End Destinations.

(** End-to-end scenario 3: append mode, base directories [/proj/3d] and
    [/proj/3rd] (and the directory of the board): the model
    [/proj/3d/sub/part.step] goes to [models/sub/part.step]. *)
Lemma models_destination_witness :
  dest_of Scenario.env_models (Scenario.options_models [])
          (mkFilesList "*.step" st_3d_models ".*" "models+" false true "models"
                       [Some "/proj/3d"; Some "/proj/3rd"; Some "/proj"])
          "/w" true false "/proj/3d/sub/part.step"
    = "models/sub/part.step".
Proof.
  assert (Hg : get_3d_models Scenario.env_models (Scenario.options_models [])
                 (Scenario.spec "*.step" st_3d_models "models+") false true
                 (Scenario.world Scenario.fs_models)
               = (Ok (["/proj/3d/sub/part.step"], [],
                      mkFilesList "*.step" st_3d_models ".*" "models+" false true "models"
                                  [Some "/proj/3d"; Some "/proj/3rd"; Some "/proj"]),
                  Scenario.world Scenario.fs_models)) by (vm_compute; reflexivity).
  apply (proj1 (proj2 (proj2 (proj2
           (models_destination Scenario.env_models (Scenario.options_models []) true
              (Scenario.spec "*.step" st_3d_models "models+")
              (Scenario.world Scenario.fs_models) _ _ _ _ eq_refl Hg))
           "/proj/3d/sub/part.step") (or_intror eq_refl) eq_refl)
           [] [Some "/proj/3rd"; Some "/proj"] ["proj"; "3d"] ["sub"; "part.step"]).
  - reflexivity.
  - intros d' Hd'. by apply elem_of_nil in Hd'.
  - repeat constructor.
  - discriminate.
  - repeat constructor.
  - discriminate.
  - reflexivity.
Defined.

Example scenario_3 :
  entries_of (get_files Scenario.env_models
                (Scenario.options [Scenario.spec "*.step" st_3d_models "models+"] false)
                true (Scenario.world Scenario.fs_models))
    = Some [(Some "/proj/3d/sub/part.step", "models/sub/part.step")].
Proof. vm_compute. reflexivity. Qed.

(** C2 as stated fails for a destination that does not end in [+]: the
    model starts with the base directory [/proj/3d], yet that prefix is
    not stripped to give [sub/part.step]: the model goes flat to
    [models/part.step]. *)
Lemma plain_destination_counterexample :
  entries_of (get_files Scenario.env_models
                (Scenario.options [Scenario.spec "*.step" st_3d_models "models"] false)
                true (Scenario.world Scenario.fs_models))
    = Some [(Some "/proj/3d/sub/part.step", "models/part.step")] ∧
  first_base [Some "/proj/3d"; Some "/proj/3rd"; Some "/proj"] "/proj/3d/sub/part.step"
    = Some "/proj/3d" ∧
  os_path.relpath "/w" "/proj/3d/sub/part.step" "/proj/3d" = "sub/part.step" ∧
  "models/part.step" ≠ "sub/part.step" ∧
  "models/part.step" ≠ os_path.join "models" "sub/part.step".
Proof. repeat split; try (vm_compute; reflexivity); discriminate. Qed.

(** The renaming of the models in the board follows the same rule. *)
Lemma apply_rename_strip cwd self base rest dirs1 dirs2 :
  Str.truthy (dest self) && negb (_append_mode self) = false ->
  f_rel_dirs self = dirs1 ++ Some (abs_of base) :: dirs2 ->
  (∀ d', Some d' ∈ dirs1 ->
         Str.startswith (abs_of base +:+ "/" +:+ Str.join rest) d' = false) ->
  Forall (fun c => is_name c = true) base -> base ≠ [] ->
  Forall (fun c => is_name c = true) rest -> rest ≠ [] ->
  apply_rename cwd self (abs_of base +:+ "/" +:+ Str.join rest)
    = "${KIPRJMOD}/" +:+ os_path.join (f_output_dir self) (Str.join rest).
Proof.
  intros Hd Hrd Hn Hb Hbn Hr Hrn. unfold apply_rename.
  rewrite Hd, Hrd, first_base_some; [|done|apply startswith_app].
  by rewrite relpath_strip.
Qed.

(** ** Regular files: glob, filter, relative destinations *)

Lemma iglob_elem (fs : FS) pattern fname :
  fname ∈ glob.iglob fs pattern <->
  is_Some (fs !! fname) ∧
  glob.gmatch (glob.comps (os_path.normpath pattern)) (glob.comps fname) = true.
Proof.
  unfold glob.iglob. rewrite list_elem_of_In, filter_In, <- list_elem_of_In.
  rewrite list_elem_of_fmap. split.
  - intros [([k v] & -> & Hkv) Hm]. split; [|done].
    apply elem_of_map_to_list in Hkv. by exists v.
  - intros [[v Hv] Hm]. split; [|done]. exists (fname, v). split; [done|].
    by apply elem_of_map_to_list.
Qed.

(** the recursive [**] stands for any number of names that are not hidden *)
Lemma gmatch_recursive ps ds cs :
  Forall (fun d => glob.is_hidden d = false) ds ->
  glob.gmatch ps cs = true ->
  glob.gmatch ("**" :: ps) (ds ++ cs) = true.
Proof.
  intros Hds Hm. induction Hds as [|d ds Hd _ IH].
  - simpl. destruct cs; simpl; by rewrite Hm.
  - change ((d :: ds) ++ cs) with (d :: (ds ++ cs)).
    change (glob.gmatch ("**" :: ps) (d :: ds ++ cs))
      with (glob.gmatch ps (d :: ds ++ cs)
            || negb (glob.is_hidden d) && glob.gmatch ("**" :: ps) (ds ++ cs)).
    rewrite Hd, IH. simpl. apply orb_true_r.
Qed.

Section RegularFiles.

Context (E : Env).

(** C7: for an entry of type [files] with no destination, the pattern
    joined to the working directory is expanded by [glob] (recursive [**]
    included), the candidates are kept when the filter matches their full
    path, and each destination is the path relative to the working
    directory; the world is left as it is. *)
Theorem files_glob self b f w :
  f_source_type f = st_files ->
  dest f = "" ->
  let pattern := os_path.join (cwd E) (expand_filename_both E (source f)) in
  let real := fun fname =>
    if follow_links self then os.realpath (cwd E) (fs w) fname
    else os_path.abspath (cwd E) fname in
  let entries :=
    (fun fname => (Some (real fname), os_path.relpath (cwd E) fname (cwd E)))
      <$> List.filter (re_match E (filter f)) (glob.iglob (fs w) pattern) in
  get_files_step E self b f w = (Ok (entries, f), w) ∧
  (∀ e : entry,
     e ∈ entries <->
     ∃ fname,
       is_Some (fs w !! fname) ∧
       glob.gmatch (glob.comps (os_path.normpath pattern)) (glob.comps fname) = true ∧
       re_match E (filter f) fname = true ∧
       e = (Some (real fname), os_path.relpath (cwd E) fname (cwd E))) ∧
  (∀ base rest,
     cwd E = abs_of base ->
     Forall (fun c => is_name c = true) base -> base ≠ [] ->
     Forall (fun c => is_name c = true) rest -> rest ≠ [] ->
     os_path.relpath (cwd E) (cwd E +:+ "/" +:+ Str.join rest) (cwd E) = Str.join rest).
Proof.
  intros Ht Hd pattern real entries. split; [|split].
  - unfold get_files_step. rewrite Ht. simpl. rewrite !bind_unfold. unfold gets. simpl.
    rewrite bind_unfold. simpl. rewrite app_nil_r. unfold dest_of. rewrite Hd. reflexivity.
  - intros e. unfold entries. rewrite list_elem_of_fmap. split.
    + intros (fname & -> & Hin). exists fname.
      apply list_elem_of_In, filter_In in Hin as [Hin Hfil].
      apply list_elem_of_In, iglob_elem in Hin as [Hex Hm]. done.
    + intros (fname & Hex & Hm & Hfil & ->). exists fname. split; [done|].
      apply list_elem_of_In, filter_In. split; [|done].
      apply list_elem_of_In, iglob_elem. done.
  - intros base rest -> Hb Hbn Hr Hrn. by apply relpath_strip.
Qed.

End RegularFiles.

(** End-to-end scenario 1: the pattern [*.csv] in a directory with
    [a.csv], [b.csv] and [c.txt]. *)
Lemma files_glob_witness :
  get_files_step Scenario.env_csv (Scenario.options [] false) false
                 (Scenario.spec "*.csv" st_files "") (Scenario.world Scenario.fs_csv)
    = (Ok ([(Some "/w/a.csv", "a.csv"); (Some "/w/b.csv", "b.csv")],
           Scenario.spec "*.csv" st_files ""),
       Scenario.world Scenario.fs_csv).
Proof.
  refine (eq_trans (proj1 (files_glob Scenario.env_csv (Scenario.options [] false) false
                             (Scenario.spec "*.csv" st_files "")
                             (Scenario.world Scenario.fs_csv) eq_refl eq_refl)) _).
  vm_compute. reflexivity.
Defined.

Example scenario_1 :
  entries_of (get_files Scenario.env_csv
                (Scenario.options [Scenario.spec "*.csv" st_files ""] false)
                false (Scenario.world Scenario.fs_csv))
    = Some [(Some "/w/a.csv", "a.csv"); (Some "/w/b.csv", "b.csv")].
Proof. vm_compute. reflexivity. Qed.

Example scenario_1_recursive :
  entries_of (get_files Scenario.env_csv
                (Scenario.options [Scenario.spec "**/*.csv" st_files ""] false)
                false (Scenario.world Scenario.fs_csv))
    = Some [(Some "/w/sub/d.csv", "sub/d.csv"); (Some "/w/a.csv", "a.csv");
            (Some "/w/b.csv", "b.csv")].
Proof. vm_compute. reflexivity. Qed.

(** ** Footprints of the project *)

Section Footprints.

Context (E : Env).

Lemma extra_sources_snoc l s d :
  extra_sources (l ++ [Copied s d]) = extra_sources l ++ [s].
Proof. unfold extra_sources. by rewrite omap_app. Qed.

Lemma has_key_spec {V} k (d : list (string * V)) : has_key k d = true <-> k ∈ d.*1.
Proof. unfold has_key, Str.inb. apply bool_decide_eq_true. Qed.

Lemma copy_footprints_step_inv base prj processed acc m w :
  fp_inv E processed acc ->
  ∃ acc' w',
    copy_footprints_step E base prj acc m w = (Ok acc', w') ∧
    tables w' = tables w ∧
    fp_inv E (processed ++ [m]) acc'.
Proof.
  intros [Hnd Hadd Hk Hal Hsrc]. destruct m as [lib_nick name].
  unfold copy_footprints_step.
  assert (Hsrc' : ∀ s, s ∈ fp_added acc ->
            ∃ nick name0 alias,
              (nick, name0) ∈ processed ++ [(lib_nick, name)] ∧
              fp_nick_to_path E nick = Some alias ∧ s = footprint_file alias name0).
  { intros s (n & n0 & a & Hin & Ha & Hs)%Hsrc. exists n, n0, a.
    split; [|done]. apply elem_of_app. by left. }
  destruct (fp_nick_to_path E lib_nick) as [src_alias|] eqn:Hlib.
  - (* the library is known *)
    rewrite bind_unfold. unfold call_fs at 1.
    destruct (create_fp_lib E (os_path.join base lib_nick) (fs w)) as [out_lib fs1].
    set (aliases := if negb (has_key lib_nick (fp_aliases acc)) then _ else _).
    assert (Hk' : NoDup (aliases.*1)).
    { unfold aliases. destruct (has_key lib_nick (fp_aliases acc)) eqn:Hh; simpl; [done|].
      rewrite fmap_app. simpl. apply NoDup_app. split; [done|]. split.
      - intros x Hx Hx'. apply list_elem_of_singleton in Hx' as ->.
        apply has_key_spec in Hx. congruence.
      - apply NoDup_singleton. }
    assert (Hal' : ∀ nick, nick ∈ aliases.*1 <->
              (∃ name0, (nick, name0) ∈ processed ++ [(lib_nick, name)]) ∧
              is_Some (fp_nick_to_path E nick)).
    { intros nick. unfold aliases.
      destruct (has_key lib_nick (fp_aliases acc)) eqn:Hh; simpl.
      - rewrite Hal. split.
        + intros [[n Hn] Hs]. split; [|done]. exists n. apply elem_of_app. by left.
        + intros [[n Hn] Hs]. split; [|done].
          apply elem_of_app in Hn as [Hn|Hn]; [by exists n|].
          apply list_elem_of_singleton in Hn as [= -> ->].
          apply has_key_spec, Hal in Hh as [Hh _]. done.
      - rewrite fmap_app, elem_of_app, Hal. simpl. rewrite list_elem_of_singleton. split.
        + intros [[[n Hn] Hs]| ->].
          * split; [|done]. exists n. apply elem_of_app. by left.
          * split; [|by rewrite Hlib]. exists name. apply elem_of_app. right.
            by apply list_elem_of_singleton.
        + intros [[n Hn] Hs]. apply elem_of_app in Hn as [Hn|Hn].
          * left. split; [by exists n|done].
          * apply list_elem_of_singleton in Hn as [= -> ->]. by right. }
    clearbody aliases.
    set (src := os_path.join (la_uri src_alias) (name +:+ ".kicad_mod")).
    rewrite bind_unfold. unfold isfile, gets.
    match goal with |- context [os.isfile ?c ?f0 src] =>
      destruct (os.isfile c f0 src) eqn:Hf end; simpl.
    + destruct (decide (src ∈ fp_added acc)) as [Hin|Hin].
      * rewrite bool_decide_eq_true_2 by done. simpl.
        eexists _, _. split; [reflexivity|]. split; [done|].
        by constructor.
      * rewrite bool_decide_eq_false_2 by done. simpl.
        eexists _, _. split; [reflexivity|]. split; [done|].
        constructor; simpl; [| |done|done|].
        -- rewrite extra_sources_snoc. apply NoDup_app. split; [done|]. split.
           ++ intros x Hx Hx'. apply list_elem_of_singleton in Hx' as ->.
              by apply Hadd in Hx.
           ++ apply NoDup_singleton.
        -- intros s.
           rewrite extra_sources_snoc, elem_of_app, list_elem_of_singleton, Hadd.
           rewrite elem_of_union, elem_of_singleton. tauto.
        -- intros s [->%elem_of_singleton|Hs]%elem_of_union; [|by apply Hsrc'].
           exists lib_nick, name, src_alias. split; [|done].
           apply elem_of_app. right. by apply list_elem_of_singleton.
    + rewrite bind_unfold. unfold warn, modify. simpl.
      eexists _, _. split; [reflexivity|]. split; [done|].
      by constructor.
  - (* the library is missing: a warning, and the footprint is skipped *)
    rewrite bind_unfold. unfold warn, modify. simpl.
    eexists _, _. split; [reflexivity|]. split; [done|].
    constructor; simpl; [done..| |done].
    intros nick. rewrite Hal. split.
    * intros [[n Hn] Hs]. split; [|done]. exists n. apply elem_of_app. by left.
    * intros [[n Hn] Hs]. split; [|done].
      apply elem_of_app in Hn as [Hn|Hn]; [by exists n|].
      apply list_elem_of_singleton in Hn as [= -> ->].
      rewrite Hlib in Hs. by destruct Hs.
Qed.

Lemma copy_footprints_loop_inv base prj mods :
  ∀ processed acc w,
    fp_inv E processed acc ->
    ∃ acc' w',
      foldM (copy_footprints_step E base prj) acc mods w = (Ok acc', w') ∧
      tables w' = tables w ∧
      fp_inv E (processed ++ mods) acc'.
Proof.
  induction mods as [|m mods IH]; intros processed acc w Hinv.
  - exists acc, w. rewrite app_nil_r. by repeat (split; [done|]).
  - destruct (copy_footprints_step_inv base prj processed acc m w Hinv)
      as (acc1 & w1 & Hstep & Htb & Hinv1).
    rewrite foldM_cons, Hstep.
    destruct (IH _ _ w1 Hinv1) as (acc' & w' & Hloop & Htb' & Hinv').
    exists acc', w'. rewrite Hloop.
    split; [done|]. split; [congruence|].
    rewrite <- app_assoc in Hinv'. exact Hinv'.
Qed.

Lemma fp_inv_init : fp_inv E [] (mkFpAcc [] [] ∅).
Proof.
  constructor; simpl; try apply NoDup_nil_2.
  - intros s. rewrite elem_of_nil. split; [done|]. apply not_elem_of_empty.
  - intros nick. rewrite elem_of_nil. split; [done|].
    intros [[n Hn] _]. by apply elem_of_nil in Hn.
  - intros s Hs. by apply not_elem_of_empty in Hs.
Qed.

(** C10, as amended: [copy_footprints] always returns; a footprint file
    is a source of its list at most once, and only for a footprint of
    the board whose library is known; the aliases of the table have one
    entry for each library nickname of the board whose library is known,
    none for a nickname whose library is missing; the table is saved
    unless the pass is dry. *)
Theorem copy_footprints_once self dest dry w :
  ∃ extra_files aliases w',
    copy_footprints E self dest dry w = (Ok extra_files, w') ∧
    NoDup (extra_sources extra_files) ∧
    (∀ s, s ∈ extra_sources extra_files ->
          ∃ nick name alias,
            (nick, name) ∈ get_modules E ∧ fp_nick_to_path E nick = Some alias ∧
            s = footprint_file alias name) ∧
    NoDup (aliases.*1) ∧
    (∀ nick, nick ∈ aliases.*1 <->
             (∃ name, (nick, name) ∈ get_modules E) ∧ is_Some (fp_nick_to_path E nick)) ∧
    tables w' =
      tables w ++
        (if dry then []
         else [mkLibTable (os_path.join (os_path.join (output_dir self) dest) (FP_LIB_TABLE E))
                          true aliases]).
Proof.
  unfold copy_footprints, copy_footprints_loop.
  destruct (copy_footprints_loop_inv
              (os_path.join (os_path.join (output_dir self) dest) "footprints")
              (os_path.join "${KIPRJMOD}" "footprints")
              (get_modules E) [] (mkFpAcc [] [] ∅) w fp_inv_init)
    as (acc & w1 & Hloop & Htb & [Hnd Hadd Hk Hal Hsrc]).
  simpl in Hal, Hsrc.
  assert (Hes : extra_sources (fp_extra acc ++
                  [Generated (os_path.join (os_path.join (output_dir self) dest)
                                           (FP_LIB_TABLE E))])
                = extra_sources (fp_extra acc)).
  { unfold extra_sources. rewrite omap_app. simpl. apply app_nil_r. }
  rewrite bind_unfold, Hloop.
  destruct dry; simpl.
  - eexists _, (fp_aliases acc), _. split; [reflexivity|].
    rewrite Hes, app_nil_r.
    split; [done|]. split; [intros s Hs; by apply Hsrc, Hadd|].
    split; [done|]. split; [exact Hal|done].
  - eexists _, (fp_aliases acc), _. split; [reflexivity|].
    rewrite Hes. simpl. rewrite Htb.
    split; [done|]. split; [intros s Hs; by apply Hsrc, Hadd|].
    split; [done|]. split; [exact Hal|done].
Qed.

End Footprints.

(** Two components use the footprint [R_0603] of the same library: its
    file is listed once, and the library has one alias. *)
Example copy_footprints_scenario :
  fst (copy_footprints Scenario.env_fp (Scenario.options [] false) "prj" true
                       (Scenario.world Scenario.fs_fp))
    = Ok [Copied "/lib/Resistor_SMD.pretty/R_0603.kicad_mod"
                 "prj/footprints/Resistor_SMD.pretty/R_0603.kicad_mod";
          Copied "/lib/Resistor_SMD.pretty/R_0805.kicad_mod"
                 "prj/footprints/Resistor_SMD.pretty/R_0805.kicad_mod";
          Generated "prj/fp-lib-table"].
Proof. vm_compute. reflexivity. Qed.

(** C10 as stated fails for a nickname whose library is missing: the board
    has a footprint of the library [Nowhere], and the table saved has no
    alias for it. *)
Lemma missing_library_counterexample :
  ("Nowhere", "X1") ∈ get_modules Scenario.env_fp ∧
  tables (snd (copy_footprints Scenario.env_fp (Scenario.options [] false) "prj" false
                               (Scenario.world Scenario.fs_fp)))
    = [mkLibTable "prj/fp-lib-table" true
         [("Resistor_SMD",
           mkLibAlias "Resistor_SMD" false "KiCad" "" ""
                      "${KIPRJMOD}/footprints/Resistor_SMD.pretty")]] ∧
  warnings (snd (copy_footprints Scenario.env_fp (Scenario.options [] false) "prj" false
                                 (Scenario.world Scenario.fs_fp)))
    = [Warning W_MISSLIB "Missing footprint library `Nowhere`"] ∧
  "Nowhere" ∉ ["Resistor_SMD"].
Proof.
  split; [|split; [|split]].
  - simpl. do 3 (apply elem_of_cons; right). apply list_elem_of_here.
  - vm_compute. reflexivity.
  - vm_compute. reflexivity.
  - intros H. apply list_elem_of_singleton in H. discriminate.
Qed.

(** ** Files the collector generates *)

Section Generated.

Context (E : Env).

Lemma run_entry_generated self output copied d w :
  run_entry E self output copied (None, d) w = (Ok copied, w).
Proof. reflexivity. Qed.


Lemma sorted_elem (l : list string) x : x ∈ sorted l <-> x ∈ l.
Proof. unfold sorted. by rewrite merge_sort_Permutation. Qed.


(** The dependencies are the sources, so an entry without a source adds
    none. *)
Lemma get_dependencies_sources self w deps self' w' :
  get_dependencies E self w = (Ok (deps, self'), w') ->
  ∃ files,
    get_files E self true w = (Ok (files, self'), w') ∧
    ∀ s, s ∈ deps <-> ∃ d, (Some s, d) ∈ files.
Proof.
  unfold get_dependencies. rewrite bind_unfold.
  destruct (get_files E self true w) as [[[files s2]|e] w2]; [|discriminate].
  intros [= <- <- <-]. exists files. split; [reflexivity|].
  intros s. rewrite sorted_elem, list_elem_of_omap. split.
  - intros ([o d] & Hin & Ho). simpl in Ho. subst o. by exists d.
  - intros [d Hin]. by exists (Some s, d).
Qed.

End Generated.


(** ** The file system model: links and copies *)

Lemma get_insert_ne (fs : FS) q p x : p ≠ q -> os.get (<[q := x]> fs) p = os.get fs p.
Proof.
  intros Hne. unfold os.get. destruct (Str.eqb p "/"); [done|].
  by rewrite lookup_insert_ne.
Qed.

Lemma get_insert_eq (fs : FS) q x : q ≠ "/" -> os.get (<[q := x]> fs) q = Some x.
Proof.
  intros Hne. unfold os.get. rewrite (proj2 (eqb_false q "/")) by done.
  by rewrite lookup_insert_eq.
Qed.

(** what [resolve] finds is there, and is not a link *)
Lemma resolve_found n (fs : FS) p r x :
  os.resolve n fs p = (r, Some x) -> os.get fs r = Some x ∧ ∀ t, x ≠ Link t.
Proof.
  revert p. induction n as [|n IH]; intros p; simpl.
  - destruct (os.get fs p) as [[]|] eqn:Hg; intros [= <- <-]; done.
  - destruct (os.get fs p) as [[]|] eqn:Hg; try (intros [= <- <-]; done). apply IH.
Qed.

(** Writing a file at [q], where there was no link, changes what a path
    resolves to only when the path led to [q]. *)
Lemma resolve_insert_file n (fs : FS) q data p :
  q ≠ "/" -> (∀ t, os.get fs q ≠ Some (Link t)) ->
  os.resolve n (<[q := File data]> fs) p =
    (if decide (fst (os.resolve n fs p) = q) then (q, Some (File data))
     else os.resolve n fs p).
Proof.
  intros Hq Hl. revert p. induction n as [|n IH]; intros p.
  - simpl. destruct (decide (p = q)) as [->|Hne].
    + rewrite get_insert_eq by done.
      destruct (os.get fs q) as [[]|] eqn:Hg; simpl; by rewrite decide_True.
    + rewrite get_insert_ne by done.
      destruct (os.get fs p) as [[]|]; simpl; by rewrite decide_False.
  - simpl. destruct (decide (p = q)) as [->|Hne].
    + rewrite get_insert_eq by done.
      destruct (os.get fs q) as [[]|] eqn:Hg; simpl; try by rewrite decide_True.
      by destruct (Hl target).
    + rewrite get_insert_ne by done.
      destruct (os.get fs p) as [[]|]; simpl; try by rewrite decide_False.
      apply IH.
Qed.

(** After a copy, a destination that is a file holds what the source holds. *)
Lemma copy2_content cwd (fs fs' : FS) src dest :
  os.copy2 cwd fs src dest = Some fs' ->
  os.isfile cwd fs dest = false ->
  os.isfile cwd fs' dest = true ->
  os.stat cwd fs' dest = os.stat cwd fs' src ∧
  ∃ data, os.stat cwd fs src = Some (File data) ∧ os.stat cwd fs' dest = Some (File data).
Proof.
  unfold os.copy2. destruct (os.stat cwd fs src) as [[|data|]|] eqn:Hsrc; try discriminate.
  set (dst := if os.isdir cwd fs dest then _ else dest).
  intros Hc Hnf Hf.
  assert (Hw : ∃ q, q ≠ "/" ∧ (∀ t, os.get fs q ≠ Some (Link t)) ∧
                    fs' = <[q := File data]> fs).
  { assert (Hres : ∀ q, (os.get fs q = None ∨ ∃ d0, os.get fs q = Some (File d0)) ->
                        q ≠ "/" ∧ ∀ t, os.get fs q ≠ Some (Link t)).
    { intros q Hq. split.
      - intros ->. destruct Hq as [Hq|[d0 Hq]]; discriminate.
      - intros t Ht. destruct Hq as [Hq|[d0 Hq]]; congruence. }
    assert (Hgo :
      (let '(q, o) := os.resolve os.MAXSYMLINKS fs (os_path.abspath cwd dst) in
       match o with
       | Some (File _) => Some (<[q:=File data]> fs)
       | Some _ => None
       | None =>
           if os.isdir cwd fs (os_path.dirname q) && negb (bool_decide (is_Some (os.get fs q)))
           then Some (<[q:=File data]> fs) else None
       end) = Some fs').
    { destruct (os.samefile cwd fs src dst) as [[]|]; [discriminate|exact Hc..]. }
    clear Hc.
    destruct (os.resolve os.MAXSYMLINKS fs (os_path.abspath cwd dst)) as [q [[| |]|]] eqn:Hr;
      try discriminate.
    - apply resolve_found in Hr as [Hg _]. injection Hgo as <-. exists q.
      destruct (Hres q) as [? ?]; [right; by eexists|done].
    - destruct (os.isdir cwd fs (os_path.dirname q)); [|discriminate].
      destruct (bool_decide (is_Some (os.get fs q))) eqn:Hn; [discriminate|].
      apply bool_decide_eq_false in Hn. injection Hgo as <-. exists q.
      destruct (Hres q) as [? ?]; [left|done].
      destruct (os.get fs q); [destruct Hn; by eexists|done]. }
  destruct Hw as (q & Hq & Hl & ->).
  assert (Hs' : os.stat cwd (<[q := File data]> fs) src = Some (File data)).
  { unfold os.stat in *. rewrite resolve_insert_file by done.
    destruct (decide _); [done|exact Hsrc]. }
  assert (Hd' : os.stat cwd (<[q := File data]> fs) dest = Some (File data)).
  { unfold os.isfile, os.stat in *. rewrite resolve_insert_file in Hf |- * by done.
    destruct (decide _); [done|].
    destruct (snd (os.resolve os.MAXSYMLINKS fs (os_path.abspath cwd dest))) as [[]|];
      done. }
  split; [congruence|]. by exists data.
Qed.

(** ** The executor *)

Section Executor.

Context (E : Env).

Lemma fs_call_ok o w w' :
  fs_call E o w = (Ok tt, w') ->
  warnings w' = warnings w ∧ ops w' = ops w ++ [o] ∧
  match o with
  | OpMakedirs p => os.makedirs (cwd E) false (fs w) p = Some (fs w')
  | OpRemove p => os.remove (cwd E) (fs w) p = Some (fs w')
  | OpSymlink t p => os.symlink (cwd E) (fs w) t p = Some (fs w')
  | OpCopy2 s d => os.copy2 (cwd E) (fs w) s d = Some (fs w')
  end.
Proof.
  unfold fs_call. rewrite bind_unfold. unfold modify, try_fs. simpl.
  destruct o; simpl;
    match goal with |- context [match ?c with _ => _ end] => destruct c eqn:Hc end;
    intros [= <-]; done.
Qed.

Lemma ensure_dir_present d w :
  os.isdir (cwd E) (fs w) d = true -> ensure_dir E d w = (Ok tt, w).
Proof.
  intros H. unfold ensure_dir, isdir, gets. rewrite bind_unfold. by rewrite H.
Qed.

Lemma ensure_dir_ok d w w' :
  ensure_dir E d w = (Ok tt, w') ->
  warnings w' = warnings w ∧ ∃ pre, ops w' = ops w ++ pre.
Proof.
  unfold ensure_dir, isdir, gets. rewrite bind_unfold.
  destruct (os.isdir (cwd E) (fs w) d); simpl.
  - intros [= <-]. split; [done|]. exists []. by rewrite app_nil_r.
  - intros (? & ? & _)%fs_call_ok. eauto.
Qed.

Lemma warn_copyover_eq copied src dest w :
  warn_copyover E copied src dest w =
    (Ok tt, match copied !! dest with
            | Some prev => add_warning (Warning W_COPYOVER (copyover_msg E src prev dest)) w
            | None => w
            end).
Proof. unfold warn_copyover. by destruct (copied !! dest). Qed.

Lemma check_self_copy_same src dest w :
  os.samefile (cwd E) (fs w) src dest = Some true ->
  check_self_copy E src dest w
    = (Raise (KiPlotConfigurationError (self_copy_msg src dest)), w).
Proof.
  intros H. unfold check_self_copy, gets. rewrite bind_unfold. by rewrite H.
Qed.

Lemma check_self_copy_ok src dest w w' :
  check_self_copy E src dest w = (Ok tt, w') ->
  w' = w ∧ os.samefile (cwd E) (fs w) src dest ≠ Some true.
Proof.
  unfold check_self_copy, gets. rewrite bind_unfold.
  destruct (os.samefile (cwd E) (fs w) src dest) as [[]|]; [done|..];
    intros [= <-]; done.
Qed.

Lemma remove_old_ok dest w w' :
  remove_old E dest w = (Ok tt, w') ->
  warnings w' = warnings w ∧ (∃ pre, ops w' = ops w ++ pre) ∧
  os.isfile (cwd E) (fs w') dest = false ∧ os.islink (cwd E) (fs w') dest = false.
Proof.
  unfold remove_old, isfile, islink, gets. rewrite !bind_unfold. simpl.
  destruct (os.isfile (cwd E) (fs w) dest) eqn:Hf;
    destruct (os.islink (cwd E) (fs w) dest) eqn:Hl; simpl.
  4: { intros [= <-]. repeat split; try done. exists []. by rewrite app_nil_r. }
  all: intros (Hw & Ho & Hr)%fs_call_ok; split; [done|]; split; [eauto|];
    unfold os.remove in Hr;
    destruct (os.lstat (cwd E) (fs w) dest) as [[| |]|] eqn:Hls; try discriminate;
    injection Hr as Hr; rewrite <- Hr;
    (assert (os_path.abspath (cwd E) dest ≠ "/") as Hne
       by (intros Heq; unfold os.lstat in Hls; rewrite Heq in Hls; discriminate));
    (assert (os.get (delete (os_path.abspath (cwd E) dest) (fs w))
                    (os_path.abspath (cwd E) dest) = None) as Hg
       by (unfold os.get; rewrite (proj2 (eqb_false _ "/")) by done;
           apply lookup_delete_eq));
    unfold os.isfile, os.islink, os.stat, os.lstat, os.MAXSYMLINKS; simpl;
    rewrite Hg; done.
Qed.

(** What a step of the copy loop has done when it succeeds. *)
Lemma run_entry_ok self output copied src dst w c' w' :
  run_entry E self output copied (Some src, dst) w = (Ok c', w') ->
  let dest := os_path.join output dst in
  c' = <[dest := src]> copied ∧
  warnings w' =
    warnings w ++ match copied !! dest with
                  | Some prev => [Warning W_COPYOVER (copyover_msg E src prev dest)]
                  | None => []
                  end ∧
  ∃ wb pre,
    ops wb = ops w ++ pre ∧
    ops w' = ops wb ++ [put_op E self src dest] ∧
    os.isfile (cwd E) (fs wb) dest = false ∧
    os.islink (cwd E) (fs wb) dest = false ∧
    match put_op E self src dest with
    | OpSymlink t p => os.symlink (cwd E) (fs wb) t p = Some (fs w')
    | OpCopy2 s d => os.copy2 (cwd E) (fs wb) s d = Some (fs w')
    | _ => False
    end.
Proof.
  intros H dest. unfold run_entry in H. fold dest in H.
  rewrite bind_unfold in H.
  destruct (ensure_dir E (os_path.dirname dest) w) as [[[]|e] w1] eqn:H1; [|discriminate].
  apply ensure_dir_ok in H1 as [Hw1 [pre1 Ho1]].
  rewrite bind_unfold, warn_copyover_eq in H.
  set (w2 := match copied !! dest with Some prev => _ | None => w1 end) in H.
  assert (Hw2 : warnings w2 = warnings w ++
            match copied !! dest with
            | Some prev => [Warning W_COPYOVER (copyover_msg E src prev dest)]
            | None => []
            end ∧ ops w2 = ops w1).
  { unfold w2. destruct (copied !! dest); simpl; [by rewrite Hw1|].
    by rewrite app_nil_r. }
  destruct Hw2 as [Hw2 Ho2]. clearbody w2.
  rewrite bind_unfold in H.
  destruct (check_self_copy E src dest w2) as [[[]|e] w3] eqn:H3; [|discriminate].
  apply check_self_copy_ok in H3 as [-> _].
  rewrite bind_unfold in H.
  destruct (remove_old E dest w2) as [[[]|e] w4] eqn:H4; [|discriminate].
  apply remove_old_ok in H4 as (Hw4 & [pre4 Ho4] & Hf4 & Hl4).
  rewrite bind_unfold in H.
  destruct (fs_call E (put_op E self src dest) w4) as [[[]|e] w5] eqn:H5; [|discriminate].
  apply fs_call_ok in H5 as (Hw5 & Ho5 & Hr5).
  injection H as <- <-.
  split; [done|]. split; [congruence|].
  exists w4, (pre1 ++ pre4). split; [by rewrite Ho4, Ho2, Ho1, app_assoc|].
  split; [done|]. split; [done|]. split; [done|].
  unfold put_op in *. by destruct (link_no_copy self).
Qed.

(** the warnings only grow, and so do the operations *)
Lemma copy_loop_grows self output files :
  ∀ copied w c' w',
    foldM (run_entry E self output) copied files w = (Ok c', w') ->
    (∃ ws, warnings w' = warnings w ++ ws) ∧ (∃ post, ops w' = ops w ++ post).
Proof.
  induction files as [|[[src|] d] files IH]; intros copied w c' w' H.
  - injection H as <- <-. split; exists []; by rewrite app_nil_r.
  - rewrite foldM_cons in H.
    destruct (run_entry E self output copied (Some src, d) w) as [[c1|e] w1] eqn:H1;
      [|discriminate].
    apply run_entry_ok in H1 as (_ & Hw & wb & pre & Hob & Ho & _).
    apply IH in H as [[ws Hws] [post Hpost]]. split.
    + eexists. rewrite Hws, Hw, <- app_assoc. reflexivity.
    + eexists. rewrite Hpost, Ho, Hob, <- !app_assoc. reflexivity.
  - rewrite foldM_cons, run_entry_generated in H. by apply IH in H.
Qed.

(** every step with a source either adds a destination to [copied] or
    emits one warning *)
Lemma copy_loop_count self output files :
  ∀ copied w c' w',
    foldM (run_entry E self output) copied files w = (Ok c', w') ->
    length (warnings w') + size c'
    = length (warnings w) + size copied + length (List.filter has_source files).
Proof.
  induction files as [|[[src|] d] files IH]; intros copied w c' w' H.
  - injection H as <- <-. simpl. lia.
  - rewrite foldM_cons in H.
    destruct (run_entry E self output copied (Some src, d) w) as [[c1|e] w1] eqn:H1;
      [|discriminate].
    apply run_entry_ok in H1 as (-> & Hw & _).
    apply IH in H. rewrite H, Hw.
    change (List.filter has_source ((Some src, d) :: files))
      with ((Some src, d) :: List.filter has_source files).
    destruct (copied !! os_path.join output d) as [prev|] eqn:Hc.
    + rewrite map_size_insert_Some by by eexists.
      rewrite length_app. simpl. lia.
    + rewrite map_size_insert_None by done. rewrite app_nil_r. simpl. lia.
  - rewrite foldM_cons, run_entry_generated in H. apply IH in H. rewrite H.
    by change (List.filter has_source ((None, d) :: files))
      with (List.filter has_source files).
Qed.

(** entries for other destinations leave the record of [dest] alone *)
Lemma copy_loop_copied self output dest files :
  ∀ copied w c' w',
    foldM (run_entry E self output) copied files w = (Ok c', w') ->
    (∀ s d, (Some s, d) ∈ files -> os_path.join output d ≠ dest) ->
    c' !! dest = copied !! dest.
Proof.
  induction files as [|[[src|] d] files IH]; intros copied w c' w' H Hother.
  - by injection H as <- <-.
  - rewrite foldM_cons in H.
    destruct (run_entry E self output copied (Some src, d) w) as [[c1|e] w1] eqn:H1;
      [|discriminate].
    apply run_entry_ok in H1 as (-> & _).
    rewrite (IH _ _ _ _ H).
    + apply lookup_insert_ne. apply (Hother src d), list_elem_of_here.
    + intros s0 d0 Hin. apply (Hother s0 d0). by apply elem_of_cons; right.
  - rewrite foldM_cons, run_entry_generated in H. apply (IH _ _ _ _ H).
    intros s0 d0 Hin. apply (Hother s0 d0). by apply elem_of_cons; right.
Qed.

Lemma foldM_app_ok {A B} (body : B -> A -> M B) acc l1 l2 w acc' w' :
  foldM body acc (l1 ++ l2) w = (Ok acc', w') ->
  ∃ acc1 w1, foldM body acc l1 w = (Ok acc1, w1) ∧ foldM body acc1 l2 w1 = (Ok acc', w').
Proof.
  rewrite foldM_app. destruct (foldM body acc l1 w) as [[acc1|e] w1]; [|discriminate].
  intros H. by exists acc1, w1.
Qed.

End Executor.

(** ** The file system: what the calls of the executor change *)

Lemma get_none (fs : FS) q : os.get fs q = None -> q ≠ "/" ∧ fs !! q = None.
Proof.
  unfold os.get. destruct (Str.eqb q "/") eqn:Hq; [done|].
  apply eqb_false in Hq. done.
Qed.

Lemma resolve_none n (fs : FS) q : os.get fs q = None -> os.resolve n fs q = (q, None).
Proof. intros H. destruct n; simpl; by rewrite H. Qed.

Lemma resolve_here n (fs : FS) q x :
  os.get fs q = Some x -> (∀ t, x ≠ Link t) -> os.resolve n fs q = (q, Some x).
Proof. intros H Hx. destruct n; simpl; rewrite H; destruct x; try done; by destruct (Hx target). Qed.

(** a path that resolves keeps its resolution when a new entry is made *)
Lemma resolve_insert_fresh n (fs : FS) q y :
  os.get fs q = None ->
  ∀ p r x, os.resolve n fs p = (r, Some x) -> os.resolve n (<[q := y]> fs) p = (r, Some x).
Proof.
  intros Hq. induction n as [|n IH]; intros p r x H.
  - assert (p ≠ q) as Hne.
    { intros ->. simpl in H. by rewrite Hq in H. }
    simpl in *. rewrite (get_insert_ne fs q p y Hne).
    by destruct (os.get fs p) as [[| |]|].
  - assert (p ≠ q) as Hne.
    { intros ->. simpl in H. by rewrite Hq in H. }
    simpl in *. rewrite (get_insert_ne fs q p y Hne).
    destruct (os.get fs p) as [[| |t]|]; try done. by apply IH.
Qed.

Lemma get_delete (fs : FS) q p x :
  os.get (delete q fs) p = Some x -> os.get fs p = Some x.
Proof.
  unfold os.get. destruct (Str.eqb p "/"); [done|].
  destruct (decide (q = p)) as [->|Hne].
  - by rewrite lookup_delete_eq.
  - by rewrite lookup_delete_ne.
Qed.

Lemma get_delete_ne (fs : FS) q p : p ≠ q -> os.get (delete q fs) p = os.get fs p.
Proof.
  intros Hne. unfold os.get. destruct (Str.eqb p "/"); [done|].
  by rewrite lookup_delete_ne.
Qed.

Lemma get_delete_eq (fs : FS) q : q ≠ "/" -> os.get (delete q fs) q = None.
Proof.
  intros Hne. unfold os.get. rewrite (proj2 (eqb_false _ _)) by done.
  apply lookup_delete_eq.
Qed.

(** a path that resolves once an entry is removed resolved as well before *)
Lemma resolve_delete n (fs0 : FS) q :
  ∀ p r x, os.resolve n (delete q fs0) p = (r, Some x) -> os.resolve n fs0 p = (r, Some x).
Proof.
  induction n as [|n IH]; intros p r x H; simpl in *;
    destruct (os.get (delete q fs0) p) as [nd|] eqn:Hg; try discriminate;
    rewrite (get_delete _ _ _ _ Hg); destruct nd; try done.
  by apply IH.
Qed.

(** [makedirs] only adds: what is there stays *)
Lemma mkdirs_preserve ok comps :
  ∀ (fs fs' : FS) pre p x,
    os.mkdirs ok fs pre comps = Some fs' -> os.get fs p = Some x -> os.get fs' p = Some x.
Proof.
  induction comps as [|c comps IH]; intros fs fs' pre p x H Hp; cbn [os.mkdirs] in H.
  - by injection H as <-.
  - destruct (os.get fs (os_path.join pre c)) as [nd|] eqn:Hg.
    + destruct (snd (os.resolve os.MAXSYMLINKS fs (os_path.join pre c))) as [[| |]|];
        try discriminate.
      destruct (bool_decide (comps = []) && negb ok); [discriminate|].
      by apply (IH _ _ _ _ _ H).
    + apply (IH _ _ _ _ _ H). rewrite get_insert_ne; [done|].
      intros ->. by rewrite Hg in Hp.
Qed.

Lemma makedirs_preserve cwd ok (fs fs' : FS) d p x :
  os.makedirs cwd ok fs d = Some fs' -> os.get fs p = Some x -> os.get fs' p = Some x.
Proof.
  unfold os.makedirs. destruct (os_path.path_list cwd d) as [|c comps].
  - destruct ok; [|discriminate]. by intros [= <-].
  - apply mkdirs_preserve.
Qed.

(** what [copy2] does when nothing is at the destination *)
Lemma copy2_fresh cwd (fs fs' : FS) src dest :
  os.get fs (os_path.abspath cwd dest) = None ->
  os.copy2 cwd fs src dest = Some fs' ->
  ∃ data,
    os.stat cwd fs src = Some (File data) ∧
    os.isdir cwd fs (os_path.dirname (os_path.abspath cwd dest)) = true ∧
    fs' = <[os_path.abspath cwd dest := File data]> fs.
Proof.
  intros Hq. unfold os.copy2.
  destruct (os.stat cwd fs src) as [[|data|]|] eqn:Hs; try discriminate.
  assert (os.isdir cwd fs dest = false) as ->.
  { unfold os.isdir, os.stat. by rewrite resolve_none. }
  destruct (os.samefile cwd fs src dest) as [[]|]; [discriminate|..];
    rewrite (resolve_none _ _ _ Hq), Hq;
    (destruct (os.isdir cwd fs (os_path.dirname (os_path.abspath cwd dest))) eqn:Hd;
       [|discriminate]); simpl; intros [= <-]; by exists data.
Qed.

(** what [symlink] does *)
Lemma symlink_fresh cwd (fs fs' : FS) t dest :
  os.symlink cwd fs t dest = Some fs' ->
  os.get fs (os_path.abspath cwd dest) = None ∧
  os.isdir cwd fs (os_path.dirname (os_path.abspath cwd dest)) = true ∧
  fs' = <[os_path.abspath cwd dest := Link t]> fs.
Proof.
  unfold os.symlink, os.lstat.
  destruct (os.get fs (os_path.abspath cwd dest)); [discriminate|].
  destruct (os.isdir cwd fs (os_path.dirname (os_path.abspath cwd dest))); [|discriminate].
  by intros [= <-].
Qed.

Section ExecutorTrace.

Context (E : Env).

Lemma ensure_dir_preserve d w w1 :
  ensure_dir E d w = (Ok tt, w1) ->
  ∀ p x, os.get (fs w) p = Some x -> os.get (fs w1) p = Some x.
Proof.
  unfold ensure_dir, isdir, gets. rewrite bind_unfold.
  destruct (os.isdir (cwd E) (fs w) d); simpl.
  - by intros [= <-].
  - intros (_ & _ & Hm)%fs_call_ok p x Hp. by apply (makedirs_preserve _ _ _ _ _ _ _ Hm).
Qed.

Lemma remove_old_fs dest w w' :
  remove_old E dest w = (Ok tt, w') ->
  let q := os_path.abspath (cwd E) dest in
  fs w' = after_remove (cwd E) (fs w) dest ∧
  ops w' = ops w ++ (if os.isfile (cwd E) (fs w) dest || os.islink (cwd E) (fs w) dest
                     then [OpRemove dest] else []) ∧
  (os.get (fs w') q = None ∨ (os.get (fs w) q = Some Dir ∧ fs w' = fs w)).
Proof.
  intros H q. unfold after_remove. revert H.
  unfold remove_old, isfile, islink, gets. rewrite !bind_unfold. cbn [fst snd].
  destruct (os.isfile (cwd E) (fs w) dest || os.islink (cwd E) (fs w) dest) eqn:Hor;
    cbn [when].
  - intros (_ & Ho & Hr)%fs_call_ok. unfold os.remove, os.lstat in Hr. fold q in Hr.
    assert (q ≠ "/") as Hne.
    { intros Heq. rewrite Heq in Hr. discriminate. }
    destruct (os.get (fs w) q) as [[| |]|]; try discriminate;
      injection Hr as <-; (split; [done|]); (split; [done|]); left;
      by apply get_delete_eq.
  - intros [= <-]. split; [done|]. split; [by rewrite app_nil_r|].
    apply orb_false_iff in Hor as [Hf Hl].
    unfold os.isfile, os.stat in Hf. unfold os.islink, os.lstat in Hl. fold q in Hf, Hl.
    destruct (os.get (fs w) q) as [[|data|t]|] eqn:Hg; [by right|..|by left].
    + by rewrite (resolve_here _ _ _ _ Hg) in Hf.
    + done.
Qed.

(** the steps of the body of the copy loop when it succeeds *)
Lemma run_entry_trace self output copied src dst w c' w' :
  run_entry E self output copied (Some src, dst) w = (Ok c', w') ->
  let dest := os_path.join output dst in
  let q := os_path.abspath (cwd E) dest in
  ∃ w1,
    ensure_dir E (os_path.dirname dest) w = (Ok tt, w1) ∧
    os.samefile (cwd E) (fs w1) src dest ≠ Some true ∧
    c' = <[dest := src]> copied ∧
    ops w' = ops w1
               ++ (if os.isfile (cwd E) (fs w1) dest || os.islink (cwd E) (fs w1) dest
                   then [OpRemove dest] else [])
               ++ [put_op E self src dest] ∧
    (os.get (after_remove (cwd E) (fs w1) dest) q = None
     ∨ (os.get (fs w1) q = Some Dir ∧ after_remove (cwd E) (fs w1) dest = fs w1)) ∧
    match put_op E self src dest with
    | OpSymlink t p => os.symlink (cwd E) (after_remove (cwd E) (fs w1) dest) t p = Some (fs w')
    | OpCopy2 s d => os.copy2 (cwd E) (after_remove (cwd E) (fs w1) dest) s d = Some (fs w')
    | _ => False
    end.
Proof.
  intros H dest q. unfold run_entry in H. fold dest in H.
  rewrite bind_unfold in H.
  destruct (ensure_dir E (os_path.dirname dest) w) as [[[]|e] w1] eqn:H1; [|discriminate].
  exists w1. split; [done|].
  rewrite bind_unfold, warn_copyover_eq in H.
  set (w2 := match copied !! dest with Some prev => _ | None => w1 end) in H.
  assert (fs w2 = fs w1 ∧ ops w2 = ops w1) as [Hf2 Ho2].
  { unfold w2. by destruct (copied !! dest). }
  clearbody w2. rewrite bind_unfold in H.
  destruct (check_self_copy E src dest w2) as [[[]|e] w3] eqn:H3; [|discriminate].
  apply check_self_copy_ok in H3 as [-> Hsame]. rewrite Hf2 in Hsame.
  split; [done|].
  rewrite bind_unfold in H.
  destruct (remove_old E dest w2) as [[[]|e] w4] eqn:H4; [|discriminate].
  apply remove_old_fs in H4 as (Hf4 & Ho4 & Hg4). rewrite Hf2 in Hf4, Ho4, Hg4.
  rewrite bind_unfold in H.
  destruct (fs_call E (put_op E self src dest) w4) as [[[]|e] w5] eqn:H5; [|discriminate].
  apply fs_call_ok in H5 as (_ & Ho5 & Hr5).
  injection H as <- <-. split; [done|].
  split; [by rewrite Ho5, Ho4, Ho2, <- app_assoc|].
  rewrite Hf4 in Hg4, Hr5. split.
  - destruct Hg4 as [?|[? ?]]; [by left|right]. split; [done|congruence].
  - unfold put_op in *. by destruct (link_no_copy self).
Qed.

(** a copy step, the directory of the destination being there and the
    destination not being a directory: the one path it writes, with the
    content the source had *)
Lemma copy_step_fs self output copied src dst w c' w' :
  link_no_copy self = false ->
  let dest := os_path.join output dst in
  os.isdir (cwd E) (fs w) (os_path.dirname dest) = true ->
  os.lstat (cwd E) (fs w) dest ≠ Some Dir ->
  run_entry E self output copied (Some src, dst) w = (Ok c', w') ->
  ∃ data,
    os.stat (cwd E) (fs w) src = Some (File data) ∧
    fs w' = <[os_path.abspath (cwd E) dest := File data]> (fs w).
Proof.
  intros Hcopy dest Hdir Hnd H.
  apply run_entry_trace in H as (w1 & H1 & _ & _ & _ & Hg & Hput).
  fold dest in H1, Hg, Hput.
  rewrite (ensure_dir_present E _ _ Hdir) in H1. injection H1 as <-.
  destruct Hg as [Hg|[Hg _]]; [|done].
  unfold put_op in Hput. rewrite Hcopy in Hput.
  destruct (copy2_fresh _ _ _ _ _ Hg Hput) as (data & Hs & _ & Hfs).
  exists data. unfold after_remove in *.
  destruct (os.isfile (cwd E) (fs w) dest || os.islink (cwd E) (fs w) dest).
  - split; [|by rewrite Hfs, insert_delete_eq].
    unfold os.stat in *.
    destruct (os.resolve os.MAXSYMLINKS (delete (os_path.abspath (cwd E) dest) (fs w))
                         (os_path.abspath (cwd E) src)) as [r o] eqn:Hr.
    simpl in Hs. subst o. by rewrite (resolve_delete _ _ _ _ _ _ Hr).
  - done.
Qed.

End ExecutorTrace.

Lemma symlink_lstat cwd (fs fs' : FS) t p :
  os.symlink cwd fs t p = Some fs' -> os.lstat cwd fs' p = Some (Link t).
Proof.
  unfold os.symlink. destruct (os.lstat cwd fs p) eqn:Hl; [discriminate|].
  destruct (os.isdir cwd fs _); [|discriminate]. intros [= <-].
  unfold os.lstat in *. apply get_insert_eq. intros Heq. by rewrite Heq in Hl.
Qed.

Section CopyRun.

Context (E : Env).

(** C3, as amended: when the entry reached is its own destination (same
    file, the directory of the destination being there), the run fails
    with a configuration error before this entry removes, links or copies
    anything: the file system and the operations are those the earlier
    entries have left. *)
Theorem self_copy_rejected self0 self output before src dst after w0 w1 copied w :
  get_files E self0 false w0 = (Ok (before ++ (Some src, dst) :: after, self), w1) ->
  copy_files E self (output +:+ "/") before w1 = (Ok copied, w) ->
  let dest := os_path.join (output +:+ "/") dst in
  os.isdir (cwd E) (fs w) (os_path.dirname dest) = true ->
  os.samefile (cwd E) (fs w) src dest = Some true ->
  ∃ w',
    run E self0 output w0
      = (Raise (KiPlotConfigurationError (self_copy_msg src dest)), w') ∧
    fs w' = fs w ∧ ops w' = ops w.
Proof.
  intros Hg Hb dest Hdir Hsame.
  unfold run. rewrite bind_unfold, Hg. simpl. rewrite bind_unfold.
  unfold copy_files in *. rewrite foldM_app, Hb, foldM_cons.
  unfold run_entry. fold dest.
  rewrite bind_unfold, ensure_dir_present by done.
  rewrite bind_unfold, warn_copyover_eq.
  set (w2 := match copied !! dest with Some prev => _ | None => w end).
  assert (fs w2 = fs w ∧ ops w2 = ops w) as [Hfs Hops].
  { unfold w2. by destruct (copied !! dest). }
  rewrite bind_unfold, check_self_copy_same by by rewrite Hfs.
  by exists w2.
Qed.

(** C4, as amended: two entries for one destination, no entry in between
    for it. When the copy loop succeeds, the later entry is reached with
    the earlier source on record for the destination; its step emits
    exactly one warning, naming both sources and the destination, and goes
    on: the later source is copied or linked after the earlier one, is on
    record for the destination, and the entries that follow are processed.
    In copy mode, the directory of the destination being there and the
    destination not being a directory when the later entry is reached, the
    later step changes the file system at the destination only, which then
    is a file with the content of the later source; whenever the
    destination is a file after the step, it holds what the later source
    holds. In link mode the destination is a link to the later source.
    Over the whole loop there is one warning for each entry with a source
    beyond the first of its destination. *)
Theorem overwrite_warning self output before a da between b db after w0 c_end w_end :
  let dest := os_path.join output da in
  os_path.join output db = dest ->
  (∀ s d, (Some s, d) ∈ between -> os_path.join output d ≠ dest) ->
  copy_files E self output (before ++ (Some a, da) :: between ++ (Some b, db) :: after) w0
    = (Ok c_end, w_end) ->
  ∃ c1 w1 c2 w2,
    copy_files E self output (before ++ (Some a, da) :: between) w0 = (Ok c1, w1) ∧
    run_entry E self output c1 (Some b, db) w1 = (Ok c2, w2) ∧
    foldM (run_entry E self output) c2 after w2 = (Ok c_end, w_end) ∧
    c1 !! dest = Some a ∧
    c2 !! dest = Some b ∧
    warnings w2 = warnings w1 ++ [Warning W_COPYOVER (copyover_msg E b a dest)] ∧
    (∃ l1 l2,
       ops w2 = ops w0 ++ l1 ++ [put_op E self a dest] ++ l2 ++ [put_op E self b dest]) ∧
    (link_no_copy self = false ->
     os.isdir (cwd E) (fs w1) (os_path.dirname dest) = true ->
     os.lstat (cwd E) (fs w1) dest ≠ Some Dir ->
     ∃ data,
       os.stat (cwd E) (fs w1) b = Some (File data) ∧
       fs w2 = <[os_path.abspath (cwd E) dest := File data]> (fs w1)) ∧
    (link_no_copy self = false ->
     os.isfile (cwd E) (fs w2) dest = true ->
     os.stat (cwd E) (fs w2) dest = os.stat (cwd E) (fs w2) b) ∧
    (link_no_copy self = true ->
     os.lstat (cwd E) (fs w2) dest
       = Some (Link (os_path.relpath (cwd E) b (os_path.dirname dest)))) ∧
    length (warnings w_end) + size c_end
    = length (warnings w0)
      + length (List.filter has_source
                  (before ++ (Some a, da) :: between ++ (Some b, db) :: after)).
Proof.
  intros dest Hdb Hbetween Hrun. unfold copy_files in *.
  pose proof (copy_loop_count E self output _ _ _ _ _ Hrun) as Hcount.
  rewrite map_size_empty, Nat.add_0_r in Hcount.
  replace (before ++ (Some a, da) :: between ++ (Some b, db) :: after)
    with ((before ++ (Some a, da) :: between) ++ (Some b, db) :: after) in Hrun
    by (by rewrite <- app_assoc).
  apply foldM_app_ok in Hrun as (c1 & w1 & Hpre & Hrest).
  rewrite foldM_cons in Hrest.
  destruct (run_entry E self output c1 (Some b, db) w1) as [[c2|e] w2] eqn:Hb;
    [|discriminate].
  exists c1, w1, c2, w2. split; [done|]. split; [done|]. split; [done|].
  (* the earlier entry *)
  pose proof Hpre as Hpre0.
  apply foldM_app_ok in Hpre as (c0 & wA & Hbefore & Hmid).
  rewrite foldM_cons in Hmid.
  destruct (run_entry E self output c0 (Some a, da) wA) as [[ca|e] wa] eqn:Ha;
    [|discriminate].
  apply run_entry_ok in Ha as (-> & _ & wab & prea & Hoab & Hoa & _).
  fold dest in Hoa, Hoab.
  assert (Hc1 : c1 !! dest = Some a).
  { rewrite (copy_loop_copied E self output dest between _ _ _ _ Hmid Hbetween).
    apply lookup_insert_eq. }
  apply copy_loop_grows in Hbefore as [_ [lA HlA]].
  apply copy_loop_grows in Hmid as [_ [lB HlB]].
  (* the later entry *)
  pose proof (λ Hl, copy_step_fs E self output c1 b db w1 c2 w2 Hl) as Hfs.
  cbn zeta in Hfs. rewrite Hdb in Hfs. pose proof Hb as Hb0.
  apply run_entry_ok in Hb as (-> & Hw & wb & preb & Hob & Ho & Hnf & Hnl & Hput).
  rewrite Hdb in *. rewrite Hc1 in Hw.
  split; [done|]. split; [apply lookup_insert_eq|]. split; [done|]. split.
  { exists (lA ++ prea), (lB ++ preb).
    rewrite Ho, Hob, HlB, Hoa, Hoab, HlA. by rewrite <- !app_assoc. }
  unfold put_op in Hput. split; [|split; [|split; [|exact Hcount]]].
  - intros Hl Hd Hn. exact (Hfs Hl Hd Hn Hb0).
  - intros Hl Hf. rewrite Hl in Hput.
    by destruct (copy2_content _ _ _ _ _ Hput Hnf Hf) as [? _].
  - intros Hl. rewrite Hl in Hput. by apply symlink_lstat in Hput.
Qed.

End CopyRun.

(** The first entry is copied, the second is its own destination. *)
Lemma self_copy_rejected_witness :
  ∃ w',
    run Scenario.env_self Scenario.options_self "/w/out" (Scenario.world Scenario.fs_self)
      = (Raise (KiPlotConfigurationError
                  "Trying to copy /w/out/b.csv over itself /w/out/b.csv"), w') ∧
    fs w' = <["/w/out/a.csv" := File "A"]> Scenario.fs_self ∧
    ops w' = [OpCopy2 "/w/a.csv" "/w/out/a.csv"].
Proof.
  refine (self_copy_rejected Scenario.env_self Scenario.options_self
           (mkOptions [Scenario.spec "a.csv" st_files ""; Scenario.spec "b.csv" st_out_files ""]
                      true false "" [Some "/w"] false)
           "/w/out" [(Some "/w/a.csv", "a.csv")] "/w/out/b.csv" "b.csv" []
           (Scenario.world Scenario.fs_self) (Scenario.world Scenario.fs_self)
           {["/w/out/a.csv" := "/w/a.csv"]}
           (mkWorld (<["/w/out/a.csv" := File "A"]> Scenario.fs_self) ∅ [] []
                    [OpCopy2 "/w/a.csv" "/w/out/a.csv"] []) _ _ _ _).
  - vm_compute. reflexivity.
  - vm_compute. reflexivity.
  - vm_compute. reflexivity.
  - vm_compute. reflexivity.
Defined.

(** C3 as stated fails: the run fails with the configuration error, but the
    first entry has been copied by then. *)
Lemma self_copy_after_copy_counterexample :
  fst (run Scenario.env_self Scenario.options_self "/w/out"
           (Scenario.world Scenario.fs_self))
    = Raise (KiPlotConfigurationError
               "Trying to copy /w/out/b.csv over itself /w/out/b.csv") ∧
  ops (snd (run Scenario.env_self Scenario.options_self "/w/out"
                (Scenario.world Scenario.fs_self)))
    = [OpCopy2 "/w/a.csv" "/w/out/a.csv"] ∧
  Scenario.fs_self !! "/w/out/a.csv" = None ∧
  fs (snd (run Scenario.env_self Scenario.options_self "/w/out"
               (Scenario.world Scenario.fs_self))) !! "/w/out/a.csv" = Some (File "A").
Proof. repeat split; vm_compute; reflexivity. Qed.
(** Two files [r.txt] of two directories, both sent flat to [all]: one
    warning, and the step of the second replaces the content of the first
    by its own. *)
Lemma overwrite_warning_witness :
  run_entry Scenario.env_self (Scenario.options_two false) "/w/out/"
            {["/w/out/all/r.txt" := "/w/x/r.txt"]} (Some "/w/y/r.txt", "all/r.txt")
            Scenario.world_x
    = (Ok {["/w/out/all/r.txt" := "/w/y/r.txt"]}, Scenario.world_y) ∧
  warnings Scenario.world_y
    = warnings Scenario.world_x
        ++ [Warning W_COPYOVER "`y/r.txt` and `x/r.txt` both are copied to `out/all/r.txt`"] ∧
  fs Scenario.world_x !! "/w/out/all/r.txt" = Some (File "X") ∧
  os.stat "/w" (fs Scenario.world_x) "/w/y/r.txt" = Some (File "Y") ∧
  fs Scenario.world_y = <["/w/out/all/r.txt" := File "Y"]> (fs Scenario.world_x).
Proof.
  destruct (overwrite_warning Scenario.env_self (Scenario.options_two false) "/w/out/"
              [] "/w/x/r.txt" "all/r.txt" [] "/w/y/r.txt" "all/r.txt" []
              (Scenario.world Scenario.fs_two)
              {["/w/out/all/r.txt" := "/w/y/r.txt"]} Scenario.world_y)
    as (c1 & w1 & c2 & w2 & H1 & H2 & H3 & Hc1 & Hc2 & Hw & Hops & Hfs & Hcopy & Hlink & Hcount).
  - reflexivity.
  - intros s d Hin. by apply elem_of_nil in Hin.
  - vm_compute. reflexivity.
  - assert (Hc : copy_files Scenario.env_self (Scenario.options_two false) "/w/out/"
                   [(Some "/w/x/r.txt", "all/r.txt")] (Scenario.world Scenario.fs_two)
                 = (Ok {["/w/out/all/r.txt" := "/w/x/r.txt"]}, Scenario.world_x))
      by (vm_compute; reflexivity).
    simpl app in H1. rewrite Hc in H1. injection H1 as <- <-.
    injection H3 as -> ->.
    split; [exact H2|]. split; [exact Hw|]. split; [vm_compute; reflexivity|].
    destruct Hfs as (data & Hs & Hf);
      [reflexivity|vm_compute; reflexivity|vm_compute; discriminate|].
    assert (Hy : os.stat "/w" (fs Scenario.world_x) "/w/y/r.txt" = Some (File "Y"))
      by (vm_compute; reflexivity).
    split; [exact Hy|].
    change (cwd Scenario.env_self) with "/w" in Hs. rewrite Hy in Hs.
    injection Hs as <-. exact Hf.
Defined.

Example overwrite_scenario :
  let r := run Scenario.env_self (Scenario.options_two false) "/w/out"
               (Scenario.world Scenario.fs_two) in
  warnings (snd r)
    = [Warning W_COPYOVER "`y/r.txt` and `x/r.txt` both are copied to `out/all/r.txt`"] ∧
  ops (snd r)
    = [OpMakedirs "/w/out/all"; OpCopy2 "/w/x/r.txt" "/w/out/all/r.txt";
       OpRemove "/w/out/all/r.txt"; OpCopy2 "/w/y/r.txt" "/w/out/all/r.txt"] ∧
  fs (snd r) !! "/w/out/all/r.txt" = Some (File "Y").
Proof. repeat split; vm_compute; reflexivity. Qed.

(** C4 as stated fails: the file [r.txt] of the working directory and the
    file [r.txt] of the output directory are two sources for the destination
    [r.txt] of the output directory. The first is copied; at the second the
    warning is emitted and then the run fails, the source being its own
    destination: the second source is not copied, and what it held is gone. *)
Lemma overwrite_self_copy_counterexample :
  entries_of (get_files Scenario.env_self Scenario.options_clash false
                        (Scenario.world Scenario.fs_clash))
    = Some [(Some "/w/r.txt", "r.txt"); (Some "/w/out/r.txt", "r.txt")] ∧
  fst (run Scenario.env_self Scenario.options_clash "/w/out"
           (Scenario.world Scenario.fs_clash))
    = Raise (KiPlotConfigurationError
               "Trying to copy /w/out/r.txt over itself /w/out/r.txt") ∧
  warnings (snd (run Scenario.env_self Scenario.options_clash "/w/out"
                     (Scenario.world Scenario.fs_clash)))
    = [Warning W_COPYOVER "`out/r.txt` and `r.txt` both are copied to `out/r.txt`"] ∧
  ops (snd (run Scenario.env_self Scenario.options_clash "/w/out"
                (Scenario.world Scenario.fs_clash)))
    = [OpRemove "/w/out/r.txt"; OpCopy2 "/w/r.txt" "/w/out/r.txt"] ∧
  fs (snd (run Scenario.env_self Scenario.options_clash "/w/out"
               (Scenario.world Scenario.fs_clash))) !! "/w/out/r.txt" = Some (File "new").
Proof. repeat split; vm_compute; reflexivity. Qed.

(** ** Collecting twice *)

Section Idempotence.

Context (E : Env).









Lemma collect_unfold self b acc f w :
  collect E self b acc f w =
    match get_files_step E self b f w with
    | (Ok (l, f'), w1) => (Ok (fst acc ++ l, snd acc ++ [f']), w1)
    | (Raise e, w1) => (Raise e, w1)
    end.
Proof.
  unfold collect. rewrite bind_unfold.
  destruct (get_files_step E self b f w) as [[[l f']|e] w1]; reflexivity.
Qed.



Lemma get_files_unfold self b w :
  get_files E self b w =
    match base_paths E w with
    | (Ok rd, w0) =>
        match foldM (collect E (set_rel_dirs self rd) b) ([], []) (files self) w0 with
        | (Ok (l, specs), w') => (Ok (l, set_files (set_rel_dirs self rd) specs), w')
        | (Raise e, w') => (Raise e, w')
        end
    | (Raise e, w0) => (Raise e, w0)
    end.
Proof.
  unfold get_files. rewrite bind_unfold.
  destruct (base_paths E w) as [[rd|e] w0]; [|reflexivity].
  rewrite bind_unfold. fold (collect E (set_rel_dirs self rd) b).
  change (files (set_rel_dirs self rd)) with (files self).
  destruct (foldM _ _ (files self) w0) as [[[l specs]|e] w']; reflexivity.
Qed.




End Idempotence.


(** The second pass over a [3d_models] entry, on which the first pass has
    set the append mode and the directories, from the same state of the
    world. *)
Example get_files_again_models :
  get_files Scenario.env_models
    (mkOptions [mkFilesList "*.step" st_3d_models ".*" "models+" false true "models"
                            [Some "/proj/3d"; Some "/proj/3rd"; Some "/proj"]]
               true false "" [Some "/proj/3d"; Some "/proj/3rd"; Some "/proj"] false)
    true (Scenario.world Scenario.fs_models)
  = (Ok ([(Some "/proj/3d/sub/part.step", "models/sub/part.step")],
         mkOptions [mkFilesList "*.step" st_3d_models ".*" "models+" false true "models"
                                [Some "/proj/3d"; Some "/proj/3rd"; Some "/proj"]]
                   true false "" [Some "/proj/3d"; Some "/proj/3rd"; Some "/proj"] false),
     Scenario.world Scenario.fs_models).
Proof. vm_compute. reflexivity. Qed.


(** * Further properties of the collector *)

(** ** Files of another output: when nothing is run *)

Section OutputsMore.

Context (E : Env).





(** X3. An entry of the [project] type under a KiCad older than 6 makes
    [get_files] raise the configuration error, once the entries before it
    have been resolved; the state is the one they left, and the entries
    after it are not looked at. *)
Theorem project_needs_kicad6 self b before f after rd acc w w1 :
  ki6 E = false ->
  f_source_type f = st_project ->
  files self = before ++ f :: after ->
  base_paths E w = (Ok rd, w) ->
  foldM (collect E (set_rel_dirs self rd) b) ([], []) before w = (Ok acc, w1) ->
  get_files E self b w
    = (Raise (KiPlotConfigurationError "The `project` mode needs KiCad 6 or newer"), w1).
Proof.
  intros Hki Ht Hfiles Hbase Hbefore.
  rewrite get_files_unfold, Hbase, Hfiles, foldM_app, Hbefore, foldM_cons, collect_unfold.
  unfold get_files_step. rewrite Ht, Hki. reflexivity.
Qed.

End OutputsMore.



Lemma project_needs_kicad6_witness :
  get_files Scenario2.env_ki5
            (Scenario.options [Scenario.spec "*.csv" st_files "";
                               Scenario.spec "*" st_project "prj";
                               Scenario.spec "nobody" st_output ""] false)
            false (Scenario.world Scenario.fs_csv)
    = (Raise (KiPlotConfigurationError "The `project` mode needs KiCad 6 or newer"),
       Scenario.world Scenario.fs_csv).
Proof.
  refine (project_needs_kicad6 Scenario2.env_ki5 _ false
            [Scenario.spec "*.csv" st_files ""] (Scenario.spec "*" st_project "prj")
            [Scenario.spec "nobody" st_output ""] [Some "/w"]
            ([(Some "/w/a.csv", "a.csv"); (Some "/w/b.csv", "b.csv")],
             [Scenario.spec "*.csv" st_files ""])
            (Scenario.world Scenario.fs_csv) (Scenario.world Scenario.fs_csv) _ _ _ _ _);
    vm_compute; reflexivity.
Defined.

(** ** The name a model gets in the saved board, and where it is copied *)

Lemma join_empty_l b : os_path.join "" b = b.
Proof. unfold os_path.join. by destruct (Str.startswith b "/"). Qed.

Lemma truthy_false s : Str.truthy s = false <-> s = "".
Proof.
  unfold Str.truthy. rewrite negb_false_iff. apply eqb_true.
Qed.

Lemma truthy_app_r a b : Str.truthy b = true -> Str.truthy (a +:+ b) = true.
Proof.
  unfold Str.truthy. rewrite !negb_true_iff, !eqb_false. intros Hb Hab. apply Hb.
  destruct a; [done|]. by rewrite app_cons in Hab.
Qed.

Lemma endswith_models a : Str.endswith (a +:+ "3d_models") "/" = false.
Proof. unfold Str.endswith. rewrite rev_app_s. reflexivity. Qed.

Lemma join_abs a b : Str.startswith b "/" = true -> os_path.join a b = b.
Proof. unfold os_path.join. by intros ->. Qed.

Lemma join_rel a b :
  Str.startswith b "/" = false ->
  os_path.join a b
  = if negb (Str.truthy a) || Str.endswith a "/" then a +:+ b else a +:+ "/" +:+ b.
Proof. unfold os_path.join. by intros ->. Qed.

Lemma join_models_assoc d s :
  os_path.join (os_path.join d "3d_models") s
  = os_path.join d (os_path.join "3d_models" s).
Proof.
  destruct (Str.startswith s "/") eqn:Hs.
  - by rewrite !(join_abs _ s Hs).
  - rewrite (join_rel "3d_models" s Hs), (join_rel _ s Hs).
    rewrite (join_rel d "3d_models" eq_refl).
    change (negb (Str.truthy "3d_models") || Str.endswith "3d_models" "/") with false.
    cbv iota.
    rewrite (join_rel d ("3d_models" +:+ "/" +:+ s) eq_refl).
    destruct (negb (Str.truthy d) || Str.endswith d "/").
    + rewrite truthy_app_r, endswith_models by done. cbn [negb orb].
      by rewrite app_assoc_s.
    + rewrite <- app_assoc_s, truthy_app_r, endswith_models by done. cbn [negb orb].
      by rewrite !app_assoc_s.
Qed.

Section Rename.

Context (E : Env).

(** X4. In the [3d_models] mode the name [apply_rename] gives an absolute
    model file in the board is [${KIPRJMOD}/] followed by the destination
    [get_files] copies that file to: the saved board finds the copy. *)
Theorem rename_matches_copy self f fname :
  os_path.isabs fname = true ->
  apply_rename (cwd E) (set_3d_attrs self f false) fname
  = "${KIPRJMOD}/" +:+ dest_of E self (left_3d self f false) (cwd E) true false fname.
Proof.
  intros Habs. unfold left_3d, apply_rename, dest_of, set_3d_attrs. cbv zeta.
  rewrite Habs.
  destruct (Str.truthy (dest f) && Str.endswith (dest f) "+") eqn:Happ; simpl.
  - by rewrite andb_false_r.
  - rewrite andb_true_r. destruct (Str.truthy (dest f)) eqn:Hd; [reflexivity|].
    apply truthy_false in Hd. by rewrite Hd, join_empty_l.
Qed.

(** X5. In the [project] mode the board is saved in the directory [dest]
    of the output directory: a model named [${KIPRJMOD}/rel] in the board
    is copied to [dest] joined with [rel], for the same [rel] under
    [3d_models]. *)
Theorem rename_matches_copy_project self f fname :
  os_path.isabs fname = true ->
  ∃ rel,
    apply_rename (cwd E) (set_3d_attrs self f true) fname = "${KIPRJMOD}/" +:+ rel ∧
    dest_of E self (left_3d self f true) (cwd E) false true fname
      = os_path.join (dest f) rel ∧
    ∃ tail, rel = os_path.join "3d_models" tail.
Proof.
  intros Habs. unfold left_3d, apply_rename, dest_of, set_3d_attrs. cbv zeta.
  rewrite Habs. simpl. rewrite !andb_false_r. simpl.
  eexists. split; [reflexivity|]. split; [|by eexists].
  apply join_models_assoc.
Qed.

End Rename.

Lemma rename_matches_copy_witness :
  apply_rename "/w" (set_3d_attrs (Scenario.options_models [])
                                  (Scenario.spec "*.step" st_3d_models "models+") false)
               "/proj/3d/sub/part.step"
  = "${KIPRJMOD}/models/sub/part.step".
Proof.
  refine (rename_matches_copy Scenario.env_models (Scenario.options_models [])
            (Scenario.spec "*.step" st_3d_models "models+") "/proj/3d/sub/part.step" _).
  vm_compute. reflexivity.
Defined.

Lemma rename_matches_copy_project_witness :
  ∃ rel,
    apply_rename "/w" (set_3d_attrs (Scenario.options_models [])
                                    (Scenario.spec "*" st_project "prj") true)
                 "/proj/3d/sub/part.step"
      = "${KIPRJMOD}/" +:+ rel ∧
    dest_of Scenario.env_models (Scenario.options_models [])
            (left_3d (Scenario.options_models []) (Scenario.spec "*" st_project "prj") true)
            "/w" false true "/proj/3d/sub/part.step"
      = os_path.join "prj" rel ∧
    ∃ tail, rel = os_path.join "3d_models" tail.
Proof.
  refine (rename_matches_copy_project Scenario.env_models (Scenario.options_models [])
            (Scenario.spec "*" st_project "prj") "/proj/3d/sub/part.step" _).
  vm_compute. reflexivity.
Defined.

(** ** Regular files with a destination, files of the output directory *)

Section RegularFilesMore.

Context (E : Env).

(** X6. For an entry of the [files] or of the [out_files] type, whose
    [_append_mode] is off as the constructor leaves it, the pattern is
    joined to the working directory or, for [out_files], to the output
    directory. A destination [dest] puts every kept file directly in
    [dest] under its base name, so that files with the same base name
    get the same destination; with no [dest] the destination is the
    path relative to the directory the pattern was joined to. The state
    is left as it is. *)
Theorem regular_files_destinations self b f w :
  f_source_type f = st_files ∨ f_source_type f = st_out_files ->
  _append_mode f = false ->
  let src_dir :=
    if bool_decide (f_source_type f = st_out_files) then src_dir_outdir E else cwd E in
  let pattern := os_path.join src_dir (expand_filename_both E (source f)) in
  let real := fun fname =>
    if follow_links self then os.realpath (cwd E) (fs w) fname
    else os_path.abspath (cwd E) fname in
  let dst := fun fname =>
    if Str.truthy (dest f) then os_path.join (dest f) (os_path.basename fname)
    else os_path.relpath (cwd E) fname src_dir in
  get_files_step E self b f w
    = (Ok ((fun fname => (Some (real fname), dst fname))
             <$> List.filter (re_match E (filter f)) (glob.iglob (fs w) pattern), f), w) ∧
  (Str.truthy (dest f) = true ->
   ∀ a c, os_path.basename a = os_path.basename c -> dst a = dst c) ∧
  (dest f = "" ->
   ∀ base rest,
     src_dir = abs_of base ->
     Forall (fun c => is_name c = true) base -> base ≠ [] ->
     Forall (fun c => is_name c = true) rest -> rest ≠ [] ->
     dst (src_dir +:+ "/" +:+ Str.join rest) = Str.join rest).
Proof.
  intros Ht Happ src_dir pattern real dst. split; [|split].
  - unfold get_files_step. subst dst pattern src_dir.
    destruct Ht as [Ht|Ht]; rewrite Ht; simpl; rewrite !bind_unfold; unfold gets; simpl;
      rewrite bind_unfold; simpl; unfold dest_of; rewrite Happ, app_nil_r, andb_true_r;
      reflexivity.
  - intros Hd a c Hac. subst dst. simpl. by rewrite Hd, Hac.
  - intros Hd base rest Hsrc Hb Hbn Hr Hrn. subst dst. simpl. rewrite Hd. simpl.
    rewrite Hsrc. by apply relpath_strip.
Qed.

(** X7. The targets [get_targets] returns are in ascending order and
    are, up to the order, the destinations of all the entries of
    [get_files] joined to the output directory, the generated files
    included and repeated destinations kept. *)
Theorem get_targets_sorted self out_dir w targets self' w' :
  get_targets E self out_dir w = (Ok (targets, self'), w') ->
  StronglySorted String.le targets ∧
  ∃ files,
    get_files E (set_output_dir self out_dir) true w = (Ok (files, self'), w') ∧
    targets ≡ₚ (fun e : entry => os_path.join out_dir (snd e)) <$> files.
Proof.
  unfold get_targets. rewrite bind_unfold.
  destruct (get_files E (set_output_dir self out_dir) true w) as [[[files s]|e] w1];
    [|discriminate].
  simpl. intros [= <- <- <-]. split.
  - apply StronglySorted_merge_sort; apply _.
  - exists files. split; [done|]. apply merge_sort_Permutation.
Qed.

(** X8. The dependencies [get_dependencies] returns are in ascending
    order and are, up to the order, the sources of the entries of
    [get_files] that have one: the files the collector generates itself
    are not dependencies. *)
Theorem get_dependencies_sorted self w deps self' w' :
  get_dependencies E self w = (Ok (deps, self'), w') ->
  StronglySorted String.le deps ∧
  ∃ files,
    get_files E self true w = (Ok (files, self'), w') ∧
    deps ≡ₚ omap fst files ∧
    length deps = length (List.filter has_source files).
Proof.
  unfold get_dependencies. rewrite bind_unfold.
  destruct (get_files E self true w) as [[[files s]|e] w1]; [|discriminate].
  simpl. intros [= <- <- <-]. split.
  - apply StronglySorted_merge_sort; apply _.
  - exists files. split; [done|]. split; [apply merge_sort_Permutation|].
    unfold sorted. rewrite merge_sort_Permutation.
    clear. induction files as [|[[s|] d] files IH]; simpl; [done| |done].
    f_equal. exact IH.
Qed.

End RegularFilesMore.

Lemma regular_files_destinations_witness :
  get_files_step Scenario.env_csv (Scenario.options [] false) false
                 (Scenario.spec "**/*.csv" st_files "all") (Scenario.world Scenario.fs_csv)
    = (Ok ([(Some "/w/sub/d.csv", "all/d.csv"); (Some "/w/a.csv", "all/a.csv");
            (Some "/w/b.csv", "all/b.csv")],
           Scenario.spec "**/*.csv" st_files "all"),
       Scenario.world Scenario.fs_csv).
Proof.
  refine (eq_trans (proj1 (regular_files_destinations Scenario.env_csv
                             (Scenario.options [] false) false
                             (Scenario.spec "**/*.csv" st_files "all")
                             (Scenario.world Scenario.fs_csv) (or_introl eq_refl) eq_refl)) _).
  vm_compute. reflexivity.
Defined.

Lemma get_targets_sorted_witness :
  StronglySorted String.le ["/w/out/a.csv"; "/w/out/b.csv"; "/w/out/c.txt"] ∧
  ∃ files,
    get_files Scenario.env_csv
              (set_output_dir
                 (Scenario.options [Scenario.spec "c.txt" st_files "";
                                    Scenario.spec "*.csv" st_files ""] false) "/w/out")
              true (Scenario.world Scenario.fs_csv)
      = (Ok (files,
             mkOptions [Scenario.spec "c.txt" st_files ""; Scenario.spec "*.csv" st_files ""]
                       true false "/w/out" [Some "/w"] false),
         Scenario.world Scenario.fs_csv) ∧
    ["/w/out/a.csv"; "/w/out/b.csv"; "/w/out/c.txt"]
      ≡ₚ (fun e : entry => os_path.join "/w/out" (snd e)) <$> files.
Proof.
  refine (get_targets_sorted Scenario.env_csv
            (Scenario.options [Scenario.spec "c.txt" st_files "";
                               Scenario.spec "*.csv" st_files ""] false)
            "/w/out" (Scenario.world Scenario.fs_csv) _ _ _ _).
  vm_compute. reflexivity.
Defined.

Lemma get_dependencies_sorted_witness :
  StronglySorted String.le ["/w/a.csv"; "/w/b.csv"; "/w/c.txt"] ∧
  ∃ files,
    get_files Scenario.env_csv
              (Scenario.options [Scenario.spec "c.txt" st_files "";
                                 Scenario.spec "*.csv" st_files ""] false)
              true (Scenario.world Scenario.fs_csv)
      = (Ok (files,
             mkOptions [Scenario.spec "c.txt" st_files ""; Scenario.spec "*.csv" st_files ""]
                       true false "" [Some "/w"] false),
         Scenario.world Scenario.fs_csv) ∧
    ["/w/a.csv"; "/w/b.csv"; "/w/c.txt"] ≡ₚ omap fst files ∧
    length ["/w/a.csv"; "/w/b.csv"; "/w/c.txt"] = length (List.filter has_source files).
Proof.
  refine (get_dependencies_sorted Scenario.env_csv
            (Scenario.options [Scenario.spec "c.txt" st_files "";
                               Scenario.spec "*.csv" st_files ""] false)
            (Scenario.world Scenario.fs_csv) _ _ _ _).
  vm_compute. reflexivity.
Defined.

(** ** The libraries of symbols *)

Lemma symbols_of_snoc lib objs o :
  symbols_of lib (objs ++ [o])
  = symbols_of lib objs ++ (if Str.eqb (lib_of o) lib then [snd o] else []).
Proof.
  unfold symbols_of. rewrite List.filter_app, fmap_app. simpl.
  by destruct (Str.eqb (lib_of o) lib).
Qed.

Lemma libs_add_keys libs lib name :
  (libs_add libs lib name).*1
  = if bool_decide (lib ∈ libs.*1) then libs.*1 else libs.*1 ++ [lib].
Proof.
  induction libs as [|[k v] libs IH]; [reflexivity|]. cbn [libs_add].
  destruct (Str.eqb k lib) eqn:Hk; rewrite !fmap_cons; cbn [fst].
  - apply eqb_true in Hk as ->. rewrite bool_decide_true; [done|]. by left.
  - apply eqb_false in Hk. rewrite IH.
    destruct (bool_decide (lib ∈ libs.*1)) eqn:Hin.
    + apply bool_decide_eq_true in Hin. rewrite bool_decide_true; [done|]. by right.
    + apply bool_decide_eq_false in Hin. rewrite bool_decide_false; [done|].
      intros [?|?]%elem_of_cons; [by subst|done].
Qed.

Lemma libs_add_elem libs lib name l ns :
  NoDup (libs.*1) ->
  (l, ns) ∈ libs_add libs lib name ->
  (l ≠ lib ∧ (l, ns) ∈ libs)
  ∨ (l = lib ∧ ∃ ns0, (lib, ns0) ∈ libs ∧ ns = ns0 ++ [name])
  ∨ (l = lib ∧ (lib ∉ libs.*1) ∧ ns = [name]).
Proof.
  induction libs as [|[k v] libs IH]; simpl; intros Hnd Hin.
  - apply list_elem_of_singleton in Hin as [= -> ->]. right. right.
    split; [done|]. split; [apply not_elem_of_nil|done].
  - apply NoDup_cons in Hnd as [Hk Hnd].
    destruct (Str.eqb k lib) eqn:Hkl.
    + apply eqb_true in Hkl as ->. apply elem_of_cons in Hin as [[= -> ->]|Hin].
      * right. left. split; [done|]. exists v. split; [by left|done].
      * left. split; [|by right]. intros ->. apply Hk.
        apply list_elem_of_fmap. by exists (lib, ns).
    + apply eqb_false in Hkl. apply elem_of_cons in Hin as [[= -> ->]|Hin].
      * left. split; [done|by left].
      * destruct (IH Hnd Hin) as [[Hne H]|[[-> (ns0 & H & ->)]|(-> & Hni & ->)]].
        -- left. split; [done|by right].
        -- right. left. split; [done|]. exists ns0. split; [by right|done].
        -- right. right. split; [done|]. split; [|done].
           intros [?|?]%elem_of_cons; [by subst|done].
Qed.

(** what holds of the dictionary [libs] once the symbols [objs] are filed *)
Lemma split_libs_inv objs :
  NoDup ((split_libs objs).*1) ∧
  (∀ lib, lib ∈ (split_libs objs).*1 <-> ∃ o, o ∈ objs ∧ lib_of o = lib) ∧
  (∀ lib ns, (lib, ns) ∈ split_libs objs -> ns = symbols_of lib objs).
Proof.
  unfold split_libs. induction objs as [|o objs IH] using rev_ind.
  - simpl. split; [constructor|]. split.
    + intros lib. split; [by intros ?%elem_of_nil|]. by intros (o & ?%elem_of_nil & _).
    + by intros lib ns ?%elem_of_nil.
  - rewrite fold_left_app. simpl. fold (lib_of o).
    destruct IH as (Hnd & Hkeys & Hns).
    set (libs := fold_left _ objs []) in *.
    split; [|split].
    + rewrite libs_add_keys. destruct (bool_decide (lib_of o ∈ libs.*1)) eqn:Hin; [done|].
      apply bool_decide_eq_false in Hin. apply NoDup_app. split; [done|].
      split; [|apply NoDup_singleton].
      intros x Hx ->%list_elem_of_singleton. done.
    + intros lib. rewrite libs_add_keys.
      destruct (bool_decide (lib_of o ∈ libs.*1)) eqn:Hin.
      * apply bool_decide_eq_true in Hin. rewrite Hkeys. split.
        -- intros (o' & Ho' & Hl). exists o'. split; [|done].
           apply elem_of_app. by left.
        -- intros (o' & [Ho'|Ho']%elem_of_app & Hl).
           ++ by exists o'.
           ++ apply list_elem_of_singleton in Ho'. subst o' lib. by apply Hkeys.
      * rewrite elem_of_app, list_elem_of_singleton, Hkeys. split.
        -- intros [(o' & Ho' & Hl)|Heq].
           ++ exists o'. split; [|done]. apply elem_of_app. by left.
           ++ exists o. split; [|done]. apply elem_of_app. right. by left.
        -- intros (o' & [Ho'|Ho']%elem_of_app & Hl).
           ++ left. by exists o'.
           ++ apply list_elem_of_singleton in Ho'. subst o'. by right.
    + intros lib ns Hin. rewrite symbols_of_snoc.
      apply libs_add_elem in Hin
          as [[Hne H]|[[-> (ns0 & H & ->)]|(-> & Hni & ->)]]; [| | |done].
      * rewrite (proj2 (eqb_false (lib_of o) lib)) by done.
        rewrite app_nil_r. by apply Hns.
      * rewrite eqb_refl. f_equal. by apply Hns.
      * rewrite eqb_refl.
        assert (symbols_of (lib_of o) objs = []) as ->; [|done].
        unfold symbols_of.
        destruct (List.filter _ objs) as [|o' l] eqn:Hf; [done|].
        exfalso. apply Hni, Hkeys. exists o'.
        assert (In o' (List.filter (fun obj => Str.eqb (lib_of obj) (lib_of o)) objs)) as Hin
          by (rewrite Hf; by left).
        apply filter_In in Hin as [Hin Heq]. split; [by apply list_elem_of_In|].
        by apply eqb_true.
Qed.

Section Symbols.

Context (E : Env).

(** X9. The symbols of the schematic are filed by library, those with no
    library under [locally_edited]: no library appears twice, a library
    appears when one of the symbols is filed under it, and it holds the
    names of all the symbols filed under it, in the order of the
    schematic. *)
Theorem split_libs_groups objs :
  NoDup ((split_libs objs).*1) ∧
  (∀ lib, lib ∈ (split_libs objs).*1 <-> ∃ o, o ∈ objs ∧ lib_of o = lib) ∧
  (∀ lib ns, (lib, ns) ∈ split_libs objs -> ns = symbols_of lib objs ∧ ns ≠ []).
Proof.
  destruct (split_libs_inv objs) as (Hnd & Hkeys & Hns).
  split; [done|]. split; [done|].
  intros lib ns Hin. split; [by apply Hns|].
  rewrite (Hns lib ns Hin).
  assert (lib ∈ (split_libs objs).*1) as Hk.
  { apply list_elem_of_fmap. by exists (lib, ns). }
  apply Hkeys in Hk as (o & Ho & Hl).
  unfold symbols_of. intros Hnil. apply fmap_nil_inv in Hnil.
  assert (In o (List.filter (fun obj => Str.eqb (lib_of obj) lib) objs)) as Hin'.
  { apply filter_In. split; [by apply list_elem_of_In|by apply eqb_true]. }
  by rewrite Hnil in Hin'.
Qed.

Lemma dry_symbols (gen : string -> extra) libs :
  omap (fun l : string * list string =>
          if negb (Str.eqb (fst l) "locally_edited") then Some (gen (fst l)) else None) libs
  = (fun l => gen (fst l)) <$> written_libs libs.
Proof.
  induction libs as [|l libs IH]; [reflexivity|].
  unfold written_libs. cbn [omap list_omap List.filter].
  destruct (negb (Str.eqb (fst l) "locally_edited")); rewrite ?fmap_cons, IH; reflexivity.
Qed.

(** X10. With a schematic, the pass that writes nothing and the real
    pass of [copy_symbols] list the same files: the symbol table, then
    one library for each library of the schematic other than
    [locally_edited]. The real pass writes these libraries with their
    symbols and saves one table, a symbol table with one alias for each
    library written; the symbols edited locally are in no library. *)
Theorem copy_symbols_lists self dest w :
  sch E = true ->
  let dir := os_path.join (output_dir self) dest in
  let base := os_path.join dir "symbols" in
  let table := os_path.join dir (SYM_LIB_TABLE E) in
  let written := written_libs (split_libs (sch_lib_symbol_names E)) in
  let extras :=
    Generated table
      :: ((fun l => Generated (os_path.join base (fst l +:+ ".kicad_sym"))) <$> written) in
  let t :=
    mkLibTable table false
      ((fun l => (fst l, mkLibAlias (fst l) false "KiCad" "" ""
                           (os_path.join (os_path.join "${KIPRJMOD}" "symbols")
                                         (fst l +:+ ".kicad_sym")))) <$> written) in
  copy_symbols E self dest true w = (Ok extras, w) ∧
  ∃ w',
    copy_symbols E self dest false w = (Ok extras, w') ∧
    tables w' = tables w ++ [t] ∧
    fs w' = <[os_path.abspath (cwd E) table := File (table_text E t)]>
              (fold_left (fun fs l => sch_write_lib E base (fst l) (snd l) fs)
                         written (fs w)) ∧
    warnings w' = warnings w.
Proof.
  intros Hsch dir base table written extras t.
  unfold copy_symbols. rewrite Hsch. cbn [negb]. cbv zeta. split.
  - cbn [app]. by rewrite (dry_symbols (fun n => Generated (os_path.join base (n +:+ ".kicad_sym")))).
  - subst extras t written table base dir. rewrite bind_unfold.
    match goal with |- context [foldM ?b _ _ _] => set (body := b) end.
    assert (∀ libs acc w0,
              ∃ w1, foldM body acc libs w0
                    = (Ok (fst acc ++
                             ((fun l => (fst l, mkLibAlias (fst l) false "KiCad" "" ""
                                  (os_path.join (os_path.join "${KIPRJMOD}" "symbols")
                                                (fst l +:+ ".kicad_sym"))))
                                <$> written_libs libs),
                           snd acc ++
                             ((fun l => Generated
                                  (os_path.join
                                     (os_path.join (os_path.join (output_dir self) dest)
                                                   "symbols")
                                     (fst l +:+ ".kicad_sym")))
                                <$> written_libs libs)), w1) ∧
                    tables w1 = tables w0 ∧ warnings w1 = warnings w0 ∧
                    fs w1 = fold_left
                              (fun fs l =>
                                 sch_write_lib E
                                   (os_path.join (os_path.join (output_dir self) dest)
                                                 "symbols")
                                   (fst l) (snd l) fs)
                              (written_libs libs) (fs w0)) as Hloop.
    { induction libs as [|[lib comps] libs IH]; intros acc w0.
      - exists w0. simpl. by rewrite !app_nil_r, <- surjective_pairing.
      - rewrite foldM_cons. unfold body at 1. unfold written_libs.
        cbn [List.filter fst snd].
        destruct (Str.eqb lib "locally_edited") eqn:Hl; cbn [negb].
        + apply IH.
        + rewrite !bind_unfold. unfold modify. cbn [mret M_ret].
          destruct (IH (fst acc ++ [(lib, mkLibAlias lib false "KiCad" "" ""
                                       (os_path.join (os_path.join "${KIPRJMOD}" "symbols")
                                                     (lib +:+ ".kicad_sym")))],
                        snd acc ++
                          [Generated
                             (os_path.join
                                (os_path.join (os_path.join (output_dir self) dest)
                                              "symbols")
                                (lib +:+ ".kicad_sym"))])
                       (set_fs (sch_write_lib E
                                  (os_path.join (os_path.join (output_dir self) dest)
                                                "symbols") lib comps) w0))
            as (w1 & -> & Ht & Hw & Hfs).
          exists w1. rewrite !fmap_cons. cbn [fst snd] in *.
          rewrite <- !app_assoc. done. }
    destruct (Hloop (split_libs (sch_lib_symbol_names E))
                    ([], [Generated (os_path.join (os_path.join (output_dir self) dest)
                                                  (SYM_LIB_TABLE E))]) w)
      as (w1 & -> & Ht & Hw & Hfs).
    cbn [fst snd app]. rewrite bind_unfold. unfold save_fp_lib_aliases, modify.
    cbn [mret M_ret]. eexists. split; [reflexivity|].
    cbn [tables warnings fs add_table set_fs]. by rewrite Ht, Hw, Hfs.
Qed.

End Symbols.

Lemma copy_symbols_lists_witness :
  copy_symbols Scenario2.env_sym (Scenario.options [] false) "prj" true
               (Scenario.world Scenario.fs_csv)
    = (Ok [Generated "prj/sym-lib-table"; Generated "prj/symbols/Device.kicad_sym";
           Generated "prj/symbols/power.kicad_sym"],
       Scenario.world Scenario.fs_csv).
Proof.
  refine (eq_trans (proj1 (copy_symbols_lists Scenario2.env_sym (Scenario.options [] false)
                             "prj" (Scenario.world Scenario.fs_csv) eq_refl)) _).
  vm_compute. reflexivity.
Defined.

(** ** The footprints: the real pass, the pass that writes nothing, the warnings *)

Section FootprintsMore.

Context (E : Env).

Lemma warnings_with_app c l1 l2 :
  warnings_with c (l1 ++ l2) = warnings_with c l1 ++ warnings_with c l2.
Proof. unfold warnings_with. apply List.filter_app. Qed.

Lemma copy_footprints_step_warn base prj acc m w acc' w' :
  copy_footprints_step E base prj acc m w = (Ok acc', w') ->
  warnings_with W_MISSLIB (warnings w')
  = warnings_with W_MISSLIB (warnings w)
      ++ (if unknown_lib E m
          then [Warning W_MISSLIB ("Missing footprint library `" +:+ fst m +:+ "`")]
          else []).
Proof.
  destruct m as [nick name]. unfold copy_footprints_step, unknown_lib. cbn [fst].
  destruct (fp_nick_to_path E nick) as [alias|] eqn:Hn.
  - rewrite (bool_decide_eq_false_2 (Some alias = None)) by done. rewrite app_nil_r.
    rewrite bind_unfold. unfold call_fs.
    destruct (create_fp_lib E (os_path.join base nick) (fs w)) as [out_lib fs1].
    rewrite bind_unfold. unfold isfile, gets. cbn [fs set_fs].
    destruct (negb _).
    + rewrite bind_unfold. unfold warn, modify. intros [= _ <-].
      cbn [warnings add_warning set_fs]. rewrite warnings_with_app. cbn.
      by rewrite app_nil_r.
    + destruct (negb _); intros [= _ <-]; reflexivity.
  - rewrite (bool_decide_eq_true_2 (None = None)) by done.
    rewrite bind_unfold. unfold warn, modify.
    intros [= _ <-]. cbn [warnings add_warning]. by rewrite warnings_with_app.
Qed.

Lemma copy_footprints_loop_warn base prj mods :
  ∀ acc w acc' w',
    foldM (copy_footprints_step E base prj) acc mods w = (Ok acc', w') ->
    warnings_with W_MISSLIB (warnings w')
    = warnings_with W_MISSLIB (warnings w)
        ++ ((fun m => Warning W_MISSLIB ("Missing footprint library `" +:+ fst m +:+ "`"))
              <$> List.filter (unknown_lib E) mods).
Proof.
  induction mods as [|m mods IH]; intros acc w acc' w' H.
  - injection H as <- <-. by rewrite app_nil_r.
  - rewrite foldM_cons in H.
    destruct (copy_footprints_step E base prj acc m w) as [[acc1|e] w1] eqn:Hs;
      [|discriminate].
    rewrite (IH _ _ _ _ H), (copy_footprints_step_warn _ _ _ _ _ _ _ Hs).
    cbn [List.filter]. destruct (unknown_lib E m); [|by rewrite app_nil_r].
    by rewrite fmap_cons, <- app_assoc.
Qed.

(** X11. [copy_footprints] warns once for each footprint of the board
    whose library is not in the table, in the order of the board and
    once more for each further footprint of the same library; this is so
    in the real pass and in the pass that writes nothing. *)
Theorem copy_footprints_missing_libs self dest dry w :
  ∃ extra_files w',
    copy_footprints E self dest dry w = (Ok extra_files, w') ∧
    warnings_with W_MISSLIB (warnings w')
    = warnings_with W_MISSLIB (warnings w)
        ++ ((fun m => Warning W_MISSLIB ("Missing footprint library `" +:+ fst m +:+ "`"))
              <$> List.filter (unknown_lib E) (get_modules E)).
Proof.
  unfold copy_footprints, copy_footprints_loop. rewrite bind_unfold.
  destruct (copy_footprints_loop_inv E
              (os_path.join (os_path.join (output_dir self) dest) "footprints")
              (os_path.join "${KIPRJMOD}" "footprints") (get_modules E)
              [] (mkFpAcc [] [] ∅) w (fp_inv_init E)) as (acc & w1 & Hloop & _ & _).
  rewrite Hloop. rewrite bind_unfold.
  apply copy_footprints_loop_warn in Hloop.
  destruct dry; cbn [negb when]; unfold save_fp_lib_aliases, modify; cbn [mret M_ret];
    eexists _, _; (split; [reflexivity|]); exact Hloop.
Qed.

(** X12. The pass of [copy_footprints] that writes nothing returns the
    list of the real pass, which ends with the footprint table, and
    saves no table; the real pass differs by the one table it saves,
    a footprint table under the name listed. *)
Theorem copy_footprints_dry self dest w :
  let table := os_path.join (os_path.join (output_dir self) dest) (FP_LIB_TABLE E) in
  ∃ extra_files w1 t,
    copy_footprints E self dest true w = (Ok extra_files, w1) ∧
    tables w1 = tables w ∧
    copy_footprints E self dest false w
      = (Ok extra_files,
         add_table t (set_fs (insert (os_path.abspath (cwd E) table)
                                     (File (table_text E t))) w1)) ∧
    lt_fname t = table ∧ lt_is_fp t = true ∧
    last extra_files = Some (Generated table).
Proof.
  intros table. subst table. unfold copy_footprints, copy_footprints_loop.
  rewrite !bind_unfold.
  destruct (copy_footprints_loop_inv E
              (os_path.join (os_path.join (output_dir self) dest) "footprints")
              (os_path.join "${KIPRJMOD}" "footprints") (get_modules E)
              [] (mkFpAcc [] [] ∅) w (fp_inv_init E)) as (acc & w1 & Hloop & Ht & _).
  rewrite Hloop. rewrite !bind_unfold. cbn [negb when].
  unfold save_fp_lib_aliases, modify. cbn [mret M_ret].
  eexists _, w1, _. split; [reflexivity|]. split; [done|]. split; [reflexivity|].
  split; [reflexivity|]. split; [reflexivity|]. apply last_snoc.
Qed.

End FootprintsMore.

(** ** More on paths made of names: [dirname], [relpath] and back *)

Lemma rev_cons x s : String.rev (String x s) = String.rev s +:+ String x "".
Proof. unfold String.rev. simpl. apply rev_app_app. Qed.

Lemma rev_involutive s : String.rev (String.rev s) = s.
Proof.
  induction s as [|x s IH]; [reflexivity|].
  by rewrite rev_cons, rev_app_s, IH.
Qed.

Lemma rev_app_head c acc :
  no_slash c = true ->
  (c ≠ "" ∨ ∃ y t, acc = String y t ∧ Ascii.eqb y "/" = false) ->
  ∃ y t, String.rev_app c acc = String y t ∧ Ascii.eqb y "/" = false.
Proof.
  revert acc. induction c as [|x c IH]; intros acc Hc Hor.
  - destruct Hor as [?|?]; done.
  - unfold no_slash in Hc. simpl in Hc. apply andb_true_iff in Hc as [Hx Hc].
    apply negb_true_iff in Hx. simpl. apply IH; [done|]. right. by exists x, acc.
Qed.

(** a path that ends with a name does not end with a slash *)
Lemma rev_name_head p c :
  is_name c = true ->
  ∃ y t, String.rev (p +:+ c) = String y t ∧ Ascii.eqb y "/" = false.
Proof.
  intros Hc. rewrite rev_app_s.
  destruct (rev_app_head c "" (is_name_no_slash c Hc)) as (y & t & Hr & Hy).
  - left. destruct (name_head c Hc) as (x & s & -> & _). done.
  - unfold String.rev. rewrite Hr, app_cons. by eexists y, _.
Qed.

Lemma abs_of_snoc ds c :
  abs_of (ds ++ [c]) = (if bool_decide (ds = []) then "" else abs_of ds) +:+ "/" +:+ c.
Proof.
  unfold abs_of. destruct ds as [|d ds]; [reflexivity|].
  rewrite bool_decide_false by done. rewrite join_app by done.
  by rewrite !app_assoc_s.
Qed.

Lemma endswith_name p c : is_name c = true -> Str.endswith (p +:+ c) "/" = false.
Proof.
  intros Hc. unfold Str.endswith.
  destruct (rev_name_head p c Hc) as (y & t & -> & Hy).
  change (String.rev "/") with (String "/" ""). by apply prefix_cons_ne.
Qed.

Lemma endswith_abs_of comps :
  Forall (fun c => is_name c = true) comps -> comps ≠ [] ->
  Str.endswith (abs_of comps) "/" = false.
Proof.
  intros H Hne. destruct (exists_last Hne) as (ds & c & ->).
  apply Forall_app in H as [_ Hc]. rewrite Forall_singleton in Hc.
  rewrite abs_of_snoc, <- app_assoc_s. by apply endswith_name.
Qed.

Lemma lstrip_head y t : Ascii.eqb y "/" = false -> Str.lstrip (String y t) = String y t.
Proof. intros H. simpl. by rewrite H. Qed.

Lemma rstrip_name_slash p c : is_name c = true -> Str.rstrip ((p +:+ c) +:+ "/") = p +:+ c.
Proof.
  intros Hc. unfold Str.rstrip. rewrite rev_app_s.
  change (String.rev "/") with (String "/" ""). rewrite app_cons, app_nil_l.
  destruct (rev_name_head p c Hc) as (y & t & Hr & Hy).
  cbn [Str.lstrip]. rewrite Ascii.eqb_refl.
  rewrite Hr, (lstrip_head y t Hy), <- Hr. apply rev_involutive.
Qed.

Lemma truthy_cons x s : Str.truthy (String x s) = true.
Proof. unfold Str.truthy. by rewrite (proj2 (eqb_false _ _)). Qed.

Lemma join_truthy comps :
  Forall (fun c => is_name c = true) comps -> comps ≠ [] ->
  Str.truthy (Str.join comps) = true.
Proof.
  intros H Hne. destruct (join_head comps H Hne) as (x & s & -> & _). apply truthy_cons.
Qed.

(** the directory of a path made of names *)
Lemma dirname_abs_of ds c :
  Forall (fun c => is_name c = true) ds -> is_name c = true ->
  os_path.dirname (abs_of (ds ++ [c])) = if bool_decide (ds = []) then "/" else abs_of ds.
Proof.
  intros Hds Hc. unfold os_path.dirname.
  assert (os_path.basename (abs_of (ds ++ [c])) = c) as ->.
  { rewrite abs_of_snoc. by apply basename_strip, is_name_no_slash. }
  rewrite abs_of_snoc.
  set (P := if bool_decide (ds = []) then "" else abs_of ds).
  assert (String.substring 0 (String.length (P +:+ "/" +:+ c) - String.length c)
                           (P +:+ "/" +:+ c) = P +:+ "/") as ->.
  { rewrite <- app_assoc_s, length_app_s.
    replace (String.length (P +:+ "/") + String.length c - String.length c)
      with (String.length (P +:+ "/")) by lia.
    apply substring_app. }
  subst P. destruct (decide (ds = [])) as [->|Hne]; [reflexivity|].
  rewrite bool_decide_false by done.
  assert (Str.truthy (abs_of ds +:+ "/") = true) as ->.
  { unfold abs_of. rewrite app_cons. apply truthy_cons. }
  assert (Str.truthy (Str.lstrip (abs_of ds +:+ "/")) = true) as ->.
  { unfold abs_of. destruct (join_head ds Hds Hne) as (x & s & -> & Hx).
    change (("/" +:+ String x s) +:+ "/") with (String "/" (String x (s +:+ "/"))).
    cbn [Str.lstrip]. rewrite Ascii.eqb_refl, Hx. apply truthy_cons. }
  cbn [andb].
  destruct (exists_last Hne) as (ds' & c' & ->).
  apply Forall_app in Hds as [_ Hc']. rewrite Forall_singleton in Hc'.
  rewrite abs_of_snoc, <- app_assoc_s. by apply rstrip_name_slash.
Qed.

Lemma abspath_abs_of cwd comps :
  Forall (fun c => is_name c = true) comps -> comps ≠ [] ->
  os_path.abspath cwd (abs_of comps) = abs_of comps.
Proof.
  intros H Hne. unfold os_path.abspath. rewrite isabs_abs_of. by apply normpath_abs_of.
Qed.

Lemma split_join_ns comps :
  Forall (fun c => no_slash c = true) comps -> comps ≠ [] ->
  Str.split (Str.join comps) = comps.
Proof.
  induction 1 as [|c comps Hc Hall IH]; [done|]. intros _.
  destruct comps as [|y l]; [by apply split_no_slash|].
  rewrite join_cons, split_app_slash, IH by done.
  by rewrite split_no_slash.
Qed.

Lemma commonprefix_take a b :
  os_path.commonprefix_len a b ≤ length a ∧
  take (os_path.commonprefix_len a b) a = take (os_path.commonprefix_len a b) b.
Proof.
  revert b. induction a as [|x a IH]; intros b; [by destruct b|].
  destruct b as [|y b]; simpl; [split; [lia|done]|].
  destruct (Str.eqb x y) eqn:Hxy; simpl; [|split; [lia|done]].
  apply eqb_true in Hxy as ->. destruct (IH b) as [Hle Heq].
  split; [lia|by rewrite Heq].
Qed.

Lemma norm_dotdot acc :
  Forall (fun c => is_name c = true) acc -> os_path.norm_step 1 acc ".." = removelast acc.
Proof.
  intros H. unfold os_path.norm_step.
  change (Str.eqb ".." "" || Str.eqb ".." ".") with false. cbv iota.
  change (negb (Str.eqb ".." "..")) with false.
  change (1 =? 0) with false. cbn [andb orb].
  destruct (decide (acc = [])) as [->|Hne]; [reflexivity|].
  rewrite bool_decide_false by done. cbn [negb andb].
  destruct (exists_last Hne) as (l & c & ->). rewrite last_snoc. cbn [default].
  apply Forall_app in H as [_ Hc]. rewrite Forall_singleton in Hc.
  unfold is_name in Hc. rewrite !andb_true_iff, !negb_true_iff in Hc.
  destruct Hc as [_ Hc]. unfold id. by rewrite Hc.
Qed.

Lemma norm_dotdots k :
  ∀ acc, Forall (fun c => is_name c = true) acc ->
         fold_left (os_path.norm_step 1) (replicate k "..") acc = take (length acc - k) acc.
Proof.
  induction k as [|k IH]; intros acc H.
  - simpl. rewrite Nat.sub_0_r. by rewrite firstn_all.
  - cbn [replicate fold_left]. rewrite norm_dotdot by done.
    rewrite removelast_firstn_len. rewrite IH by by apply Forall_take.
    rewrite length_take, take_take. f_equal. lia.
Qed.

(** the normal form of a path made of names followed by fields that may be
    [.] or [..] *)
Lemma normpath_under ds tl :
  Forall (fun c => is_name c = true) ds -> ds ≠ [] ->
  Forall (fun c => no_slash c = true) tl -> tl ≠ [] ->
  os_path.normpath (abs_of ds +:+ "/" +:+ Str.join tl)
  = "/" +:+ Str.join (fold_left (os_path.norm_step 1) tl ds).
Proof.
  intros Hds Hne Htl Htne. destruct (join_head ds Hds Hne) as (x & s & Hj & Hx).
  unfold os_path.normpath.
  assert (Str.truthy (abs_of ds +:+ "/" +:+ Str.join tl) = true) as ->.
  { unfold abs_of. rewrite app_cons. apply truthy_cons. }
  cbn [negb].
  assert (Hi : os_path.initial_slashes (abs_of ds +:+ "/" +:+ Str.join tl) = 1).
  { unfold os_path.initial_slashes, Str.startswith, abs_of. rewrite Hj.
    change (("/" +:+ String x s) +:+ "/" +:+ Str.join tl)
      with (String "/" (String x (s +:+ "/" +:+ Str.join tl))).
    change "//" with (String "/" (String "/" "")). change "/" with (String "/" "") at 1.
    rewrite !prefix_cons, prefix_empty, (prefix_cons_ne _ _ _ _ Hx). reflexivity. }
  rewrite Hi.
  assert (Str.split (abs_of ds +:+ "/" +:+ Str.join tl) = ("" :: ds) ++ tl) as ->.
  { change (abs_of ds +:+ "/" +:+ Str.join tl) with (abs_of ds +:+ String "/" (Str.join tl)).
    rewrite split_app_slash. unfold abs_of.
    change ("/" +:+ Str.join ds) with ("" +:+ String "/" (Str.join ds)).
    by rewrite split_app_slash, split_join, split_join_ns. }
  rewrite fold_left_app. cbn [fold_left].
  change (os_path.norm_step 1 [] "") with (@nil string).
  rewrite (norm_names 1 ds []) by done. cbn [app].
  by rewrite app_cons, truthy_cons.
Qed.

Lemma path_list_root cwd : os_path.path_list cwd "/" = [].
Proof. reflexivity. Qed.

Lemma no_slash_start c tl :
  no_slash c = true -> c ≠ "" -> Str.startswith (Str.join (c :: tl)) "/" = false.
Proof.
  intros Hc Hne. destruct c as [|x c]; [done|].
  unfold no_slash in Hc. simpl in Hc. apply andb_true_iff in Hc as [Hx _].
  apply negb_true_iff in Hx. unfold Str.startswith.
  destruct tl as [|y tl]; [|rewrite join_cons, app_cons]; by apply prefix_cons_ne.
Qed.

(** a relative link made by [relpath] from the directory of the link leads
    back to the path it was made for *)
Lemma link_round_trip cwd ds sn :
  Forall (fun c => is_name c = true) ds ->
  Forall (fun c => is_name c = true) sn -> sn ≠ [] ->
  let D := if bool_decide (ds = []) then "/" else abs_of ds in
  os_path.normpath (os_path.join D (os_path.relpath cwd (abs_of sn) D)) = abs_of sn.
Proof.
  intros Hds Hsn Hsne D. subst D. unfold os_path.relpath.
  rewrite (path_list_abs_of cwd sn) by done.
  destruct (decide (ds = [])) as [->|Hne].
  - rewrite bool_decide_true by done. rewrite path_list_root.
    cbn [os_path.commonprefix_len length replicate drop app Nat.sub].
    destruct sn as [|c sn']; [done|].
    rewrite join_rel.
    + change (negb (Str.truthy "/") || Str.endswith "/" "/") with true. cbv iota.
      by apply normpath_abs_of.
    + apply Forall_cons in Hsn as [Hc _]. apply no_slash_start.
      * by apply is_name_no_slash.
      * destruct (name_head c Hc) as (x & s & -> & _). done.
  - rewrite bool_decide_false by done. rewrite (path_list_abs_of cwd ds) by done.
    destruct (commonprefix_take ds sn) as [Hle Htake].
    set (i := os_path.commonprefix_len ds sn) in *.
    assert (Hns : Forall (fun c => no_slash c = true)
                         (replicate (length ds - i) ".." ++ drop i sn)).
    { apply Forall_app. split.
      - apply Forall_replicate. reflexivity.
      - apply Forall_drop. eapply Forall_impl; [exact Hsn|]. apply is_name_no_slash. }
    assert (Hfold : fold_left (os_path.norm_step 1)
                              (replicate (length ds - i) ".." ++ drop i sn) ds = sn).
    { rewrite fold_left_app, norm_dotdots by done.
      rewrite norm_names by by apply Forall_drop.
      replace (length ds - (length ds - i)) with i by lia.
      rewrite Htake. apply take_drop. }
    destruct (replicate (length ds - i) ".." ++ drop i sn) as [|c tl] eqn:Hrel.
    + simpl in Hfold. subst sn.
      rewrite join_rel by reflexivity.
      rewrite (proj2 (negb_false_iff _)), endswith_abs_of by
        (done || (unfold abs_of; rewrite app_cons; apply truthy_cons)).
      cbn [orb]. cbv iota.
      change (abs_of ds +:+ "/" +:+ ".") with (abs_of ds +:+ "/" +:+ Str.join ["."]).
      rewrite (normpath_under ds ["."]) by (done || by constructor).
      reflexivity.
    + rewrite join_rel.
      * rewrite (proj2 (negb_false_iff _)), endswith_abs_of by
          (done || (unfold abs_of; rewrite app_cons; apply truthy_cons)).
        cbn [orb]. cbv iota.
        rewrite (normpath_under ds (c :: tl)) by done.
        by rewrite Hfold.
      * apply Forall_cons in Hns as [Hc _]. apply no_slash_start; [done|].
        intros ->. destruct (length ds - i) as [|k]; [|discriminate].
        cbn [replicate app] in Hrel.
        apply (Forall_drop _ i) in Hsn. rewrite Hrel in Hsn.
        by apply Forall_cons in Hsn as [? _].
Qed.

(** * Further properties of the executor *)

Section ExecutorMore.

Context (E : Env).

(** X13. A copy step whose destination directory exists, and whose
    destination is not itself a directory, changes one path of the file
    system: the destination, which becomes a regular file with the
    content the source has. A link found at the destination is replaced,
    not written through. *)
Theorem copy_writes_destination self output copied src dst w c' w' :
  link_no_copy self = false ->
  let dest := os_path.join output dst in
  os.isdir (cwd E) (fs w) (os_path.dirname dest) = true ->
  os.lstat (cwd E) (fs w) dest ≠ Some Dir ->
  run_entry E self output copied (Some src, dst) w = (Ok c', w') ->
  ∃ data,
    fs w' = <[os_path.abspath (cwd E) dest := File data]> (fs w) ∧
    os.lstat (cwd E) (fs w') dest = Some (File data) ∧
    os.stat (cwd E) (fs w') src = Some (File data) ∧
    ops w' = ops w
               ++ (if os.isfile (cwd E) (fs w) dest || os.islink (cwd E) (fs w) dest
                   then [OpRemove dest] else [])
               ++ [OpCopy2 src dest].
Proof.
  intros Hcopy dest Hdir Hnd H.
  apply run_entry_trace in H as (w1 & H1 & _ & _ & Hops & Hg & Hput). fold dest in H1, Hops, Hg, Hput.
  rewrite (ensure_dir_present E _ _ Hdir) in H1. injection H1 as <-.
  destruct Hg as [Hg|[Hg _]]; [|done].
  unfold put_op in Hput, Hops. rewrite Hcopy in Hput, Hops.
  destruct (copy2_fresh _ _ _ _ _ Hg Hput) as (data & Hs & _ & Hfs).
  exists data. destruct (get_none _ _ Hg) as [Hne _].
  assert (fs w' = <[os_path.abspath (cwd E) dest := File data]> (fs w)) as Hfs'.
  { rewrite Hfs. unfold after_remove.
    destruct (os.isfile (cwd E) (fs w) dest || os.islink (cwd E) (fs w) dest); [|done].
    apply insert_delete_eq. }
  split; [done|]. split.
  { unfold os.lstat. rewrite Hfs'. by apply get_insert_eq. }
  split; [|done].
  unfold os.stat in *. rewrite Hfs.
  destruct (os.resolve os.MAXSYMLINKS (after_remove (cwd E) (fs w) dest)
                       (os_path.abspath (cwd E) src)) as [r o] eqn:Hr.
  simpl in Hs. subst o.
  by rewrite (resolve_insert_fresh _ _ _ _ Hg _ _ _ Hr).
Qed.

Lemma resolve_link n (fs0 : FS) p t :
  os.get fs0 p = Some (Link t) ->
  os.resolve (S n) fs0 p
  = os.resolve n fs0 (os_path.normpath (os_path.join (os_path.dirname p) t)).
Proof. intros H. simpl. by rewrite H. Qed.

Lemma isdir_insert_fresh (fs0 : FS) q y d :
  os.get fs0 q = None ->
  os.isdir (cwd E) fs0 d = true -> os.isdir (cwd E) (<[q := y]> fs0) d = true.
Proof.
  intros Hq. unfold os.isdir, os.stat.
  destruct (os.resolve os.MAXSYMLINKS fs0 (os_path.abspath (cwd E) d)) as [r [[| |]|]] eqn:Hr;
    try done.
  by rewrite (resolve_insert_fresh _ _ _ _ Hq _ _ _ Hr).
Qed.

(** a step that finds the source at the destination *)
Lemma run_entry_self_copy self output copied src dst w :
  let dest := os_path.join output dst in
  os.isdir (cwd E) (fs w) (os_path.dirname dest) = true ->
  os.samefile (cwd E) (fs w) src dest = Some true ->
  ∃ w',
    run_entry E self output copied (Some src, dst) w
      = (Raise (KiPlotConfigurationError (self_copy_msg src dest)), w') ∧
    fs w' = fs w ∧ ops w' = ops w.
Proof.
  intros dest Hdir Hsame. unfold run_entry. fold dest.
  rewrite bind_unfold, (ensure_dir_present E _ _ Hdir).
  rewrite bind_unfold, warn_copyover_eq.
  set (w2 := match copied !! dest with Some prev => _ | None => w end).
  assert (fs w2 = fs w ∧ ops w2 = ops w) as [Hf2 Ho2].
  { unfold w2. by destruct (copied !! dest). }
  clearbody w2. rewrite bind_unfold, check_self_copy_same by by rewrite Hf2.
  by exists w2.
Qed.

(** what a link step leaves, for a source and a destination made of names *)
Lemma link_step self output copied src dst sn ds c data w c' w' :
  link_no_copy self = true ->
  let dest := os_path.join output dst in
  src = abs_of sn -> Forall (fun x => is_name x = true) sn -> sn ≠ [] ->
  dest = abs_of (ds ++ [c]) -> Forall (fun x => is_name x = true) (ds ++ [c]) ->
  os.lstat (cwd E) (fs w) src = Some (File data) ->
  run_entry E self output copied (Some src, dst) w = (Ok c', w') ->
  os.lstat (cwd E) (fs w') dest
    = Some (Link (os_path.relpath (cwd E) src (os_path.dirname dest))) ∧
  os.stat (cwd E) (fs w') dest = Some (File data) ∧
  os.realpath (cwd E) (fs w') dest = src ∧
  os.isdir (cwd E) (fs w') (os_path.dirname dest) = true ∧
  os.samefile (cwd E) (fs w') src dest = Some true.
Proof.
  intros Hlink dest Hsrc Hsn Hsne Hdest Hdn Hfile H.
  apply run_entry_trace in H as (w1 & H1 & Hsame & _ & _ & _ & Hput).
  fold dest in H1, Hsame, Hput.
  assert (os_path.abspath (cwd E) src = src) as Hasrc.
  { rewrite Hsrc. by apply abspath_abs_of. }
  assert (os_path.abspath (cwd E) dest = dest) as Hadest.
  { rewrite Hdest. apply abspath_abs_of; [done|]. by destruct ds. }
  unfold os.lstat in Hfile. rewrite Hasrc in Hfile.
  assert (os.get (fs w1) src = Some (File data)) as Hsrc1
      by (by apply (ensure_dir_preserve E _ _ _ H1)).
  assert (src ≠ dest) as Hne.
  { intros Heq. apply Hsame. unfold os.samefile, os.stat, os.realpath.
    rewrite <- Heq, Hasrc, (resolve_here _ _ _ _ Hsrc1) by done. simpl.
    by rewrite eqb_refl. }
  unfold put_op in Hput. rewrite Hlink in Hput.
  apply symlink_fresh in Hput as (Hq & Hdir & Hfs). rewrite Hadest in Hq, Hdir, Hfs.
  destruct (get_none _ _ Hq) as [Hroot _].
  assert (os.get (fs w') src = Some (File data)) as Hsrc'.
  { rewrite Hfs, get_insert_ne by done. unfold after_remove.
    destruct (os.isfile (cwd E) (fs w1) dest || os.islink (cwd E) (fs w1) dest); [|done].
    rewrite Hadest. by rewrite get_delete_ne. }
  assert (os.get (fs w') dest
          = Some (Link (os_path.relpath (cwd E) src (os_path.dirname dest)))) as Hl.
  { rewrite Hfs. by apply get_insert_eq. }
  assert (os.resolve os.MAXSYMLINKS (fs w') dest = (src, Some (File data))) as Hres.
  { unfold os.MAXSYMLINKS. rewrite (resolve_link _ _ _ _ Hl).
    assert (os_path.normpath
              (os_path.join (os_path.dirname dest)
                            (os_path.relpath (cwd E) src (os_path.dirname dest))) = src) as ->.
    { apply Forall_app in Hdn as [Hds Hc]. rewrite Forall_singleton in Hc.
      rewrite Hdest, dirname_abs_of, Hsrc by done. by apply link_round_trip. }
    by apply resolve_here. }
  split; [by unfold os.lstat; rewrite Hadest|].
  split; [by unfold os.stat; rewrite Hadest, Hres|].
  split; [by unfold os.realpath; rewrite Hadest, Hres|].
  split.
  - rewrite Hfs. by apply isdir_insert_fresh.
  - unfold os.samefile, os.stat, os.realpath.
    rewrite Hasrc, Hadest, Hres, (resolve_here _ _ _ _ Hsrc') by done. simpl.
    by rewrite eqb_refl.
Qed.

(** X14. In the link mode, for a source and a destination written as
    absolute paths made of names, no directory on the way to either being
    a link, and the source being a regular file: the step that succeeds
    leaves at the destination a link with the path of the source relative
    to the directory of the destination, and this link leads back to the
    source. *)
Theorem link_leads_to_source self output copied src dst sn ds c data w c' w' :
  link_no_copy self = true ->
  let dest := os_path.join output dst in
  src = abs_of sn -> Forall (fun x => is_name x = true) sn -> sn ≠ [] ->
  dest = abs_of (ds ++ [c]) -> Forall (fun x => is_name x = true) (ds ++ [c]) ->
  plain_dirs (fs w) sn = true -> plain_dirs (fs w) (ds ++ [c]) = true ->
  os.lstat (cwd E) (fs w) src = Some (File data) ->
  run_entry E self output copied (Some src, dst) w = (Ok c', w') ->
  os.lstat (cwd E) (fs w') dest
    = Some (Link (os_path.relpath (cwd E) src (os_path.dirname dest))) ∧
  os.realpath (cwd E) (fs w') dest = src ∧
  os.stat (cwd E) (fs w') dest = Some (File data).
Proof.
  intros Hlink dest Hsrc Hsn Hsne Hdest Hdn _ _ Hfile H.
  destruct (link_step self output copied src dst sn ds c data w c' w'
                      Hlink Hsrc Hsn Hsne Hdest Hdn Hfile H) as (? & ? & ? & _).
  done.
Qed.

(** X15. The link mode cannot be repeated. For a source and a
    destination written as absolute paths made of names, no directory on
    the way to either being a link, and the source being a regular file:
    once a step has linked the destination to the source, the same entry
    processed again, in either mode, is rejected as a copy of a file over
    itself, and nothing is written. *)
Theorem link_step_not_repeatable self output copied src dst sn ds c data w c' w' :
  link_no_copy self = true ->
  let dest := os_path.join output dst in
  src = abs_of sn -> Forall (fun x => is_name x = true) sn -> sn ≠ [] ->
  dest = abs_of (ds ++ [c]) -> Forall (fun x => is_name x = true) (ds ++ [c]) ->
  plain_dirs (fs w) sn = true -> plain_dirs (fs w) (ds ++ [c]) = true ->
  os.lstat (cwd E) (fs w) src = Some (File data) ->
  run_entry E self output copied (Some src, dst) w = (Ok c', w') ->
  ∀ self2 copied2, ∃ w'',
    run_entry E self2 output copied2 (Some src, dst) w'
      = (Raise (KiPlotConfigurationError (self_copy_msg src dest)), w'') ∧
    fs w'' = fs w' ∧ ops w'' = ops w'.
Proof.
  intros Hlink dest Hsrc Hsn Hsne Hdest Hdn _ _ Hfile H self2 copied2.
  destruct (link_step self output copied src dst sn ds c data w c' w'
                      Hlink Hsrc Hsn Hsne Hdest Hdn Hfile H) as (_ & _ & _ & Hdir & Hsame).
  by apply run_entry_self_copy.
Qed.

Lemma check_self_copy_pass src dest w :
  os.samefile (cwd E) (fs w) src dest ≠ Some true ->
  check_self_copy E src dest w = (Ok tt, w).
Proof.
  intros H. unfold check_self_copy, gets. rewrite bind_unfold.
  by destruct (os.samefile (cwd E) (fs w) src dest) as [[]|].
Qed.

Lemma remove_old_file dest d0 w :
  os.lstat (cwd E) (fs w) dest = Some (File d0) ->
  remove_old E dest w
  = (Ok tt, set_fs (fun _ => delete (os_path.abspath (cwd E) dest) (fs w))
                   (add_op (OpRemove dest) w)).
Proof.
  intros H. unfold remove_old, isfile, islink, gets. rewrite !bind_unfold.
  assert (os.isfile (cwd E) (fs w) dest = true) as ->.
  { unfold os.isfile, os.stat. unfold os.lstat in H.
    by rewrite (resolve_here _ _ _ _ H). }
  cbn [orb when]. unfold fs_call, modify, try_fs. rewrite bind_unfold.
  cbn [fs add_op]. unfold os.remove. by rewrite H.
Qed.

Lemma fs_call_copy s d w fs' :
  os.copy2 (cwd E) (fs w) s d = Some fs' ->
  fs_call E (OpCopy2 s d) w = (Ok tt, set_fs (fun _ => fs') (add_op (OpCopy2 s d) w)).
Proof.
  intros H. unfold fs_call, modify, try_fs. rewrite bind_unfold. cbn [fs add_op].
  by rewrite H.
Qed.

(** X16. The copy mode can be repeated: after a copy step to a
    destination made of names, whose directory existed and which was not
    a directory itself, the same entry processed again succeeds; it
    removes the copy, makes it again and leaves the file system as the
    first step left it. *)
Theorem copy_step_repeatable self output copied src dst ds c w c' w' :
  link_no_copy self = false ->
  let dest := os_path.join output dst in
  dest = abs_of (ds ++ [c]) -> Forall (fun x => is_name x = true) (ds ++ [c]) ->
  os.isdir (cwd E) (fs w) (os_path.dirname dest) = true ->
  os.lstat (cwd E) (fs w) dest ≠ Some Dir ->
  run_entry E self output copied (Some src, dst) w = (Ok c', w') ->
  ∀ copied2, ∃ w'',
    run_entry E self output copied2 (Some src, dst) w'
      = (Ok (<[dest := src]> copied2), w'') ∧
    fs w'' = fs w' ∧
    ops w'' = ops w' ++ [OpRemove dest; OpCopy2 src dest].
Proof.
  intros Hcopy dest Hdest Hdn Hdir Hnd H copied2.
  apply run_entry_trace in H as (w1 & H1 & _ & _ & _ & Hg & Hput).
  fold dest in H1, Hg, Hput.
  rewrite (ensure_dir_present E _ _ Hdir) in H1. injection H1 as <-.
  destruct Hg as [Hg|[Hg _]]; [|done].
  unfold put_op in Hput. rewrite Hcopy in Hput.
  assert (os_path.abspath (cwd E) dest = dest) as Hadest.
  { rewrite Hdest. apply abspath_abs_of; [done|]. by destruct ds. }
  rewrite Hadest in Hg.
  set (fsb := after_remove (cwd E) (fs w) dest) in *.
  destruct (copy2_fresh _ _ _ _ _ ltac:(by rewrite Hadest) Hput) as (data & Hs & Hd & Hfs).
  rewrite Hadest in Hd, Hfs.
  destruct (get_none _ _ Hg) as [Hroot Hlook].
  assert (os.get (fs w') dest = Some (File data)) as Hgd.
  { rewrite Hfs. by apply get_insert_eq. }
  (* the directory is still there *)
  assert (os.isdir (cwd E) (fs w') (os_path.dirname dest) = true) as Hdir'.
  { rewrite Hfs. by apply isdir_insert_fresh. }
  (* the source and the copy are two files *)
  assert (os.samefile (cwd E) (fs w') src dest ≠ Some true) as Hsame'.
  { unfold os.samefile, os.stat, os.realpath. rewrite Hadest.
    rewrite (resolve_here _ _ _ _ Hgd) by done.
    unfold os.stat in Hs.
    destruct (os.resolve os.MAXSYMLINKS fsb (os_path.abspath (cwd E) src)) as [r o] eqn:Hr.
    simpl in Hs. subst o.
    rewrite Hfs, (resolve_insert_fresh _ _ _ _ Hg _ _ _ Hr). simpl.
    apply resolve_found in Hr as [Hr _].
    rewrite (proj2 (eqb_false r dest)); [done|].
    intros ->. by rewrite Hg in Hr. }
  (* removing the copy gives the file system the first copy was made in *)
  assert (delete dest (fs w') = fsb) as Hdel.
  { rewrite Hfs. by apply delete_insert_id. }
  unfold run_entry. fold dest.
  rewrite bind_unfold, (ensure_dir_present E _ _ Hdir').
  rewrite bind_unfold, warn_copyover_eq.
  set (w2 := match copied2 !! dest with Some prev => _ | None => w' end).
  assert (fs w2 = fs w' ∧ ops w2 = ops w') as [Hf2 Ho2].
  { unfold w2. by destruct (copied2 !! dest). }
  clearbody w2.
  rewrite bind_unfold, check_self_copy_pass by by rewrite Hf2.
  rewrite bind_unfold, (remove_old_file dest data) by
    (by unfold os.lstat; rewrite Hadest, Hf2).
  rewrite Hadest, Hf2, Hdel.
  unfold put_op. rewrite Hcopy.
  rewrite bind_unfold, (fs_call_copy src dest _ (fs w')) by done.
  eexists. split; [reflexivity|]. cbn [fs ops set_fs add_op].
  split; [done|]. by rewrite Ho2, <- app_assoc.
Qed.

(** X17. [may_be_rel] shows a file under the working directory by its
    path relative to it; in no case is the result longer than the path
    given. *)
Theorem may_be_rel_under_cwd base rest :
  Forall (fun c => is_name c = true) base -> base ≠ [] ->
  Forall (fun c => is_name c = true) rest -> rest ≠ [] ->
  may_be_rel (abs_of base) (abs_of base +:+ "/" +:+ Str.join rest) = Str.join rest ∧
  ∀ dir file, String.length (may_be_rel dir file) ≤ String.length file.
Proof.
  intros Hb Hbn Hr Hrn. split; [|intros dir file].
  - unfold may_be_rel.
    assert (os_path.relpath (abs_of base) (abs_of base +:+ "/" +:+ Str.join rest) "."
            = Str.join rest) as ->.
    { assert (abs_of base +:+ "/" +:+ Str.join rest = abs_of (base ++ rest)) as ->.
      { unfold abs_of. rewrite join_app by done. by rewrite app_assoc_s. }
      unfold os_path.relpath.
      assert (os_path.path_list (abs_of base) "." = base) as ->.
      { rewrite <- (path_list_abs_of (abs_of base) base) at 2 by done.
        unfold os_path.path_list. f_equal. f_equal.
        rewrite abspath_abs_of by done.
        unfold os_path.abspath. change (os_path.isabs ".") with false. cbv iota.
        rewrite join_rel by reflexivity.
        rewrite (proj2 (negb_false_iff _)), endswith_abs_of by
          (done || (unfold abs_of; rewrite app_cons; apply truthy_cons)).
        cbn [orb]. cbv iota.
        change (abs_of base +:+ "/" +:+ ".") with (abs_of base +:+ "/" +:+ Str.join ["."]).
        rewrite (normpath_under base ["."]) by (done || by constructor).
        reflexivity. }
      rewrite path_list_abs_of; [|by apply Forall_app|by destruct base].
      rewrite commonprefix_len_app, Nat.sub_diag, drop_app_length. simpl.
      by destruct rest. }
    rewrite (proj2 (Nat.ltb_lt _ _)); [done|].
    rewrite !length_app_s. unfold abs_of. simpl. lia.
  - unfold may_be_rel.
    destruct (String.length (os_path.relpath dir file ".") <? String.length file)
      eqn:Hlt; [|done].
    apply Nat.ltb_lt in Hlt. lia.
Qed.

End ExecutorMore.

Lemma copy_writes_destination_witness :
  ∃ data,
    fs Scenario2.world_relinked
      = <[os_path.abspath "/w" "/w/out/a.csv" := File data]> Scenario2.fs_linked ∧
    os.lstat "/w" (fs Scenario2.world_relinked) "/w/out/a.csv" = Some (File data) ∧
    os.stat "/w" (fs Scenario2.world_relinked) "/w/a.csv" = Some (File data) ∧
    ops Scenario2.world_relinked
      = [] ++ (if os.isfile "/w" Scenario2.fs_linked "/w/out/a.csv"
                  || os.islink "/w" Scenario2.fs_linked "/w/out/a.csv"
               then [OpRemove "/w/out/a.csv"] else [])
           ++ [OpCopy2 "/w/a.csv" "/w/out/a.csv"].
Proof.
  refine (copy_writes_destination Scenario.env_self (Scenario.options [] false) "/w/out/" ∅
            "/w/a.csv" "a.csv" (Scenario.world Scenario2.fs_linked)
            (<["/w/out/a.csv" := "/w/a.csv"]> ∅) Scenario2.world_relinked _ _ _ _).
  - reflexivity.
  - vm_compute. reflexivity.
  - vm_compute. discriminate.
  - vm_compute. reflexivity.
Defined.

Lemma link_leads_to_source_witness :
  os.lstat "/w" (fs Scenario2.world_link) "/w/out/a.csv" = Some (Link "../a.csv") ∧
  os.realpath "/w" (fs Scenario2.world_link) "/w/out/a.csv" = "/w/a.csv" ∧
  os.stat "/w" (fs Scenario2.world_link) "/w/out/a.csv" = Some (File "A").
Proof.
  refine (link_leads_to_source Scenario.env_self (Scenario.options [] true) "/w/out/" ∅
            "/w/a.csv" "a.csv" ["w"; "a.csv"] ["w"; "out"] "a.csv" "A"
            (Scenario.world Scenario.fs_self)
            (<["/w/out/a.csv" := "/w/a.csv"]> ∅) Scenario2.world_link _ _ _ _ _ _ _ _ _ _).
  - reflexivity.
  - reflexivity.
  - by repeat constructor.
  - done.
  - reflexivity.
  - by repeat constructor.
  - vm_compute. reflexivity.
  - vm_compute. reflexivity.
  - vm_compute. reflexivity.
  - vm_compute. reflexivity.
Defined.

Lemma link_step_not_repeatable_witness :
  ∃ w'',
    run_entry Scenario.env_self (Scenario.options [] true) "/w/out/" ∅
              (Some "/w/a.csv", "a.csv") Scenario2.world_link
      = (Raise (KiPlotConfigurationError
                  (self_copy_msg "/w/a.csv" (os_path.join "/w/out/" "a.csv"))), w'') ∧
    fs w'' = fs Scenario2.world_link ∧ ops w'' = ops Scenario2.world_link.
Proof.
  refine (link_step_not_repeatable Scenario.env_self (Scenario.options [] true) "/w/out/" ∅
            "/w/a.csv" "a.csv" ["w"; "a.csv"] ["w"; "out"] "a.csv" "A"
            (Scenario.world Scenario.fs_self)
            (<["/w/out/a.csv" := "/w/a.csv"]> ∅) Scenario2.world_link _ _ _ _ _ _ _ _ _ _
            (Scenario.options [] true) ∅).
  - reflexivity.
  - reflexivity.
  - by repeat constructor.
  - done.
  - reflexivity.
  - by repeat constructor.
  - vm_compute. reflexivity.
  - vm_compute. reflexivity.
  - vm_compute. reflexivity.
  - vm_compute. reflexivity.
Defined.

Lemma copy_step_repeatable_witness :
  ∃ w'',
    run_entry Scenario.env_self (Scenario.options [] false) "/w/out/" ∅
              (Some "/w/a.csv", "a.csv") Scenario2.world_copied
      = (Ok (<[os_path.join "/w/out/" "a.csv" := "/w/a.csv"]> ∅), w'') ∧
    fs w'' = fs Scenario2.world_copied ∧
    ops w'' = ops Scenario2.world_copied
                ++ [OpRemove (os_path.join "/w/out/" "a.csv");
                    OpCopy2 "/w/a.csv" (os_path.join "/w/out/" "a.csv")].
Proof.
  refine (copy_step_repeatable Scenario.env_self (Scenario.options [] false) "/w/out/" ∅
            "/w/a.csv" "a.csv" ["w"; "out"] "a.csv"
            (Scenario.world Scenario.fs_self)
            (<["/w/out/a.csv" := "/w/a.csv"]> ∅) Scenario2.world_copied _ _ _ _ _ _ ∅).
  - reflexivity.
  - reflexivity.
  - by repeat constructor.
  - vm_compute. reflexivity.
  - vm_compute. discriminate.
  - vm_compute. reflexivity.
Defined.

Lemma may_be_rel_under_cwd_witness :
  may_be_rel "/w" "/w/y/r.txt" = "y/r.txt" ∧
  ∀ dir file, String.length (may_be_rel dir file) ≤ String.length file.
Proof.
  refine (may_be_rel_under_cwd ["w"] ["y"; "r.txt"] _ _ _ _);
    try done; by repeat constructor.
Defined.

(** ** The copy loop as a whole *)

Section CopyLoop.

Context (E : Env).

Lemma ensure_dir_ops d w w1 :
  ensure_dir E d w = (Ok tt, w1) ->
  ops w1 = ops w ++ (if os.isdir (cwd E) (fs w) d then [] else [OpMakedirs d]).
Proof.
  unfold ensure_dir, isdir, gets. rewrite bind_unfold.
  destruct (os.isdir (cwd E) (fs w) d); simpl.
  - intros [= <-]. by rewrite app_nil_r.
  - by intros (_ & ? & _)%fs_call_ok.
Qed.

Lemma filter_put_app l1 l2 :
  List.filter is_put (l1 ++ l2) = List.filter is_put l1 ++ List.filter is_put l2.
Proof. apply List.filter_app. Qed.

Lemma run_entry_puts self output copied src dst w c' w' :
  run_entry E self output copied (Some src, dst) w = (Ok c', w') ->
  List.filter is_put (ops w')
  = List.filter is_put (ops w) ++ [put_op E self src (os_path.join output dst)].
Proof.
  intros H. apply run_entry_trace in H as (w1 & H1 & _ & _ & Hops & _ & Hput).
  apply ensure_dir_ops in H1. rewrite Hops, H1, !filter_put_app.
  assert (is_put (put_op E self src (os_path.join output dst)) = true) as Hp.
  { unfold put_op. by destruct (link_no_copy self). }
  cbn [List.filter]. rewrite Hp.
  destruct (os.isdir _ _ _); destruct (_ || _); cbn [List.filter is_put app];
    by rewrite ?app_nil_r.
Qed.

(** X18. When the copy loop succeeds it has made one link or one copy
    for each entry that has a source, in the order of the entries, to the
    destination joined to the output directory, and none for the files the
    collector generates; its record [copied] maps each destination to
    the last source written there. *)
Theorem copy_loop_puts self output files w c w' :
  copy_files E self output files w = (Ok c, w') ->
  List.filter is_put (ops w')
  = List.filter is_put (ops w)
      ++ omap (fun e : entry =>
                 match fst e with
                 | Some src => Some (put_op E self src (os_path.join output (snd e)))
                 | None => None
                 end) files ∧
  c = copied_of output ∅ files.
Proof.
  unfold copy_files. generalize (∅ : gmap string string) as copied.
  revert w. induction files as [|[[src|] dst] files IH]; intros w copied H.
  - injection H as <- <-. by rewrite app_nil_r.
  - rewrite foldM_cons in H.
    destruct (run_entry E self output copied (Some src, dst) w) as [[c1|e] w1] eqn:H1;
      [|discriminate].
    pose proof (run_entry_puts _ _ _ _ _ _ _ _ H1) as Hp.
    apply run_entry_trace in H1 as (_ & _ & _ & -> & _).
    destruct (IH _ _ H) as [Hops Hc]. split; [|done].
    rewrite Hops, Hp, <- app_assoc. reflexivity.
  - rewrite foldM_cons, run_entry_generated in H. by apply IH.
Qed.

End CopyLoop.

Lemma copy_loop_puts_witness :
  List.filter is_put
    (ops (snd (copy_files Scenario.env_self (Scenario.options [] false) "/w/out/"
                 [(Some "/w/x/r.txt", "all/r.txt"); (None, "all/gen.txt");
                  (Some "/w/y/r.txt", "all/r.txt")] (Scenario.world Scenario.fs_two))))
  = List.filter is_put (ops (Scenario.world Scenario.fs_two))
      ++ omap (fun e : entry =>
                 match fst e with
                 | Some src =>
                     Some (put_op Scenario.env_self (Scenario.options [] false) src
                                  (os_path.join "/w/out/" (snd e)))
                 | None => None
                 end)
              [(Some "/w/x/r.txt", "all/r.txt"); (None, "all/gen.txt");
               (Some "/w/y/r.txt", "all/r.txt")] ∧
  <["/w/out/all/r.txt" := "/w/y/r.txt"]> (∅ : gmap string string)
  = copied_of "/w/out/" ∅ [(Some "/w/x/r.txt", "all/r.txt"); (None, "all/gen.txt");
                            (Some "/w/y/r.txt", "all/r.txt")].
Proof.
  refine (copy_loop_puts Scenario.env_self (Scenario.options [] false) "/w/out/"
            [(Some "/w/x/r.txt", "all/r.txt"); (None, "all/gen.txt");
             (Some "/w/y/r.txt", "all/r.txt")] (Scenario.world Scenario.fs_two)
            (<["/w/out/all/r.txt" := "/w/y/r.txt"]> ∅) _ _).
  vm_compute. reflexivity.
Defined.

(** ** A missing source; the base directories of the models *)

Section MissingSource.

Context (E : Env).

Lemma fs_call_copy_fail s d w :
  os.copy2 (cwd E) (fs w) s d = None ->
  fs_call E (OpCopy2 s d) w = (Raise (OSError "copy2" s), add_op (OpCopy2 s d) w).
Proof.
  intros H. unfold fs_call, modify, try_fs. rewrite bind_unfold. cbn [fs add_op].
  by rewrite H.
Qed.

(** X26. A copy step whose source does not exist fails in [copy2], with
    an [OSError], after the file that was at the destination has been
    removed: the destination is lost. *)
Theorem missing_source_removes_destination self output copied src dst d0 w :
  link_no_copy self = false ->
  let dest := os_path.join output dst in
  os.isdir (cwd E) (fs w) (os_path.dirname dest) = true ->
  os.stat (cwd E) (fs w) src = None ->
  os.lstat (cwd E) (fs w) dest = Some (File d0) ->
  ∃ w',
    run_entry E self output copied (Some src, dst) w
      = (Raise (OSError "copy2" src), w') ∧
    os.lstat (cwd E) (fs w') dest = None ∧
    ops w' = ops w ++ [OpRemove dest; OpCopy2 src dest].
Proof.
  intros Hcopy dest Hdir Hsrc Hdest.
  unfold run_entry. fold dest.
  rewrite bind_unfold, (ensure_dir_present E _ _ Hdir).
  rewrite bind_unfold, warn_copyover_eq.
  set (w2 := match copied !! dest with Some prev => _ | None => w end).
  assert (fs w2 = fs w ∧ ops w2 = ops w) as [Hf2 Ho2].
  { unfold w2. by destruct (copied !! dest). }
  clearbody w2.
  rewrite bind_unfold, check_self_copy_pass by
    (by unfold os.samefile; rewrite Hf2, Hsrc).
  rewrite bind_unfold, (remove_old_file E dest d0) by by rewrite Hf2.
  rewrite Hf2. unfold put_op. rewrite Hcopy.
  assert (os_path.abspath (cwd E) dest ≠ "/") as Hroot.
  { intros Heq. unfold os.lstat in Hdest. by rewrite Heq in Hdest. }
  assert (os.stat (cwd E) (delete (os_path.abspath (cwd E) dest) (fs w)) src = None) as Hs.
  { unfold os.stat in *.
    destruct (os.resolve os.MAXSYMLINKS (delete (os_path.abspath (cwd E) dest) (fs w))
                         (os_path.abspath (cwd E) src)) as [r [x|]] eqn:Hr; [|done].
    apply resolve_delete in Hr. by rewrite Hr in Hsrc. }
  rewrite bind_unfold, fs_call_copy_fail by
    (by cbn [fs set_fs add_op]; unfold os.copy2; rewrite Hs).
  eexists. split; [reflexivity|]. cbn [fs ops set_fs add_op]. split.
  - unfold os.lstat. by apply get_delete_eq.
  - by rewrite Ho2, <- app_assoc.
Qed.

(** X27. The directory of the 3D models of KiCad comes first among the
    base directories and the directory of the board last. So a model
    under the former, which is itself under the latter, is copied under
    its path relative to the directory of the models, below the output
    directory of the entry when its destination ends in [+] (append
    mode); an entry with a plain destination sends every model flat to
    that destination, under its base name. *)
Theorem models_dir_first self f P m rest w :
  pcb_dir E = Some (abs_of P) -> models_3d_dir E = m ->
  Forall (fun c => is_name c = true) P -> P ≠ [] -> is_name m = true ->
  Forall (fun c => is_name c = true) rest -> rest ≠ [] ->
  ∃ rd,
    base_paths E w = (Ok rd, w) ∧
    head rd = Some (Some (abs_of (P ++ [m]))) ∧
    last rd = Some (Some (abs_of P)) ∧
    dest_of E (set_rel_dirs self rd) f (cwd E) true false (abs_of (P ++ m :: rest))
      = if Str.truthy (dest f) && negb (_append_mode f)
        then os_path.join (dest f) (os_path.basename (abs_of (P ++ m :: rest)))
        else if _append_mode f then os_path.join (f_output_dir f) (Str.join rest)
             else Str.join rest.
Proof.
  intros Hpcb Hm HP HPn Hname Hrest Hrn.
  assert (os_path.normpath (os_path.join (abs_of P) m) = abs_of (P ++ [m])) as Hnorm.
  { rewrite join_rel.
    - rewrite (proj2 (negb_false_iff _)), endswith_abs_of by
        (done || (unfold abs_of; rewrite app_cons; apply truthy_cons)).
      cbn [orb]. cbv iota.
      assert (abs_of P +:+ "/" +:+ m = abs_of (P ++ [m])) as ->.
      { rewrite abs_of_snoc. by rewrite bool_decide_false. }
      apply normpath_abs_of; [|by destruct P].
      apply Forall_app. split; [done|by constructor].
    - destruct (name_head m Hname) as (x & s & -> & Hx).
      unfold Str.startswith. by apply prefix_cons_ne. }
  assert (Str.truthy m = true) as Htm.
  { destruct (name_head m Hname) as (x & s & -> & _). apply truthy_cons. }
  unfold base_paths. rewrite Hpcb, Hm, Htm. rewrite !bind_unfold. cbn [mret M_ret].
  rewrite Hnorm.
  assert (abs_of (P ++ m :: rest) = abs_of (P ++ [m]) +:+ "/" +:+ Str.join rest) as Hfname.
  { rewrite (cons_middle m P rest), app_assoc. unfold abs_of.
    rewrite join_app by (done || by destruct P). by rewrite app_assoc_s. }
  assert (os_path.relpath (cwd E) (abs_of (P ++ [m]) +:+ "/" +:+ Str.join rest)
                          (abs_of (P ++ [m])) = Str.join rest) as Hrel.
  { apply relpath_strip; [|by destruct P|done..].
    apply Forall_app. split; [done|by constructor]. }
  destruct (Str.truthy (party_3rd_dir E)); rewrite bind_unfold; cbn [mret M_ret];
    eexists; (split; [reflexivity|]); (split; [reflexivity|]);
    (split; [cbn [app]; by rewrite ?last_cons|]);
    unfold dest_of;
    (destruct (Str.truthy (dest f) && negb (_append_mode f)); [reflexivity|]);
    rewrite isabs_abs_of; cbn [orb andb]; cbv iota;
    rewrite Hfname; cbn [rel_dirs set_rel_dirs app first_base];
    by rewrite startswith_app, Hrel.
Qed.

End MissingSource.

Lemma missing_source_removes_destination_witness :
  ∃ w',
    run_entry Scenario.env_self (Scenario.options [] false) "/w/out/" ∅
              (Some "/w/gone.csv", "b.csv") (Scenario.world Scenario.fs_self)
      = (Raise (OSError "copy2" "/w/gone.csv"), w') ∧
    os.lstat "/w" (fs w') (os_path.join "/w/out/" "b.csv") = None ∧
    ops w' = [] ++ [OpRemove (os_path.join "/w/out/" "b.csv");
                    OpCopy2 "/w/gone.csv" (os_path.join "/w/out/" "b.csv")].
Proof.
  refine (missing_source_removes_destination Scenario.env_self (Scenario.options [] false)
            "/w/out/" ∅ "/w/gone.csv" "b.csv" "B" (Scenario.world Scenario.fs_self) _ _ _ _);
    vm_compute; reflexivity.
Defined.

Lemma models_dir_first_witness :
  ∃ rd,
    base_paths Scenario.env_models (Scenario.world Scenario.fs_models)
      = (Ok rd, Scenario.world Scenario.fs_models) ∧
    head rd = Some (Some (abs_of (["proj"] ++ ["3d"]))) ∧
    last rd = Some (Some (abs_of ["proj"])) ∧
    dest_of Scenario.env_models (set_rel_dirs (Scenario.options [] false) rd)
            (Scenario.spec "*" st_3d_models "") "/w" true false
            (abs_of (["proj"] ++ "3d" :: ["sub"; "part.step"]))
      = Str.join ["sub"; "part.step"].
Proof.
  refine (models_dir_first Scenario.env_models (Scenario.options [] false)
            (Scenario.spec "*" st_3d_models "") ["proj"] "3d" ["sub"; "part.step"]
            (Scenario.world Scenario.fs_models) _ _ _ _ _ _ _);
    try done; try reflexivity; by repeat constructor.
Defined.

Example models_flat_or_nested :
  let self := Scenario.options_models [] in
  dest_of Scenario.env_models self (Scenario.spec "*" st_3d_models "models") "/w" true false
          "/proj/3d/sub/part.step" = "models/part.step" ∧
  dest_of Scenario.env_models self
          (mkFilesList "*" st_3d_models ".*" "models+" false true "models" []) "/w" true false
          "/proj/3d/sub/part.step" = "models/sub/part.step".
Proof. split; vm_compute; reflexivity. Qed.

(** * Properties of the command line *)

(** ** The [VARIABLE=VALUE] options *)

Lemma has_eq_assign v x : Main.has_eq (v +:+ "=" +:+ x) = true.
Proof.
  unfold Main.has_eq. induction v as [|c v IH]; [reflexivity|].
  rewrite app_cons. simpl. rewrite IH. apply orb_true_r.
Qed.

Lemma before_eq_assign v x : Main.has_eq v = false -> Main.before_eq (v +:+ "=" +:+ x) = v.
Proof.
  unfold Main.has_eq. induction v as [|c v IH]; [reflexivity|].
  simpl. intros [Hc Hv]%orb_false_iff. rewrite Hc. by rewrite (IH Hv).
Qed.

Lemma substring_skip a b n m :
  String.substring (String.length a + n) m (a +:+ b) = String.substring n m b.
Proof. induction a as [|c a IH]; [reflexivity|]. rewrite app_cons. simpl. apply IH. Qed.

Lemma substring_all x : String.substring 0 (String.length x) x = x.
Proof. induction x as [|c x IH]; [reflexivity|]. simpl. by rewrite IH. Qed.

Lemma slice_assign v x : Main.slice_from (String.length v + 1) (v +:+ "=" +:+ x) = x.
Proof.
  unfold Main.slice_from. rewrite !length_app_s, substring_skip.
  replace (String.length v + (String.length "=" + String.length x) - (String.length v + 1))
    with (String.length x) by (simpl; lia).
  simpl. apply substring_all.
Qed.

(** the text before the first [=] has no [=], and the option is made of
    it, the sign and the value *)
Lemma split_assign define :
  Main.has_eq define = true ->
  Main.has_eq (Main.before_eq define) = false ∧
  define = Main.before_eq define +:+ "="
             +:+ Main.slice_from (String.length (Main.before_eq define) + 1) define.
Proof.
  unfold Main.has_eq. induction define as [|c s IH]; [done|].
  simpl. destruct (Ascii.eqb c "=") eqn:Hc.
  - intros _. split; [done|]. apply Ascii.eqb_eq in Hc as ->.
    unfold Main.slice_from. simpl. rewrite Nat.sub_0_r. by rewrite substring_all.
  - simpl. intros Hs. destruct (IH Hs) as [Hb Heq]. simpl. rewrite Hc. split; [done|].
    rewrite app_cons. f_equal. unfold Main.slice_from in *. simpl. exact Heq.
Qed.

Lemma foldl_insert_last (pairs post : list (string * string)) v x (d : gmap string string) :
  v ∉ post.*1 ->
  foldl (fun m p => <[fst p := snd p]> m) d (pairs ++ (v, x) :: post) !! v = Some x.
Proof.
  intros Hv. rewrite foldl_app. simpl.
  generalize (foldl (fun m p => <[fst p := snd p]> m) d pairs). intros m.
  assert (<[v := x]> m !! v = Some x) as H by apply lookup_insert_eq.
  revert H. generalize (<[v := x]> m). clear m.
  induction post as [|[v' x'] post IH]; intros m H; [done|].
  simpl. apply IH.
  - intros Hin. apply Hv. by right.
  - rewrite lookup_insert_ne; [done|]. intros ->. apply Hv. by left.
Qed.

(** X19. The options [VARIABLE=VALUE] written from pairs whose variable
    has no [=] are read back as these pairs, by [parse_defines] and by
    [parse_global_redef] alike: the dictionary gets each pair in turn, so
    that a variable has the value of its last option; the value may be
    empty or hold further [=] signs. Nothing is logged. Every option
    with a [=] is of this form. *)
Theorem parse_defines_round_trip (pairs : list (string * string)) (d : gmap string string) :
  Forall (fun p => Main.has_eq (fst p) = false) pairs ->
  let args := (fun p => fst p +:+ "=" +:+ snd p) <$> pairs in
  let d' := foldl (fun m p => <[fst p := snd p]> m) d pairs in
  Main.parse_defines args d = (Main.Return tt, d', []) ∧
  Main.parse_global_redef args d = (Main.Return tt, d', []) ∧
  (∀ pre v x post, pairs = pre ++ (v, x) :: post -> v ∉ post.*1 -> d' !! v = Some x) ∧
  (∀ define, Main.has_eq define = true ->
             ∃ v x, Main.has_eq v = false ∧ define = v +:+ "=" +:+ x).
Proof.
  intros H args d'. subst args d'. split; [|split; [|split]].
  - revert d. induction H as [|[v x] pairs Hv _ IH]; intros d; [reflexivity|].
    rewrite fmap_cons. cbn [Main.parse_defines fst snd foldl].
    rewrite has_eq_assign. cbn [negb].
    by rewrite (before_eq_assign v x Hv), slice_assign, IH.
  - revert d. induction H as [|[v x] pairs Hv _ IH]; intros d; [reflexivity|].
    rewrite fmap_cons. cbn [Main.parse_global_redef fst snd foldl].
    rewrite has_eq_assign. cbn [negb].
    by rewrite (before_eq_assign v x Hv), slice_assign, IH.
  - intros pre v x post -> Hv. by apply foldl_insert_last.
  - intros define Hd. destruct (split_assign define Hd) as [Hv Heq]. by eexists _, _.
Qed.

(** X20. An option without [=] ends [parse_defines], and
    [parse_global_redef], with [sys.exit(EXIT_BAD_ARGS)] and one error that
    quotes it: the options before it are in the dictionary already,
    those after it are not read. *)
Theorem parse_defines_malformed good bad rest (d : gmap string string) :
  Forall (fun a => Main.has_eq a = true) good ->
  Main.has_eq bad = false ->
  ∃ d',
    Main.parse_defines good d = (Main.Return tt, d', []) ∧
    Main.parse_defines (good ++ bad :: rest) d
      = (Main.SysExit Main.EXIT_BAD_ARGS, d',
         [Main.LogError ("Malformed `define` option, must be VARIABLE=VALUE ("
                         +:+ bad +:+ ")")]) ∧
    Main.parse_global_redef good d = (Main.Return tt, d', []) ∧
    Main.parse_global_redef (good ++ bad :: rest) d
      = (Main.SysExit Main.EXIT_BAD_ARGS, d',
         [Main.LogError ("Malformed global-redef option, must be VARIABLE=VALUE ("
                         +:+ bad +:+ ")")]).
Proof.
  intros H Hbad. revert d. induction H as [|a good Ha _ IH]; intros d.
  - exists d. cbn [app Main.parse_defines Main.parse_global_redef]. by rewrite Hbad.
  - cbn [app Main.parse_defines Main.parse_global_redef]. rewrite Ha. cbn [negb].
    apply IH.
Qed.

Lemma parse_defines_round_trip_witness :
  Main.parse_defines ["A=1"; "B=x=y"; "A="] ∅
    = (Main.Return tt, <["A" := ""]> (<["B" := "x=y"]> (<["A" := "1"]> ∅)), []).
Proof.
  refine (proj1 (parse_defines_round_trip [("A", "1"); ("B", "x=y"); ("A", "")] ∅ _)).
  by repeat constructor.
Defined.

Lemma parse_defines_malformed_witness :
  ∃ d',
    Main.parse_defines ["A=1"] ∅ = (Main.Return tt, d', []) ∧
    Main.parse_defines (["A=1"] ++ "B" :: ["C=2"]) ∅
      = (Main.SysExit Main.EXIT_BAD_ARGS, d',
         [Main.LogError ("Malformed `define` option, must be VARIABLE=VALUE ("
                         +:+ "B" +:+ ")")]) ∧
    Main.parse_global_redef ["A=1"] ∅ = (Main.Return tt, d', []) ∧
    Main.parse_global_redef (["A=1"] ++ "B" :: ["C=2"]) ∅
      = (Main.SysExit Main.EXIT_BAD_ARGS, d',
         [Main.LogError ("Malformed global-redef option, must be VARIABLE=VALUE ("
                         +:+ "B" +:+ ")")]).
Proof.
  refine (parse_defines_malformed ["A=1"] "B" ["C=2"] ∅ _ _).
  - by repeat constructor.
  - reflexivity.
Defined.

(** ** The version of KiCad *)

(** what a detection that returns has set *)
Lemma detect_kicad_fields sys k log :
  Main.detect_kicad sys = (Main.Return k, log) ->
  let major := Main.kicad_version_major k in
  let minor := Main.kicad_version_minor k in
  Main.kicad_version_n k
  = (major * 10000000 + minor * 10000 + Main.kicad_version_patch k * 10
     + Main.kicad_version_subpatch k)%N ∧
  Main.ki5 k = (major <? 6)%N ∧
  Main.ki6 k = (6 <=? major)%N ∧
  Main.ki6_only k = (major =? 6)%N ∧
  Main.ki7 k = (7 <=? major)%N ∧
  Main.ki8 k = ((major =? 7)%N && (99 <=? minor)%N) || (8 <=? major)%N ∧
  Main.footprint_gr_type k = (if negb (Main.ki8 k) then "MGRAPHIC" else "PCB_SHAPE") ∧
  Main.board_gr_type k = (if Main.ki5 k then "DRAWSEGMENT" else "PCB_SHAPE") ∧
  Main.pro_ext k = (if Main.ki6 k then ".kicad_pro" else ".pro") ∧
  Main.work_layer k = (if Main.ki6 k then "User.9" else "Rescue").
Proof.
  unfold Main.detect_kicad.
  destruct (Main.pcbnew sys) as [p|]; [|discriminate].
  destruct (match Main.GetBuildVersion p with Some v => _ | None => _ end) as [version log0].
  destruct (Main.search_version (Main.after_really version)) as [[[[g1 g2] g3] g4]|];
    [|discriminate].
  cbv zeta.
  destruct (6 <=? Main.int g1)%N eqn:H6;
    [destruct (Main.nightly sys)|]; intros [= <- _]; cbn; rewrite ?H6; done.
Qed.

(** X21. The version flags a successful detection sets are consistent:
    [ki5] is the negation of [ki6], [ki6_only] means [ki6] and not [ki7],
    [ki8] implies [ki7] and [ki7] implies [ki6]; version 7.99 counts as 8;
    the type of the board graphics, the extension of the project and the
    work layer follow [ki5] and [ki6], the type of the footprint graphics
    follows [ki8]. *)
Theorem detect_kicad_flags sys k log :
  Main.detect_kicad sys = (Main.Return k, log) ->
  Main.ki5 k = negb (Main.ki6 k) ∧
  Main.ki6_only k = Main.ki6 k && negb (Main.ki7 k) ∧
  (Main.ki8 k = true -> Main.ki7 k = true) ∧
  (Main.ki7 k = true -> Main.ki6 k = true) ∧
  (Main.kicad_version_major k = 7%N -> Main.kicad_version_minor k = 99%N ->
   Main.ki8 k = true) ∧
  (Main.board_gr_type k = "DRAWSEGMENT" <-> Main.ki5 k = true) ∧
  (Main.footprint_gr_type k = "MGRAPHIC" <-> Main.ki8 k = false) ∧
  (Main.pro_ext k = ".kicad_pro" <-> Main.ki6 k = true) ∧
  (Main.work_layer k = "User.9" <-> Main.ki6 k = true).
Proof.
  intros H. apply detect_kicad_fields in H.
  destruct H as (_ & H5 & H6 & H6o & H7 & H8 & Hf & Hb & Hp & Hw).
  rewrite Hf, Hb, Hp, Hw. rewrite H5, H6, H6o, H7, H8.
  set (major := Main.kicad_version_major k). set (minor := Main.kicad_version_minor k).
  destruct (N.ltb_spec major 6), (N.leb_spec 6 major), (N.eqb_spec major 6),
    (N.leb_spec 7 major), (N.eqb_spec major 7), (N.leb_spec 8 major),
    (N.leb_spec 99 minor); try lia; cbn; repeat split; try done; intros; lia.
Qed.

(** X22. As long as the minor and the patch numbers stay below 1000 and
    the sub-patch number below 10, the number [kicad_version_n] orders the
    versions as their four numbers do, the major number first. *)
Theorem kicad_version_n_order sys1 k1 log1 sys2 k2 log2 :
  Main.detect_kicad sys1 = (Main.Return k1, log1) ->
  Main.detect_kicad sys2 = (Main.Return k2, log2) ->
  (Main.kicad_version_minor k1 < 1000)%N -> (Main.kicad_version_patch k1 < 1000)%N ->
  (Main.kicad_version_subpatch k1 < 10)%N ->
  (Main.kicad_version_minor k2 < 1000)%N -> (Main.kicad_version_patch k2 < 1000)%N ->
  (Main.kicad_version_subpatch k2 < 10)%N ->
  (Main.kicad_version_n k1 < Main.kicad_version_n k2)%N <->
  (Main.kicad_version_major k1 < Main.kicad_version_major k2)%N
  ∨ (Main.kicad_version_major k1 = Main.kicad_version_major k2 ∧
     ((Main.kicad_version_minor k1 < Main.kicad_version_minor k2)%N
      ∨ (Main.kicad_version_minor k1 = Main.kicad_version_minor k2 ∧
         ((Main.kicad_version_patch k1 < Main.kicad_version_patch k2)%N
          ∨ (Main.kicad_version_patch k1 = Main.kicad_version_patch k2 ∧
             (Main.kicad_version_subpatch k1 < Main.kicad_version_subpatch k2)%N))))).
Proof.
  intros H1 H2. apply detect_kicad_fields in H1 as [-> _].
  apply detect_kicad_fields in H2 as [-> _]. lia.
Qed.

(** X23. The nightly build changes nothing in what the detection finds
    but [kicad_dir]: the path [/usr/share/kicad] holds no [/kicad/] to
    replace, so the shared path and the directories of the plug-ins are
    those of the regular build. *)
Theorem detect_kicad_nightly p home msg k log :
  Main.detect_kicad (Main.mkSystem (Some p) true home msg) = (Main.Return k, log) ->
  ∃ k0,
    Main.detect_kicad (Main.mkSystem (Some p) false home msg) = (Main.Return k0, log) ∧
    Main.kicad_share_path k = "/usr/share/kicad" ∧
    Main.kicad_share_path k0 = "/usr/share/kicad" ∧
    Main.kicad_plugins_dirs k = Main.kicad_plugins_dirs k0 ∧
    Main.kicad_conf_path k = Main.kicad_conf_path k0 ∧
    Main.kicad_version_n k = Main.kicad_version_n k0 ∧
    Main.kicad_dir k = (if Main.ki6 k then Some "kicad-nightly" else None) ∧
    Main.kicad_dir k0 = None.
Proof.
  unfold Main.detect_kicad. cbn [Main.pcbnew Main.nightly Main.HOME].
  destruct (match Main.GetBuildVersion p with Some v => _ | None => _ end) as [version log0].
  destruct (Main.search_version (Main.after_really version)) as [[[[g1 g2] g3] g4]|];
    [|discriminate].
  cbv zeta. change (Main.replace "/usr/share/kicad" "/kicad/" "/kicad-nightly/")
    with "/usr/share/kicad".
  destruct (6 <=? Main.int g1)%N eqn:H6; intros [= <- <-]; eexists;
    (split; [reflexivity|]); cbn; rewrite ?H6; done.
Qed.

Lemma kicad_version_n_order_witness :
  (Main.kicad_version_n Scenario2.kicad_6_0_11 < Main.kicad_version_n Scenario2.kicad_7_0_1)%N
  <->
  (Main.kicad_version_major Scenario2.kicad_6_0_11
   < Main.kicad_version_major Scenario2.kicad_7_0_1)%N
  ∨ (Main.kicad_version_major Scenario2.kicad_6_0_11
     = Main.kicad_version_major Scenario2.kicad_7_0_1 ∧
     ((Main.kicad_version_minor Scenario2.kicad_6_0_11
       < Main.kicad_version_minor Scenario2.kicad_7_0_1)%N
      ∨ (Main.kicad_version_minor Scenario2.kicad_6_0_11
         = Main.kicad_version_minor Scenario2.kicad_7_0_1 ∧
         ((Main.kicad_version_patch Scenario2.kicad_6_0_11
           < Main.kicad_version_patch Scenario2.kicad_7_0_1)%N
          ∨ (Main.kicad_version_patch Scenario2.kicad_6_0_11
             = Main.kicad_version_patch Scenario2.kicad_7_0_1 ∧
             (Main.kicad_version_subpatch Scenario2.kicad_6_0_11
              < Main.kicad_version_subpatch Scenario2.kicad_7_0_1)%N))))).
Proof.
  refine (kicad_version_n_order (Scenario2.system "6.0.11" false) _ []
                                (Scenario2.system "7.0.1.2" false) _ [] _ _ _ _ _ _ _ _);
    vm_compute; reflexivity.
Defined.

Lemma detect_kicad_flags_witness :
  Main.ki5 Scenario2.kicad_7_0_1 = negb (Main.ki6 Scenario2.kicad_7_0_1) ∧
  Main.ki6_only Scenario2.kicad_7_0_1
    = Main.ki6 Scenario2.kicad_7_0_1 && negb (Main.ki7 Scenario2.kicad_7_0_1) ∧
  (Main.ki8 Scenario2.kicad_7_0_1 = true -> Main.ki7 Scenario2.kicad_7_0_1 = true) ∧
  (Main.ki7 Scenario2.kicad_7_0_1 = true -> Main.ki6 Scenario2.kicad_7_0_1 = true) ∧
  (Main.kicad_version_major Scenario2.kicad_7_0_1 = 7%N ->
   Main.kicad_version_minor Scenario2.kicad_7_0_1 = 99%N ->
   Main.ki8 Scenario2.kicad_7_0_1 = true) ∧
  (Main.board_gr_type Scenario2.kicad_7_0_1 = "DRAWSEGMENT"
   <-> Main.ki5 Scenario2.kicad_7_0_1 = true) ∧
  (Main.footprint_gr_type Scenario2.kicad_7_0_1 = "MGRAPHIC"
   <-> Main.ki8 Scenario2.kicad_7_0_1 = false) ∧
  (Main.pro_ext Scenario2.kicad_7_0_1 = ".kicad_pro"
   <-> Main.ki6 Scenario2.kicad_7_0_1 = true) ∧
  (Main.work_layer Scenario2.kicad_7_0_1 = "User.9"
   <-> Main.ki6 Scenario2.kicad_7_0_1 = true).
Proof.
  refine (detect_kicad_flags (Scenario2.system "7.0.1.2" false) Scenario2.kicad_7_0_1 [] _).
  vm_compute. reflexivity.
Defined.

Lemma detect_kicad_nightly_witness :
  ∃ k0,
    Main.detect_kicad (Scenario2.system "7.0.1.2" false) = (Main.Return k0, []) ∧
    Main.kicad_share_path Scenario2.kicad_nightly = "/usr/share/kicad" ∧
    Main.kicad_share_path k0 = "/usr/share/kicad" ∧
    Main.kicad_plugins_dirs Scenario2.kicad_nightly = Main.kicad_plugins_dirs k0 ∧
    Main.kicad_conf_path Scenario2.kicad_nightly = Main.kicad_conf_path k0 ∧
    Main.kicad_version_n Scenario2.kicad_nightly = Main.kicad_version_n k0 ∧
    Main.kicad_dir Scenario2.kicad_nightly
      = (if Main.ki6 Scenario2.kicad_nightly then Some "kicad-nightly" else None) ∧
    Main.kicad_dir k0 = None.
Proof.
  refine (detect_kicad_nightly
            (Main.mkPcbnew (Some "7.0.1.2") "/home/u/.config/kicad/user" "/home/u/.config/kicad")
            (Some "/home/u") "Try the check" Scenario2.kicad_nightly [] _).
  vm_compute. reflexivity.
Defined.

(** ** The configuration file *)

Lemma match_lits lit s :
  fnmatch.match_toks (fnmatch.TLit <$> list_ascii_of_string lit) s = true <-> s = lit.
Proof.
  revert s. induction lit as [|d lit IH]; intros s.
  - simpl. apply eqb_true.
  - destruct s as [|c s]; simpl; [done|].
    rewrite andb_true_iff, IH, Ascii.eqb_eq. split.
    + by intros [-> ->].
    + by intros [= -> ->].
Qed.

Lemma match_star_lits lit s :
  fnmatch.match_toks (fnmatch.TStar :: (fnmatch.TLit <$> list_ascii_of_string lit)) s = true
  <-> ∃ pre, s = pre +:+ lit.
Proof.
  induction s as [|c s IH].
  - simpl. rewrite orb_false_r, match_lits. split.
    + intros <-. by exists "".
    + intros (pre & H). destruct pre; [done|by rewrite app_cons in H].
  - change (fnmatch.match_toks
              (fnmatch.TStar :: (fnmatch.TLit <$> list_ascii_of_string lit)) (String c s))
      with (fnmatch.match_toks (fnmatch.TLit <$> list_ascii_of_string lit) (String c s)
            || fnmatch.match_toks
                 (fnmatch.TStar :: (fnmatch.TLit <$> list_ascii_of_string lit)) s).
    rewrite orb_true_iff, match_lits, IH. split.
    + intros [<-|(pre & ->)]; [by exists ""|by exists (String c pre)].
    + intros ([|c' pre] & H); [by left|]. right. rewrite app_cons in H.
      injection H as -> ->. by exists pre.
Qed.

Lemma comp_match_star suffix n :
  fnmatch.translate 0 ("*" +:+ suffix)
    = fnmatch.TStar :: (fnmatch.TLit <$> list_ascii_of_string suffix) ->
  glob.comp_match ("*" +:+ suffix) n = true
  <-> glob.is_hidden n = false ∧ ∃ pre, n = pre +:+ suffix.
Proof.
  intros Ht. rewrite <- match_star_lits. unfold glob.comp_match, fnmatch.fnmatch.
  rewrite Ht.
  assert (glob.has_magic ("*" +:+ suffix) = true) as -> by reflexivity.
  assert (glob.is_hidden ("*" +:+ suffix) = false) as ->.
  { unfold glob.is_hidden, Str.startswith. by apply prefix_cons_ne. }
  by rewrite orb_false_r, andb_true_iff, negb_true_iff.
Qed.

(** the three patterns of [solve_config] ask for a name that is not
    hidden and ends as the pattern does *)
Lemma comp_match_suffix suffix n :
  suffix ∈ [".kibot.yaml"; ".kiplot.yaml"; ".kibot.yaml.gz"] ->
  glob.comp_match ("*" +:+ suffix) n = true
  <-> glob.is_hidden n = false ∧ ∃ pre, n = pre +:+ suffix.
Proof.
  intros Hs.
  repeat (apply elem_of_cons in Hs as [->|Hs]); [..|by apply elem_of_nil in Hs];
    by apply comp_match_star.
Qed.

Lemma glob_here_elem cwd (fs : FS) pat n :
  n ∈ Main.glob_here cwd fs pat <->
  (∃ k, is_Some (fs !! k) ∧ os_path.dirname k = cwd ∧ os_path.basename k = n) ∧
  glob.comp_match pat n = true.
Proof.
  unfold Main.glob_here. rewrite list_elem_of_In, filter_In, <- list_elem_of_In.
  rewrite list_elem_of_fmap.
  assert (∀ k, k ∈ List.filter (fun k => Str.eqb (os_path.dirname k) cwd)
                               (fst <$> map_to_list fs)
               <-> is_Some (fs !! k) ∧ os_path.dirname k = cwd) as Hk.
  { intros k. rewrite list_elem_of_In, filter_In, <- list_elem_of_In, eqb_true.
    rewrite list_elem_of_fmap. split.
    - intros [([k' v] & -> & Hkv) Hd]. split; [|done].
      apply elem_of_map_to_list in Hkv. by exists v.
    - intros [[v Hv] Hd]. split; [|done]. exists (k, v). split; [done|].
      by apply elem_of_map_to_list. }
  split.
  - intros [(k & -> & Hin) Hm]. split; [|done]. exists k. apply Hk in Hin as [? ?]. done.
  - intros [(k & Hex & Hd & <-) Hm]. split; [|done]. exists k. split; [done|].
    by apply Hk.
Qed.

(** the names [solve_config] chooses from *)
Lemma candidates_elem cwd (fs : FS) n :
  n ∈ Main.glob_here cwd fs "*.kibot.yaml" ++ Main.glob_here cwd fs "*.kiplot.yaml"
        ++ Main.glob_here cwd fs "*.kibot.yaml.gz" <->
  (∃ k, is_Some (fs !! k) ∧ os_path.dirname k = cwd ∧ os_path.basename k = n) ∧
  glob.is_hidden n = false ∧
  ∃ pre suffix, suffix ∈ [".kibot.yaml"; ".kiplot.yaml"; ".kibot.yaml.gz"] ∧
                n = pre +:+ suffix.
Proof.
  rewrite !elem_of_app, !glob_here_elem.
  change "*.kibot.yaml" with ("*" +:+ ".kibot.yaml").
  change "*.kiplot.yaml" with ("*" +:+ ".kiplot.yaml").
  change "*.kibot.yaml.gz" with ("*" +:+ ".kibot.yaml.gz").
  rewrite !comp_match_suffix by (repeat constructor). split.
  - intros [(Hk & Hh & pre & ->)|[(Hk & Hh & pre & ->)|(Hk & Hh & pre & ->)]];
      (split; [done|]); (split; [done|]); eexists pre, _; (split; [|reflexivity]);
      repeat constructor.
  - intros (Hk & Hh & pre & suffix & Hs & ->).
    repeat (apply elem_of_cons in Hs as [->|Hs]); [..|by apply elem_of_nil in Hs].
    + left. split; [done|]. split; [done|]. by exists pre.
    + right. left. split; [done|]. split; [done|]. by exists pre.
    + right. right. split; [done|]. split; [done|]. by exists pre.
Qed.

Lemma check_config_return cwd (fs : FS) p log0 c log :
  Main.check_config cwd fs p log0 = (Main.Return c, log) ->
  c = p ∧ log = log0 ∧ os.isfile cwd fs p = true.
Proof.
  unfold Main.check_config. destruct (os.isfile cwd fs p); [|discriminate].
  by intros [= <- <-].
Qed.

(** X24. The configuration [solve_config] returns is a regular file. A
    name given with [-c] is returned as it is, and nothing is logged;
    with no name the one returned is a name of the working directory that
    is not hidden and ends in [.kibot.yaml], [.kiplot.yaml] or
    [.kibot.yaml.gz]. *)
Theorem solve_config_returns cwd (fs : FS) a quiet c log :
  Main.solve_config cwd fs a quiet = (Main.Return c, log) ->
  os.isfile cwd fs c = true ∧
  (default "" a ≠ "" -> c = default "" a ∧ log = []) ∧
  (default "" a = "" ->
   (∃ k, is_Some (fs !! k) ∧ os_path.dirname k = cwd ∧ os_path.basename k = c) ∧
   glob.is_hidden c = false ∧
   ∃ pre suffix, suffix ∈ [".kibot.yaml"; ".kiplot.yaml"; ".kibot.yaml.gz"] ∧
                 c = pre +:+ suffix).
Proof.
  unfold Main.solve_config. cbv zeta.
  destruct (Str.truthy (default "" a)) eqn:Ht; cbn [negb].
  - intros (-> & -> & Hf)%check_config_return. split; [done|].
    split; [done|]. intros Heq. by rewrite Heq in Ht.
  - apply truthy_false in Ht. intros H.
    pose proof (candidates_elem cwd fs) as Hc.
    destruct (Main.glob_here cwd fs "*.kibot.yaml" ++ Main.glob_here cwd fs "*.kiplot.yaml"
                ++ Main.glob_here cwd fs "*.kibot.yaml.gz") as [|p [|p2 l]];
      [discriminate|..];
      apply check_config_return in H as (-> & _ & Hf);
      (split; [done|]); (split; [done|]); intros _; apply Hc; by left.
Qed.

(** X25. [solve_config] only exits with [EXIT_BAD_ARGS], after an error.
    With no name given it does so when the working directory has no name
    that is not hidden and ends in [.kibot.yaml], [.kiplot.yaml] or
    [.kibot.yaml.gz]; and when the first name found is not a regular
    file, whatever the other names are. *)
Theorem solve_config_exits cwd (fs : FS) a quiet :
  (∀ level log,
     Main.solve_config cwd fs a quiet = (Main.SysExit level, log) ->
     level = Main.EXIT_BAD_ARGS ∧ ∃ pre msg, log = pre ++ [Main.LogError msg]) ∧
  (default "" a = "" ->
   (∀ k pre suffix,
      is_Some (fs !! k) -> os_path.dirname k = cwd ->
      suffix ∈ [".kibot.yaml"; ".kiplot.yaml"; ".kibot.yaml.gz"] ->
      os_path.basename k = pre +:+ suffix -> glob.is_hidden (os_path.basename k) = true) ->
   Main.solve_config cwd fs a quiet
     = (Main.SysExit Main.EXIT_BAD_ARGS,
        [Main.LogError "No config file found (*.kibot.yaml), use -c to specify one."])) ∧
  (default "" a = "" ->
   ∀ p l,
     Main.glob_here cwd fs "*.kibot.yaml" ++ Main.glob_here cwd fs "*.kiplot.yaml"
       ++ Main.glob_here cwd fs "*.kibot.yaml.gz" = p :: l ->
     os.isfile cwd fs p = false ->
     ∃ log, Main.solve_config cwd fs a quiet = (Main.SysExit Main.EXIT_BAD_ARGS, log)).
Proof.
  split; [|split].
  - intros level log. unfold Main.solve_config, Main.check_config. cbv zeta.
    destruct (Str.truthy (default "" a)); cbn [negb].
    + destruct (os.isfile cwd fs (default "" a)); [discriminate|].
      intros [= <- <-]. split; [done|]. by eexists [], _.
    + destruct (Main.glob_here cwd fs "*.kibot.yaml" ++ Main.glob_here cwd fs "*.kiplot.yaml"
                  ++ Main.glob_here cwd fs "*.kibot.yaml.gz") as [|p [|p2 l]].
      * intros [= <- <-]. split; [done|]. by eexists [], _.
      * destruct (os.isfile cwd fs p); [discriminate|].
        intros [= <- <-]. split; [done|]. by eexists _, _.
      * destruct (os.isfile cwd fs p); [discriminate|].
        intros [= <- <-]. split; [done|]. by eexists [_], _.
  - intros Ha Hnone. unfold Main.solve_config. cbv zeta. rewrite Ha.
    change (negb (Str.truthy "")) with true. cbv iota.
    pose proof (candidates_elem cwd fs) as Hc.
    destruct (Main.glob_here cwd fs "*.kibot.yaml" ++ Main.glob_here cwd fs "*.kiplot.yaml"
                ++ Main.glob_here cwd fs "*.kibot.yaml.gz") as [|p l]; [done|].
    exfalso. destruct (proj1 (Hc p) ltac:(by left))
      as ((k & Hk & Hd & Hb) & Hh & pre & suffix & Hs & Heq).
    rewrite <- Hb in Hh, Heq. by rewrite (Hnone k pre suffix Hk Hd Hs Heq) in Hh.
  - intros Ha p l Hcands Hf. unfold Main.solve_config, Main.check_config. cbv zeta.
    rewrite Ha. change (negb (Str.truthy "")) with true. cbv iota.
    rewrite Hcands. destruct l; rewrite Hf; cbn [negb]; by eexists.
Qed.

Lemma solve_config_returns_witness :
  os.isfile "/w" Scenario2.fs_configs "a.kibot.yaml" = true ∧
  (default "" None ≠ "" -> "a.kibot.yaml" = default "" None ∧
     [Main.LogInfo "Using config file: a.kibot.yaml"] = []) ∧
  (default "" None = "" ->
   (∃ k, is_Some (Scenario2.fs_configs !! k) ∧ os_path.dirname k = "/w" ∧
         os_path.basename k = "a.kibot.yaml") ∧
   glob.is_hidden "a.kibot.yaml" = false ∧
   ∃ pre suffix, suffix ∈ [".kibot.yaml"; ".kiplot.yaml"; ".kibot.yaml.gz"] ∧
                 "a.kibot.yaml" = pre +:+ suffix).
Proof.
  refine (solve_config_returns "/w" Scenario2.fs_configs None false "a.kibot.yaml"
            [Main.LogInfo "Using config file: a.kibot.yaml"] _).
  vm_compute. reflexivity.
Defined.

(** ** Edges: a link to a missing source, a version that is not found *)

Lemma resolve_loop n (fs0 : FS) q t :
  os.get fs0 q = Some (Link t) ->
  os_path.normpath (os_path.join (os_path.dirname q) t) = q ->
  os.resolve n fs0 q = (q, None).
Proof.
  intros Hq Ht. induction n as [|n IH]; simpl; rewrite Hq; [done|]. by rewrite Ht.
Qed.

Section LinkEdges.

Context (E : Env).

Lemma remove_old_absent dest w :
  os.lstat (cwd E) (fs w) dest = None -> remove_old E dest w = (Ok tt, w).
Proof.
  intros H. unfold remove_old, isfile, islink, gets. rewrite !bind_unfold.
  unfold os.isfile, os.islink, os.stat. unfold os.lstat in *.
  by rewrite (resolve_none _ _ _ H), H.
Qed.

Lemma fs_call_symlink t p w fs' :
  os.symlink (cwd E) (fs w) t p = Some fs' ->
  fs_call E (OpSymlink t p) w = (Ok tt, set_fs (fun _ => fs') (add_op (OpSymlink t p) w)).
Proof.
  intros H. unfold fs_call, modify, try_fs. rewrite bind_unfold. cbn [fs add_op].
  by rewrite H.
Qed.

(** X28. The link mode does not look at the source. For a source and a
    destination written as absolute paths made of names, no directory on
    the way to either being a link: when the source does not exist, the
    directory of the destination is there and nothing is at the
    destination, the step succeeds and leaves a link that leads nowhere. *)
Theorem link_to_missing_source self output copied src dst sn ds c w :
  link_no_copy self = true ->
  let dest := os_path.join output dst in
  src = abs_of sn -> Forall (fun x => is_name x = true) sn -> sn ≠ [] ->
  dest = abs_of (ds ++ [c]) -> Forall (fun x => is_name x = true) (ds ++ [c]) ->
  plain_dirs (fs w) sn = true -> plain_dirs (fs w) (ds ++ [c]) = true ->
  os.isdir (cwd E) (fs w) (os_path.dirname dest) = true ->
  os.lstat (cwd E) (fs w) src = None ->
  os.lstat (cwd E) (fs w) dest = None ->
  ∃ w',
    run_entry E self output copied (Some src, dst) w = (Ok (<[dest := src]> copied), w') ∧
    os.lstat (cwd E) (fs w') dest
      = Some (Link (os_path.relpath (cwd E) src (os_path.dirname dest))) ∧
    os.stat (cwd E) (fs w') dest = None ∧
    ops w' = ops w ++ [OpSymlink (os_path.relpath (cwd E) src (os_path.dirname dest)) dest].
Proof.
  intros Hlink dest Hsrc Hsn Hsne Hdest Hdn _ _ Hdir Hnosrc Hnodest.
  assert (os_path.abspath (cwd E) src = src) as Hasrc.
  { rewrite Hsrc. by apply abspath_abs_of. }
  assert (os_path.abspath (cwd E) dest = dest) as Hadest.
  { rewrite Hdest. apply abspath_abs_of; [done|]. by destruct ds. }
  unfold os.lstat in Hnosrc, Hnodest. rewrite Hasrc in Hnosrc. rewrite Hadest in Hnodest.
  destruct (get_none _ _ Hnodest) as [Hroot _].
  set (t := os_path.relpath (cwd E) src (os_path.dirname dest)).
  assert (os_path.normpath (os_path.join (os_path.dirname dest) t) = src) as Hback.
  { subst t. apply Forall_app in Hdn as [Hds Hc]. rewrite Forall_singleton in Hc.
    rewrite Hdest, dirname_abs_of, Hsrc by done. by apply link_round_trip. }
  assert (os.symlink (cwd E) (fs w) t dest = Some (<[dest := Link t]> (fs w))) as Hsym.
  { unfold os.symlink, os.lstat. by rewrite Hadest, Hnodest, Hdir. }
  unfold run_entry. fold dest.
  rewrite bind_unfold, (ensure_dir_present E _ _ Hdir).
  rewrite bind_unfold, warn_copyover_eq.
  set (w2 := match copied !! dest with Some prev => _ | None => w end).
  assert (fs w2 = fs w ∧ ops w2 = ops w) as [Hf2 Ho2].
  { unfold w2. by destruct (copied !! dest). }
  clearbody w2.
  rewrite bind_unfold, check_self_copy_pass by
    (by unfold os.samefile, os.stat; rewrite Hf2, Hasrc, (resolve_none _ _ _ Hnosrc)).
  rewrite bind_unfold, remove_old_absent by
    (by unfold os.lstat; rewrite Hf2, Hadest).
  unfold put_op. rewrite Hlink. fold t.
  rewrite bind_unfold, (fs_call_symlink t dest w2 (<[dest := Link t]> (fs w))) by
    by rewrite Hf2.
  eexists. split; [reflexivity|]. cbn [fs ops set_fs add_op].
  assert (os.get (<[dest := Link t]> (fs w)) dest = Some (Link t)) as Hl
      by by apply get_insert_eq.
  split; [by unfold os.lstat; rewrite Hadest|]. split; [|by rewrite Ho2].
  unfold os.stat. rewrite Hadest.
  destruct (decide (src = dest)) as [Heq|Hne].
  - rewrite (resolve_loop _ _ _ _ Hl); [done|]. by rewrite Hback.
  - unfold os.MAXSYMLINKS. rewrite (resolve_link _ _ _ _ Hl), Hback.
    rewrite resolve_none; [done|]. by rewrite get_insert_ne.
Qed.

End LinkEdges.

(** X29. [detect_kicad] only exits with [NO_PCBNEW_MODULE], after an
    error: when the module cannot be imported or when no version number is
    found. A module without [GetBuildVersion] is no failure: one warning is
    logged and the version is taken to be 5.1.5, a KiCad 5. *)
Theorem detect_kicad_edges sys :
  (∀ level log,
     Main.detect_kicad sys = (Main.SysExit level, log) ->
     level = Main.NO_PCBNEW_MODULE ∧ (∃ pre msg, log = pre ++ [Main.LogError msg]) ∧
     (Main.pcbnew sys = None
      ∨ ∃ p, Main.pcbnew sys = Some p ∧
             Main.search_version
               (Main.after_really (default "5.1.5" (Main.GetBuildVersion p))) = None)) ∧
  (∀ p, Main.pcbnew sys = Some p -> Main.GetBuildVersion p = None ->
        ∃ k, Main.detect_kicad sys
             = (Main.Return k,
                [Main.LogWarning Main.W_NOKIVER
                   "Unknown KiCad version, please install KiCad 5.1.6 or newer"]) ∧
             Main.kicad_version k = "5.1.5" ∧ Main.kicad_version_n k = 50010050%N ∧
             Main.ki5 k = true ∧ Main.ki6 k = false ∧
             Main.kicad_conf_path k = Main.GetKicadConfigPath p ∧
             Main.kicad_dir k = None).
Proof.
  split.
  - intros level log. unfold Main.detect_kicad.
    destruct (Main.pcbnew sys) as [p|].
    + destruct (Main.GetBuildVersion p) as [v|] eqn:Hv; cbn [default].
      * destruct (Main.search_version (Main.after_really v)) as [[[[g1 g2] g3] g4]|] eqn:Hs.
        -- cbv zeta. destruct (6 <=? Main.int g1)%N; [destruct (Main.nightly sys)|];
             discriminate.
        -- intros [= <- <-]. split; [done|]. split; [by eexists [], _|].
           right. exists p. split; [done|]. by rewrite Hv.
      * change (Main.search_version (Main.after_really "5.1.5"))
          with (Some ("5", "1", "5", @None string)).
        cbv zeta. change (6 <=? Main.int "5")%N with false. discriminate.
    + intros [= <- <-]. split; [done|]. split; [by eexists [_], _|]. by left.
  - intros p Hp Hv. unfold Main.detect_kicad. rewrite Hp, Hv.
    eexists. split; [reflexivity|]. done.
Qed.

Lemma link_to_missing_source_witness :
  ∃ w',
    run_entry Scenario.env_self (Scenario.options [] true) "/w/out/" ∅
              (Some "/w/gone.csv", "gone.csv") (Scenario.world Scenario.fs_self)
      = (Ok (<[os_path.join "/w/out/" "gone.csv" := "/w/gone.csv"]> ∅), w') ∧
    os.lstat "/w" (fs w') (os_path.join "/w/out/" "gone.csv")
      = Some (Link (os_path.relpath "/w" "/w/gone.csv"
                      (os_path.dirname (os_path.join "/w/out/" "gone.csv")))) ∧
    os.stat "/w" (fs w') (os_path.join "/w/out/" "gone.csv") = None ∧
    ops w' = [] ++ [OpSymlink (os_path.relpath "/w" "/w/gone.csv"
                                 (os_path.dirname (os_path.join "/w/out/" "gone.csv")))
                              (os_path.join "/w/out/" "gone.csv")].
Proof.
  refine (link_to_missing_source Scenario.env_self (Scenario.options [] true) "/w/out/" ∅
            "/w/gone.csv" "gone.csv" ["w"; "gone.csv"] ["w"; "out"] "gone.csv"
            (Scenario.world Scenario.fs_self) _ _ _ _ _ _ _ _ _ _ _);
    try done; try reflexivity; try (by repeat constructor); vm_compute; reflexivity.
Defined.
